(** * Trading bot: trigger engine and simulated exchange

    A shallow embedding of [backend/mock_angelone_api.py] (the simulated
    exchange: order state machine and position ledger) and of
    [backend/main.py] (the trigger scheduler and the auto-exit watchdog),
    followed by the properties of the design document that concern them.

    Conventions of the embedding.
    - A price, an average or a PnL is held as the rational number [Q] that
      the Python value denotes: a [float] is the rational it is equal to, a
      numeric string ([str(new_net)], [position["avgprice"]], the
      ["quantity"] and ["price"] of a request, taken to be well-formed
      numerals) is the number it spells; order and trade identifiers keep
      their decimal string form.
    - Where the code computes with floats (the weighted average of a
      position, the target and the stop of a trigger, the simulated price
      move), the embedding computes in IEEE 754 binary64 ([Binary64] below):
      the operands are converted with [Binary64.of_Q], which is [float(s)]
      on a numeral and the identity on a float, each operation rounds to
      nearest with ties to even, and [round(x, 2)] rounds the exact value of
      the float [x] to the nearest hundredth with ties to even, as CPython
      does. The operations follow IEEE 754 on the infinities and on NaN as
      well; only [Binary64.to_Q], which reads a result back as a price, has
      no value for them: it reads them as 0, and prices of ordinary size do
      not produce them.
    - The PnL of a position, [(ltp - avgprice) * netqty] rounded to two
      decimals, is computed on the rationals: both prices are numbers of
      hundredths, so the exact product is one as well, and the float
      product, which is within a rounding error of it, rounds to it.
      [calculate_pnl], which is not rounded, is stated on the rationals.
    - Python dictionaries are [gmap]s, so the order in which a dictionary
      is traversed is that of [map_to_list], not the insertion order; the
      random draw, the clock and the freshly generated identifiers are
      explicit inputs.
    - Every request handler, every pass of a monitor loop and every body
      of a background thread is one atomic step: interleavings inside them
      are not represented. *)

From Stdlib Require Import ZArith QArith Qround String Ascii DecimalString DecimalZ Lia Lqa.
From Stdlib Require Import SpecFloat PrimFloat FloatOps.
From stdpp Require Import gmap strings list fin_maps.

Local Open Scope Z_scope.

(** ** Numbers *)

(** [str(n)] for a Python [int]. *)
Definition str (n : Z) : string := NilZero.string_of_int (Z.to_int n).

Definition Qlt_bool (x y : Q) : bool :=
  match (x ?= y)%Q with Lt => true | _ => false end.

(** Nearest integer, ties to even. *)
Definition round_half_even (x : Q) : Z :=
  let f := Qfloor x in
  match (x - inject_Z f ?= 1 # 2)%Q with
  | Lt => f
  | Gt => f + 1
  | Eq => if Z.even f then f else f + 1
  end.

(** [round(x, ndigits)]. *)
Definition round (x : Q) (ndigits : nat) : Q :=
  let scale := inject_Z (10 ^ Z.of_nat ndigits) in
  (inject_Z (round_half_even (x * scale)) / scale)%Q.

(** ** Binary64 floating point

    Python's [float] is IEEE 754 binary64. Its operations are those of the
    specification of floating-point arithmetic of the standard library
    ([SpecFloat]) at precision 53 and maximal exponent 1024, with rounding
    to nearest, ties to even. *)

Module Binary64.

Definition prec : Z := 53.
Definition emax : Z := 1024.

Definition float : Type := spec_float.

Definition zero : float := S754_zero false.

Definition add : float -> float -> float := SFadd prec emax.
Definition sub : float -> float -> float := SFsub prec emax.
Definition mul : float -> float -> float := SFmul prec emax.
Definition div : float -> float -> float := SFdiv prec emax.
Definition leb : float -> float -> bool := SFleb.

Definition is_finite (x : float) : bool :=
  match x with
  | S754_zero _ | S754_finite _ _ _ => true
  | S754_infinity _ | S754_nan => false
  end.

(** [float(n)] for a Python [int]. *)
Definition of_Z (n : Z) : float := binary_normalize prec emax n 0 false.

(** The float nearest to a rational: [float(s)] for a string [s] that
    denotes it, and the float itself when the rational is one. The
    quotient of the numerator by the denominator is rounded once. *)
Definition of_Q (x : Q) : float :=
  match Qnum x with
  | Z0 => zero
  | Zpos n => div (S754_finite false n 0) (S754_finite false (Qden x) 0)
  | Zneg n => div (S754_finite true n 0) (S754_finite false (Qden x) 0)
  end.

(** The rational that a finite float is equal to (0 for the infinities
    and for NaN). *)
Definition to_Q (x : float) : Q :=
  match x with
  | S754_finite s m e =>
    let v := match e with
             | Z0 => inject_Z (Zpos m)
             | Zpos k => inject_Z (Zpos m * 2 ^ Zpos k)
             | Zneg k => Zpos m # (2 ^ k)
             end in
    if s then Qopp v else v
  | _ => 0%Q
  end.

End Binary64.

Declare Scope b64_scope.
Delimit Scope b64_scope with b64.
Infix "+" := Binary64.add : b64_scope.
Infix "-" := Binary64.sub : b64_scope.
Infix "*" := Binary64.mul : b64_scope.
Infix "/" := Binary64.div : b64_scope.
Infix "<=?" := Binary64.leb : b64_scope.

(** * The simulated exchange ([mock_angelone_api.py]) *)

Module MockApi.

(** ** Records held by [MockDataStore] *)

Record Scrip := {
  scr_tradingsymbol : string;
  scr_symboltoken : string;
  scr_exchange : string;
  scr_name : string
}.

(** An entry of [mock_store.orders]. *)
Record Order := {
  ord_orderid : string;
  ord_variety : string;
  ord_tradingsymbol : string;
  ord_symboltoken : string;
  ord_transactiontype : string;
  ord_exchange : string;
  ord_ordertype : string;
  ord_producttype : string;
  ord_duration : string;
  ord_price : Q;
  ord_quantity : Z;
  ord_triggerprice : string;
  ord_status : string;
  ord_orderstatus : string;
  ord_updatetime : string;
  ord_ordertime : string
}.

(** An entry of [mock_store.trades]. *)
Record Trade := {
  trd_tradeid : string;
  trd_orderid : string;
  trd_tradingsymbol : string;
  trd_exchange : string;
  trd_transactiontype : string;
  trd_quantity : Z;
  trd_price : Q;
  trd_timestamp : string;
  trd_symboltoken : string
}.

(** An entry of [mock_store.positions]. *)
Record Position := {
  symboltoken : string;
  tradingsymbol : string;
  exchange : string;
  netqty : Z;
  avgprice : Q;
  ltp : Q;
  pnl : Q;
  buyqty : Z;
  sellqty : Z;
  buyvalue : Q;
  sellvalue : Q
}.

Record MockDataStore := {
  orders : gmap string Order;
  trades : gmap string Trade;
  positions : gmap string Position;
  price_data : gmap string Q;          (* token -> "ltp" *)
  scrip_master : list Scrip;
  order_counter : Z;
  trade_counter : Z
}.

Definition _init_scrip_master : list Scrip :=
  [ Build_Scrip "SBIN-EQ" "3045" "NSE" "STATE BANK OF INDIA";
    Build_Scrip "RELIANCE-EQ" "2885" "NSE" "RELIANCE INDUSTRIES LTD";
    Build_Scrip "TCS-EQ" "11536" "NSE" "TATA CONSULTANCY SERVICES LTD";
    Build_Scrip "INFY-EQ" "1594" "NSE" "INFOSYS LIMITED";
    Build_Scrip "HDFC-EQ" "1333" "NSE" "HDFC LIMITED";
    Build_Scrip "HDFCBANK-EQ" "1333" "NSE" "HDFC BANK LIMITED";
    Build_Scrip "ICICIBANK-EQ" "4963" "NSE" "ICICI BANK LIMITED";
    Build_Scrip "KOTAKBANK-EQ" "1922" "NSE" "KOTAK MAHINDRA BANK LIMITED";
    Build_Scrip "LT-EQ" "11483" "NSE" "LARSEN & TOUBRO LIMITED";
    Build_Scrip "WIPRO-EQ" "3787" "NSE" "WIPRO LIMITED" ].

Definition _init_stock_prices : gmap string Q :=
  list_to_map
    [ ("3045", 52050 # 100); ("2885", 285075 # 100); ("11536", 389025 # 100);
      ("1594", 178050 # 100); ("1333", 265075 # 100); ("4963", 105025 # 100);
      ("1922", 192050 # 100); ("11483", 342075 # 100); ("3787", 68025 # 100) ]%Q.

(** [MockDataStore.__init__]. *)
Definition mock_store_init : MockDataStore :=
  {| orders := ∅; trades := ∅; positions := ∅;
     price_data := _init_stock_prices;
     scrip_master := _init_scrip_master;
     order_counter := 200910000000000;
     trade_counter := 100000 |}.

Definition generate_order_id (s : MockDataStore) : string * MockDataStore :=
  let c := order_counter s + 1 in
  (str c,
   {| orders := orders s; trades := trades s; positions := positions s;
      price_data := price_data s; scrip_master := scrip_master s;
      order_counter := c; trade_counter := trade_counter s |}).

Definition generate_trade_id (s : MockDataStore) : string * MockDataStore :=
  let c := trade_counter s + 1 in
  (str c,
   {| orders := orders s; trades := trades s; positions := positions s;
      price_data := price_data s; scrip_master := scrip_master s;
      order_counter := order_counter s; trade_counter := c |}).

Definition get_symbol_info (s : MockDataStore) (token : string) : option Scrip :=
  List.find (fun stock => String.eqb (scr_symboltoken stock) token) (scrip_master s).

(** [mock_store.price_data.get(token, {}).get("ltp", 0)]. *)
Definition get_ltp (s : MockDataStore) (token : string) : Q :=
  default 0%Q (price_data s !! token).

(** ** Position netting (the ledger update inside [process_order]) *)

(** The record created when [position_key not in mock_store.positions]. *)
Definition new_position (order : Order) (current_price : Q) : Position :=
  {| symboltoken := ord_symboltoken order;
     tradingsymbol := ord_tradingsymbol order;
     exchange := ord_exchange order;
     netqty := 0; avgprice := 0; ltp := current_price; pnl := 0;
     buyqty := 0; sellqty := 0; buyvalue := 0; sellvalue := 0 |}.

(** The [BUY] / [else] branch that rewrites quantities and the average.
    [current_net * current_avg], [quantity * execution_price], their sum
    and its quotient by [new_net] are float operations; the integers are
    converted by [float(n)]. *)
Definition apply_fill (position : Position) (transactiontype : string)
    (quantity : Z) (execution_price : Q) : Position :=
  let value :=
    (Binary64.of_Z quantity * Binary64.of_Q execution_price)%b64 in
  if String.eqb transactiontype "BUY" then
    let current_net := netqty position in
    let current_avg := Binary64.of_Q (avgprice position) in
    let new_net := current_net + quantity in
    let new_avg :=
      if 0 <? new_net then
        Binary64.to_Q
          ((Binary64.of_Z current_net * current_avg + value)
           / Binary64.of_Z new_net)%b64
      else 0%Q in
    {| symboltoken := symboltoken position;
       tradingsymbol := tradingsymbol position;
       exchange := exchange position;
       netqty := new_net;
       avgprice := round new_avg 2;
       ltp := ltp position; pnl := pnl position;
       buyqty := buyqty position + quantity;
       sellqty := sellqty position;
       buyvalue :=
         Binary64.to_Q (Binary64.of_Q (buyvalue position) + value)%b64;
       sellvalue := sellvalue position |}
  else
    let current_net := netqty position in
    let new_net := current_net - quantity in
    {| symboltoken := symboltoken position;
       tradingsymbol := tradingsymbol position;
       exchange := exchange position;
       netqty := new_net;
       avgprice := if new_net =? 0 then 0%Q else avgprice position;
       ltp := ltp position; pnl := pnl position;
       buyqty := buyqty position;
       sellqty := sellqty position + quantity;
       buyvalue := buyvalue position;
       sellvalue :=
         Binary64.to_Q (Binary64.of_Q (sellvalue position) + value)%b64 |}.

(** The PnL recomputation and the [ltp] refresh that follow. *)
Definition mark_position (position : Position) (current_price : Q) : Position :=
  {| symboltoken := symboltoken position;
     tradingsymbol := tradingsymbol position;
     exchange := exchange position;
     netqty := netqty position;
     avgprice := avgprice position;
     ltp := current_price;
     pnl := if netqty position =? 0 then 0%Q
            else round ((current_price - avgprice position)
                        * inject_Z (netqty position))%Q 2;
     buyqty := buyqty position; sellqty := sellqty position;
     buyvalue := buyvalue position; sellvalue := sellvalue position |}.

(** The whole position update of one fill. *)
Definition update_position (position : Position) (transactiontype : string)
    (quantity : Z) (execution_price current_price : Q) : Position :=
  mark_position (apply_fill position transactiontype quantity execution_price)
                current_price.

(** ** Order resolution ([simulate_order_execution] / [process_order]) *)

Definition position_key (order : Order) : string :=
  ord_symboltoken order +:+ "_" +:+ ord_exchange order.

(** The order after [order["status"] = ...], [order["orderstatus"] = ...],
    [order["price"] = ...] and [order["updatetime"] = ...]. *)
Definition resolve_order (order : Order) (status orderstatus : string)
    (price : Q) (now : string) : Order :=
  {| ord_orderid := ord_orderid order;
     ord_variety := ord_variety order;
     ord_tradingsymbol := ord_tradingsymbol order;
     ord_symboltoken := ord_symboltoken order;
     ord_transactiontype := ord_transactiontype order;
     ord_exchange := ord_exchange order;
     ord_ordertype := ord_ordertype order;
     ord_producttype := ord_producttype order;
     ord_duration := ord_duration order;
     ord_price := price;
     ord_quantity := ord_quantity order;
     ord_triggerprice := ord_triggerprice order;
     ord_status := status;
     ord_orderstatus := orderstatus;
     ord_updatetime := now;
     ord_ordertime := ord_ordertime order |}.

(** 95% success rate for market orders, 90% for limit orders. *)
Definition success_rate (order : Order) : Q :=
  if String.eqb (ord_ordertype order) "MARKET" then 95 # 100 else 90 # 100.

(** The body of the background thread started for [order_id]; [rnd] is the
    value drawn by [random.random()], [now] the clock reading. *)
Definition process_order (order_id : string) (rnd : Q) (now : string)
    (mock_store : MockDataStore) : MockDataStore :=
  match orders mock_store !! order_id with
  | None => mock_store
  | Some order =>
    if Qlt_bool rnd (success_rate order) then
      let current_price := get_ltp mock_store (ord_symboltoken order) in
      let execution_price :=
        if String.eqb (ord_ordertype order) "MARKET" then current_price
        else ord_price order in
      let order' := resolve_order order "complete" "executed" execution_price now in
      let '(trade_id, store1) := generate_trade_id mock_store in
      let trade_data :=
        {| trd_tradeid := trade_id;
           trd_orderid := order_id;
           trd_tradingsymbol := ord_tradingsymbol order;
           trd_exchange := ord_exchange order;
           trd_transactiontype := ord_transactiontype order;
           trd_quantity := ord_quantity order;
           trd_price := execution_price;
           trd_timestamp := now;
           trd_symboltoken := ord_symboltoken order |} in
      let key := position_key order in
      let position :=
        default (new_position order current_price) (positions mock_store !! key) in
      let position' :=
        update_position position (ord_transactiontype order)
                        (ord_quantity order) execution_price current_price in
      {| orders := <[order_id := order']> (orders mock_store);
         trades := <[trade_id := trade_data]> (trades mock_store);
         positions := <[key := position']> (positions mock_store);
         price_data := price_data mock_store;
         scrip_master := scrip_master mock_store;
         order_counter := order_counter mock_store;
         trade_counter := trade_counter store1 |}
    else
      let order' := resolve_order order "rejected" "rejected" (ord_price order) now in
      {| orders := <[order_id := order']> (orders mock_store);
         trades := trades mock_store;
         positions := positions mock_store;
         price_data := price_data mock_store;
         scrip_master := scrip_master mock_store;
         order_counter := order_counter mock_store;
         trade_counter := trade_counter mock_store |}
  end.

(** ** Endpoints *)

Record PlaceOrderRequest := {
  req_variety : string;
  req_tradingsymbol : string;
  req_symboltoken : string;
  req_transactiontype : string;
  req_exchange : string;
  req_ordertype : string;
  req_producttype : string;
  req_duration : string;
  req_price : Q;
  req_quantity : Z;
  req_triggerprice : string
}.

Record ModifyOrderRequest := {
  mod_orderid : string;
  mod_price : Q;
  mod_quantity : Z;
  mod_triggerprice : string
}.

Record CancelOrderRequest := { can_orderid : string }.

(** What an endpoint answers: the 401 raised by [validate_auth_token], a
    body with ["status": False] and an error code, or ["status": True]. *)
Inductive Response :=
| Unauthorized
| Failure (errorcode : string)
| Success (orderid : string).

Definition with_orders (s : MockDataStore) (os : gmap string Order) : MockDataStore :=
  {| orders := os; trades := trades s; positions := positions s;
     price_data := price_data s; scrip_master := scrip_master s;
     order_counter := order_counter s; trade_counter := trade_counter s |}.

(** [place_order]: the third component is the order whose background
    thread has been started, if any. [authorized] tells whether
    [validate_auth_token] accepts the request's header. *)
Definition place_order (request : PlaceOrderRequest) (authorized : bool)
    (now : string) (mock_store : MockDataStore)
    : MockDataStore * Response * option string :=
  if negb authorized then (mock_store, Unauthorized, None)
  else
    let '(order_id, store1) := generate_order_id mock_store in
    match get_symbol_info store1 (req_symboltoken request) with
    | None => (store1, Failure "AG8003", None)
    | Some _ =>
      let order_data :=
        {| ord_orderid := order_id;
           ord_variety := req_variety request;
           ord_tradingsymbol := req_tradingsymbol request;
           ord_symboltoken := req_symboltoken request;
           ord_transactiontype := req_transactiontype request;
           ord_exchange := req_exchange request;
           ord_ordertype := req_ordertype request;
           ord_producttype := req_producttype request;
           ord_duration := req_duration request;
           ord_price := req_price request;
           ord_quantity := req_quantity request;
           ord_triggerprice := req_triggerprice request;
           ord_status := "pending";
           ord_orderstatus := "open";
           ord_updatetime := now;
           ord_ordertime := now |} in
      (with_orders store1 (<[order_id := order_data]> (orders store1)),
       Success order_id, Some order_id)
    end.

Definition modify_order (request : ModifyOrderRequest) (authorized : bool)
    (now : string) (mock_store : MockDataStore) : MockDataStore * Response :=
  if negb authorized then (mock_store, Unauthorized)
  else
    match orders mock_store !! mod_orderid request with
    | None => (mock_store, Failure "AG8005")
    | Some order =>
      if negb (String.eqb (ord_status order) "pending") then
        (mock_store, Failure "AG8006")
      else
        let order' :=
          {| ord_orderid := ord_orderid order;
             ord_variety := ord_variety order;
             ord_tradingsymbol := ord_tradingsymbol order;
             ord_symboltoken := ord_symboltoken order;
             ord_transactiontype := ord_transactiontype order;
             ord_exchange := ord_exchange order;
             ord_ordertype := ord_ordertype order;
             ord_producttype := ord_producttype order;
             ord_duration := ord_duration order;
             ord_price := mod_price request;
             ord_quantity := mod_quantity request;
             ord_triggerprice := mod_triggerprice request;
             ord_status := ord_status order;
             ord_orderstatus := ord_orderstatus order;
             ord_updatetime := now;
             ord_ordertime := ord_ordertime order |} in
        (with_orders mock_store (<[mod_orderid request := order']> (orders mock_store)),
         Success (mod_orderid request))
    end.

Definition cancel_order (request : CancelOrderRequest) (authorized : bool)
    (now : string) (mock_store : MockDataStore) : MockDataStore * Response :=
  if negb authorized then (mock_store, Unauthorized)
  else
    match orders mock_store !! can_orderid request with
    | None => (mock_store, Failure "AG8005")
    | Some order =>
      if negb (String.eqb (ord_status order) "pending") then
        (mock_store, Failure "AG8008")
      else
        let order' :=
          resolve_order order "cancelled" "cancelled" (ord_price order) now in
        (with_orders mock_store (<[can_orderid request := order']> (orders mock_store)),
         Success (can_orderid request))
    end.

(** One pass of [_update_prices] over a token: the new last traded price
    is stored rounded to two decimals. *)
Definition update_price (token : string) (new_ltp : Q)
    (mock_store : MockDataStore) : MockDataStore :=
  match price_data mock_store !! token with
  | None => mock_store
  | Some _ =>
    {| orders := orders mock_store; trades := trades mock_store;
       positions := positions mock_store;
       price_data := <[token := round new_ltp 2]> (price_data mock_store);
       scrip_master := scrip_master mock_store;
       order_counter := order_counter mock_store;
       trade_counter := trade_counter mock_store |}
  end.

(** ** The exchange as a transition system

    The store together with the background threads that have been started
    and have not run yet (each is identified by the order it resolves). *)

Record Exchange := {
  store : MockDataStore;
  threads : list string
}.

Definition exchange_init : Exchange :=
  {| store := mock_store_init; threads := [] |}.

Inductive Event :=
| PlaceOrder (request : PlaceOrderRequest) (authorized : bool) (now : string)
| ModifyOrder (request : ModifyOrderRequest) (authorized : bool) (now : string)
| CancelOrder (request : CancelOrderRequest) (authorized : bool) (now : string)
| ProcessOrder (order_id : string) (rnd : Q) (now : string)
| UpdatePrice (token : string) (new_ltp : Q).

Fixpoint remove_thread (order_id : string) (ts : list string) : list string :=
  match ts with
  | [] => []
  | t :: ts' => if String.eqb t order_id then ts' else t :: remove_thread order_id ts'
  end.

(** [ProcessOrder] is enabled only for a thread that is waiting. *)
Definition exchange_step (x : Exchange) (e : Event) : option Exchange :=
  match e with
  | PlaceOrder request authorized now =>
    let '(s, _, started) := place_order request authorized now (store x) in
    Some {| store := s;
            threads := match started with
                       | Some order_id => threads x ++ [order_id]
                       | None => threads x
                       end |}
  | ModifyOrder request authorized now =>
    Some {| store := fst (modify_order request authorized now (store x));
            threads := threads x |}
  | CancelOrder request authorized now =>
    Some {| store := fst (cancel_order request authorized now (store x));
            threads := threads x |}
  | ProcessOrder order_id rnd now =>
    if bool_decide (order_id ∈ threads x) then
      Some {| store := process_order order_id rnd now (store x);
              threads := remove_thread order_id (threads x) |}
    else None
  | UpdatePrice token new_ltp =>
    Some {| store := update_price token new_ltp (store x); threads := threads x |}
  end.

Fixpoint exchange_run (x : Exchange) (es : list Event) : option Exchange :=
  match es with
  | [] => Some x
  | e :: es' =>
    match exchange_step x e with
    | Some x' => exchange_run x' es'
    | None => None
    end
  end.

(** ** Properties stated about the ledger and the order book *)

(** The ledger invariant of a position: net quantity is bought minus sold,
    and a flat position shows a zero average. *)
Definition ledger_ok (p : Position) : Prop :=
  netqty p = buyqty p - sellqty p ∧ (netqty p = 0 → (avgprice p == 0)%Q).

(** The instrument of a trade, as the key of its position. *)
Definition trade_key (t : Trade) : string :=
  trd_symboltoken t +:+ "_" +:+ trd_exchange t.

(** Cumulative quantity of the trades recorded on [key] that are BUYs
    ([buys = true]) or of the others. *)
Definition traded_qty (buys : bool) (key : string) (s : MockDataStore) : Z :=
  map_fold (fun _ t acc =>
              if bool_decide (trade_key t = key)
                 && Bool.eqb (String.eqb (trd_transactiontype t) "BUY") buys
              then trd_quantity t + acc else acc)
           0 (trades s).

(** The ledger agrees with the trade book: the bought and sold quantities
    of a position are the cumulative quantities of the trades on its
    instrument, and nothing has been traded where there is no position;
    trade identifiers are those that have been generated. *)
Definition fills_inv (s : MockDataStore) : Prop :=
  (∀ k t, trades s !! k = Some t → ∃ n, k = str n ∧ n ≤ trade_counter s)
  ∧ ∀ key,
      match positions s !! key with
      | Some p => buyqty p = traded_qty true key s
                  ∧ sellqty p = traded_qty false key s
                  ∧ ledger_ok p
      | None => traded_qty true key s = 0 ∧ traded_qty false key s = 0
      end.

(** A fill as the ledger sees it: side, quantity, execution price and the
    market price at resolution. *)
Record Fill := {
  fill_side : string;
  fill_quantity : Z;
  fill_price : Q;
  fill_ltp : Q
}.

Definition apply_fills (p : Position) (fills : list Fill) : Position :=
  foldl (fun p f => update_position p (fill_side f) (fill_quantity f)
                                    (fill_price f) (fill_ltp f)) p fills.

(** Cumulative quantity of the fills that are BUYs ([buys = true]) or of
    the others. *)
Definition filled_qty (buys : bool) (fills : list Fill) : Z :=
  foldr (fun f acc =>
           if Bool.eqb (String.eqb (fill_side f) "BUY") buys
           then fill_quantity f + acc else acc) 0 fills.

(** What is known of the threads and of the identifiers in use. *)
Definition exchange_inv (x : Exchange) : Prop :=
  NoDup (threads x)
  ∧ (∀ id, id ∈ threads x → ∃ n, id = str n ∧ n ≤ order_counter (store x))
  ∧ (∀ id o, orders (store x) !! id = Some o →
             ∃ n, id = str n ∧ n ≤ order_counter (store x))
  ∧ (∀ id o, orders (store x) !! id = Some o →
             ord_status o = "complete" ∨ ord_status o = "rejected" →
             id ∉ threads x).

(** ** Sample data *)

Definition sbin_request (side : string) (qty : Z) : PlaceOrderRequest :=
  {| req_variety := "NORMAL"; req_tradingsymbol := "SBIN-EQ";
     req_symboltoken := "3045"; req_transactiontype := side;
     req_exchange := "NSE"; req_ordertype := "MARKET";
     req_producttype := "INTRADAY"; req_duration := "DAY";
     req_price := 0; req_quantity := qty; req_triggerprice := "0" |}.

Definition sbin_order (side : string) (qty : Z) : Order :=
  {| ord_orderid := "200910000000001"; ord_variety := "NORMAL";
     ord_tradingsymbol := "SBIN-EQ"; ord_symboltoken := "3045";
     ord_transactiontype := side; ord_exchange := "NSE";
     ord_ordertype := "MARKET"; ord_producttype := "INTRADAY";
     ord_duration := "DAY"; ord_price := 0; ord_quantity := qty;
     ord_triggerprice := "0"; ord_status := "pending";
     ord_orderstatus := "open"; ord_updatetime := "t0"; ord_ordertime := "t0" |}.

Definition flat_sbin : Position := new_position (sbin_order "BUY" 1) 100.

(** One pending order in the book. *)
Definition one_pending : MockDataStore :=
  (place_order (sbin_request "BUY" 10) true "t0" mock_store_init).1.1.

(** A buy of 10 is placed and filled, then a sell of 10 is placed and
    filled. *)
Definition round_trip : list Event :=
  [ PlaceOrder (sbin_request "BUY" 10) true "t0";
    ProcessOrder "200910000000001" (1 # 2) "t1";
    PlaceOrder (sbin_request "SELL" 10) true "t2";
    ProcessOrder "200910000000002" (1 # 2) "t3" ].

(** An order is placed, cancelled, and then resolved by its thread. *)
Definition cancel_then_resolve : list Event :=
  [ PlaceOrder (sbin_request "BUY" 10) true "t0";
    CancelOrder {| can_orderid := "200910000000001" |} true "t1";
    ProcessOrder "200910000000001" (1 # 2) "t2" ].

(** The status of an order in the book. *)
Definition status_of (x : Exchange) (order_id : string) : option string :=
  ord_status <$> orders (store x) !! order_id.

(** The exchange after a run of events from its initial state. *)
Definition after (es : list Event) : Exchange :=
  default exchange_init (exchange_run exchange_init es).

Definition position_at (x : Exchange) (key : string) : Position :=
  default flat_sbin (positions (store x) !! key).

(** ** Notions used by further properties *)

(** A number of hundredths. *)
Definition two_decimals (q : Q) : Prop := ∃ k : Z, (q == inject_Z k / 100)%Q.

(** The mark of a position: its PnL is that of its net quantity at its
    last price, rounded, and 0 when it is flat; its average and its PnL
    are numbers of hundredths. *)
Definition marked (p : Position) : Prop :=
  (netqty p = 0 → (pnl p == 0)%Q)
  ∧ (netqty p ≠ 0 →
     pnl p = round ((ltp p - avgprice p) * inject_Z (netqty p))%Q 2)
  ∧ two_decimals (avgprice p)
  ∧ two_decimals (pnl p).

(** What is known of the book, the trades and the threads. *)
Definition book_inv (x : Exchange) : Prop :=
  (∀ k t, trades (store x) !! k = Some t →
          ∃ n, k = str n ∧ n ≤ trade_counter (store x))
  ∧ (∀ id o, orders (store x) !! id = Some o →
             ord_status o = "pending" → id ∈ threads x)
  ∧ (∀ id, id ∈ threads x → is_Some (orders (store x) !! id))
  ∧ (∀ id o, orders (store x) !! id = Some o → ord_orderid o = id)
  ∧ (∀ key p, positions (store x) !! key = Some p →
              marked p ∧ key = symboltoken p +:+ "_" +:+ exchange p).

(** The price at which an order fills when it is resolved in [s]. *)
Definition execution_price (s : MockDataStore) (order : Order) : Q :=
  if String.eqb (ord_ordertype order) "MARKET"
  then get_ltp s (ord_symboltoken order) else ord_price order.

(** The reading endpoints: [get_positions], [get_order_book] and
    [get_trade_book] answer the values of the dictionary ([None] is the
    401). *)
Definition get_positions (authorized : bool) (s : MockDataStore)
    : option (list Position) :=
  if authorized then Some (map_to_list (positions s)).*2 else None.

Definition get_order_book (authorized : bool) (s : MockDataStore)
    : option (list Order) :=
  if authorized then Some (map_to_list (orders s)).*2 else None.

Definition get_trade_book (authorized : bool) (s : MockDataStore)
    : option (list Trade) :=
  if authorized then Some (map_to_list (trades s)).*2 else None.

End MockApi.

(** * The trading bot ([main.py]) *)

Module Bot.

Import MockApi.

(** ** Configuration and enumerations *)

(** [datetime.time]: a time of day. *)
Record time := {
  hour : Z;
  minute : Z;
  second : Z;
  microsecond : Z
}.

Definition time_of (h m : Z) : time :=
  {| hour := h; minute := m; second := 0; microsecond := 0 |}.

(** [a >= b] on times of day (lexicographic on the four fields). *)
Definition time_ge (a b : time) : bool :=
  match hour a ?= hour b with
  | Gt => true | Lt => false
  | Eq =>
    match minute a ?= minute b with
    | Gt => true | Lt => false
    | Eq =>
      match second a ?= second b with
      | Gt => true | Lt => false
      | Eq => microsecond b <=? microsecond a
      end
    end
  end.

Definition ORDER_TIMEOUT_MINUTES : Z := 5.
Definition AUTO_EXIT_TIME : time := time_of 15 25.

Inductive OrderType :=
  LIVE_PRICE | POINTS_TRIGGER | PERCENTAGE_TRIGGER | CANDLE_TRIGGER.
Inductive SellOrderType :=
  MANUAL_EXIT | POINTS_STOP | PERCENTAGE_STOP | CANDLE_STOP.
Inductive TradeMode := SINGLE | MULTI.

(** A [datetime] is a number of microseconds; [total_seconds()] of a
    difference of two of them. *)
Definition total_seconds (delta : Z) : Q := delta # 1000000.

(** ** Requests *)

Record BuyOrderRequest := {
  buy_symbol : string;
  buy_exchange : string;
  buy_quantity : Z;
  buy_order_type : OrderType;
  buy_trade_mode : TradeMode;
  buy_points : option Q;
  buy_percentage : option Q;
  buy_candle_size : option string;
  buy_target_multiplier : option Q;
  buy_trailing_points : option Q
}.

Record SellOrderRequest := {
  sell_symbol : string;
  sell_exchange : string;
  sell_sell_type : SellOrderType;
  sell_points : option Q;
  sell_percentage : option Q;
  sell_candle_size : option string;
  sell_target_multiplier : option Q;
  sell_trailing_points : option Q
}.

(** ** Triggers: the entries of [bot_state.active_orders]

    The dictionary of a trigger has the keys below; the keys that only a
    buy trigger or only a sell trigger carries travel with its ["type"]. *)

Record BuyParams := {
  quantity : Z;
  order_type : OrderType;
  trade_mode : TradeMode;
  initial_price : Q
}.

Inductive TriggerType :=
| buy_trigger (b : BuyParams)
| sell_trigger (sell_type : SellOrderType).

Record Trigger := {
  type : TriggerType;
  symbol : string;
  exchange : string;
  symbol_token : string;
  points : option Q;
  percentage : option Q;
  candle_size : option string;
  target_multiplier : option Q;
  trailing_points : option Q;
  created_at : Z;
  status : string
}.

(** ** [TradingBotState] *)

Record TradingBotState := {
  authenticated : bool;
  scrip_master : gmap string string;      (* "symbol-exchange" -> symboltoken *)
  active_orders : gmap string Trigger;
  price_data : gmap string Q;             (* token -> "ltp" *)
  bot_active : bool
}.

Definition bot_state_init : TradingBotState :=
  {| authenticated := false; scrip_master := ∅; active_orders := ∅;
     price_data := ∅; bot_active := true |}.

Definition with_active_orders (st : TradingBotState) (m : gmap string Trigger)
    : TradingBotState :=
  {| authenticated := authenticated st; scrip_master := scrip_master st;
     active_orders := m; price_data := price_data st;
     bot_active := bot_active st |}.

Definition get_symbol_token (st : TradingBotState) (symbol exchange : string)
    : option string :=
  scrip_master st !! (symbol +:+ "-" +:+ exchange).

(** [bot_state.price_data.get(symbol_token, {}).get("ltp", 0)]. *)
Definition last_price (st : TradingBotState) (token : string) : Q :=
  default 0%Q (price_data st !! token).

(** ** Calls to the broker

    [broker] is what the position endpoint would answer during the call:
    [Some data] for a successful answer with its ["data"] list, [None] for
    anything that makes [get_positions] raise. [get_headers] raises when
    the bot is not authenticated. *)

Definition get_positions (st : TradingBotState)
    (broker : option (list Position)) : option (list Position) :=
  if authenticated st then broker else None.

Definition market_payload (symbol exchange symbol_token : string)
    (quantity : Z) (transaction_type : string) : PlaceOrderRequest :=
  {| req_variety := "NORMAL";
     req_tradingsymbol := symbol;
     req_symboltoken := symbol_token;
     req_transactiontype := transaction_type;
     req_exchange := exchange;
     req_ordertype := "MARKET";
     req_producttype := "INTRADAY";
     req_duration := "DAY";
     req_price := 0;
     req_quantity := quantity;
     req_triggerprice := "0" |}.

(** The quantity a [SELL] of quantity 0 resolves to: the net quantity of
    the first reported position on the token that is long. *)
Definition sell_quantity (data : list Position) (symbol_token : string)
    (quantity : Z) : Z :=
  match List.find (fun pos => String.eqb (symboltoken pos) symbol_token
                              && (0 <? netqty pos)) data with
  | Some pos => netqty pos
  | None => quantity
  end.

(** [execute_market_order]: [Some payload] when the order request has been
    posted to the broker, [None] when the function raised before that. *)
Definition execute_market_order (st : TradingBotState)
    (broker : option (list Position))
    (symbol exchange symbol_token : string) (quantity : Z)
    (transaction_type : string) : option PlaceOrderRequest :=
  let resolved :=
    if String.eqb transaction_type "SELL" && (quantity =? 0) then
      match get_positions st broker with
      | None => None
      | Some data =>
        let quantity := sell_quantity data symbol_token quantity in
        if quantity =? 0 then None else Some quantity
      end
    else Some quantity in
  match resolved with
  | None => None
  | Some quantity =>
    if authenticated st then
      Some (market_payload symbol exchange symbol_token quantity transaction_type)
    else None
  end.

(** ** Trigger conditions *)

(** An exception inside the check (a missing threshold, a key the
    dictionary lacks) is caught and answered by [False]. The target and
    the stop are computed, and compared with the price, in floats. *)
Definition check_buy_trigger (trigger : Trigger) (current_price : Q) : bool :=
  match type trigger with
  | buy_trigger b =>
    match order_type b with
    | POINTS_TRIGGER =>
      match points trigger with
      | Some pts =>
        let target_price :=
          (Binary64.of_Q (initial_price b) + Binary64.of_Q pts)%b64 in
        (target_price <=? Binary64.of_Q current_price)%b64
      | None => false
      end
    | PERCENTAGE_TRIGGER =>
      match percentage trigger with
      | Some pct =>
        let target_price :=
          (Binary64.of_Q (initial_price b)
           * (Binary64.of_Z 1 + Binary64.of_Q pct / Binary64.of_Z 100))%b64 in
        (target_price <=? Binary64.of_Q current_price)%b64
      | None => false
      end
    | CANDLE_TRIGGER => false
    | LIVE_PRICE => false
    end
  | sell_trigger _ => false
  end.

(** The average price of the first reported position on the token, or 0. *)
Definition entry_price_of (data : list Position) (token : string) : Q :=
  match List.find (fun pos => String.eqb (symboltoken pos) token) data with
  | Some pos => avgprice pos
  | None => 0
  end.

Definition check_sell_trigger (st : TradingBotState)
    (broker : option (list Position)) (trigger : Trigger)
    (current_price : Q) : bool :=
  match type trigger with
  | sell_trigger sell_type =>
    match get_positions st broker with
    | None => false
    | Some data =>
      let entry_price := entry_price_of data (symbol_token trigger) in
      if Qeq_bool entry_price 0 then false
      else
        match sell_type with
        | POINTS_STOP =>
          match points trigger with
          | Some pts =>
            let stop_price :=
              (Binary64.of_Q entry_price - Binary64.of_Q pts)%b64 in
            (Binary64.of_Q current_price <=? stop_price)%b64
          | None => false
          end
        | PERCENTAGE_STOP =>
          match percentage trigger with
          | Some pct =>
            let stop_price :=
              (Binary64.of_Q entry_price
               * (Binary64.of_Z 1 - Binary64.of_Q pct / Binary64.of_Z 100))%b64 in
            (Binary64.of_Q current_price <=? stop_price)%b64
          | None => false
          end
        | CANDLE_STOP => false
        | MANUAL_EXIT => false
        end
    end
  | buy_trigger _ => false
  end.

Definition execute_trigger (st : TradingBotState)
    (broker : option (list Position)) (trigger : Trigger)
    : option PlaceOrderRequest :=
  match type trigger with
  | buy_trigger b =>
    execute_market_order st broker (symbol trigger) (exchange trigger)
                         (symbol_token trigger) (quantity b) "BUY"
  | sell_trigger _ =>
    execute_market_order st broker (symbol trigger) (exchange trigger)
                         (symbol_token trigger) 0 "SELL"
  end.

(** ** The trigger scheduler ([trigger_monitor]) *)

(** One firing: the trigger whose condition held, and the order request
    [execute_trigger] posted for it, if it got that far. *)
Record Fire := {
  fire_id : string;
  fire_trigger : Trigger;
  fire_order : option PlaceOrderRequest
}.

Definition timed_out (current_time : Z) (trigger : Trigger) : bool :=
  Qlt_bool (inject_Z (ORDER_TIMEOUT_MINUTES * 60))
           (total_seconds (current_time - created_at trigger)).

(** The body of the loop over [bot_state.active_orders.items()]: what it
    appends to [triggers_to_remove] and what it fires. *)
Definition monitor_trigger (st : TradingBotState)
    (broker : option (list Position)) (current_time : Z)
    (trigger_id : string) (trigger : Trigger) : list string * list Fire :=
  if negb (String.eqb (status trigger) "active") then ([], [])
  else if timed_out current_time trigger then ([trigger_id], [])
  else
    let current_price := last_price st (symbol_token trigger) in
    if Qeq_bool current_price 0 then ([], [])
    else
      let fire := {| fire_id := trigger_id; fire_trigger := trigger;
                     fire_order := execute_trigger st broker trigger |} in
      match type trigger with
      | buy_trigger b =>
        if check_buy_trigger trigger current_price then
          (match trade_mode b with SINGLE => [trigger_id] | MULTI => [] end,
           [fire])
        else ([], [])
      | sell_trigger _ =>
        if check_sell_trigger st broker trigger current_price then
          ([trigger_id], [fire])
        else ([], [])
      end.

Definition remove_triggers (m : gmap string Trigger) (ids : list string)
    : gmap string Trigger :=
  foldl (fun m trigger_id => delete trigger_id m) m ids.

(** One iteration of the [while True] loop of [trigger_monitor]. The
    coroutines it awaits call the broker synchronously, so the state it
    reads stays the same during the pass. *)
Definition trigger_monitor (st : TradingBotState)
    (broker : option (list Position)) (current_time : Z)
    : TradingBotState * list Fire :=
  if negb (bot_active st) then (st, [])
  else
    let results :=
      (fun it => monitor_trigger st broker current_time it.1 it.2)
        <$> map_to_list (active_orders st) in
    let triggers_to_remove := concat (fst <$> results) in
    (with_active_orders st (remove_triggers (active_orders st) triggers_to_remove),
     concat (snd <$> results)).

(** ** Endpoints *)

(** What a request handler did: it raised, it posted an order request to
    the broker, or it registered a trigger. *)
Inductive Outcome :=
| Raised
| Posted (payload : PlaceOrderRequest)
| TriggerSet (trigger_id : string).

Definition posted (o : option PlaceOrderRequest) : Outcome :=
  match o with Some payload => Posted payload | None => Raised end.

(** [place_buy_order]; [uuid] is the value of [str(uuid.uuid4())] and [now]
    the clock reading. *)
Definition place_buy_order (st : TradingBotState)
    (broker : option (list Position)) (order_request : BuyOrderRequest)
    (uuid : string) (now : Z) : TradingBotState * Outcome :=
  match get_symbol_token st (buy_symbol order_request) (buy_exchange order_request) with
  | None => (st, Raised)
  | Some symbol_token =>
    match buy_order_type order_request with
    | LIVE_PRICE =>
      (st, posted (execute_market_order st broker (buy_symbol order_request)
                     (buy_exchange order_request) symbol_token
                     (buy_quantity order_request) "BUY"))
    | _ =>
      let trigger :=
        {| type := buy_trigger
                     {| quantity := buy_quantity order_request;
                        order_type := buy_order_type order_request;
                        trade_mode := buy_trade_mode order_request;
                        initial_price := last_price st symbol_token |};
           symbol := buy_symbol order_request;
           exchange := buy_exchange order_request;
           symbol_token := symbol_token;
           points := buy_points order_request;
           percentage := buy_percentage order_request;
           candle_size := buy_candle_size order_request;
           target_multiplier := buy_target_multiplier order_request;
           trailing_points := buy_trailing_points order_request;
           created_at := now;
           status := "active" |} in
      (with_active_orders st (<[uuid := trigger]> (active_orders st)),
       TriggerSet uuid)
    end
  end.

Definition place_sell_order (st : TradingBotState)
    (broker : option (list Position)) (sell_request : SellOrderRequest)
    (uuid : string) (now : Z) : TradingBotState * Outcome :=
  match get_symbol_token st (sell_symbol sell_request) (sell_exchange sell_request) with
  | None => (st, Raised)
  | Some symbol_token =>
    match sell_sell_type sell_request with
    | MANUAL_EXIT =>
      (st, posted (execute_market_order st broker (sell_symbol sell_request)
                     (sell_exchange sell_request) symbol_token 0 "SELL"))
    | _ =>
      let trigger :=
        {| type := sell_trigger (sell_sell_type sell_request);
           symbol := sell_symbol sell_request;
           exchange := sell_exchange sell_request;
           symbol_token := symbol_token;
           points := sell_points sell_request;
           percentage := sell_percentage sell_request;
           candle_size := sell_candle_size sell_request;
           target_multiplier := sell_target_multiplier sell_request;
           trailing_points := sell_trailing_points sell_request;
           created_at := now;
           status := "active" |} in
      (with_active_orders st (<[uuid := trigger]> (active_orders st)),
       TriggerSet uuid)
    end
  end.

Definition start_bot (st : TradingBotState) : TradingBotState :=
  {| authenticated := authenticated st; scrip_master := scrip_master st;
     active_orders := active_orders st; price_data := price_data st;
     bot_active := true |}.

Definition stop_bot (st : TradingBotState) : TradingBotState :=
  {| authenticated := authenticated st; scrip_master := scrip_master st;
     active_orders := ∅; price_data := price_data st;
     bot_active := false |}.

(** [cancel_trigger]: [None] is the 404. *)
Definition cancel_trigger (st : TradingBotState) (trigger_id : string)
    : option TradingBotState :=
  match active_orders st !! trigger_id with
  | Some _ => Some (with_active_orders st (delete trigger_id (active_orders st)))
  | None => None
  end.

(** [get_bot_status()["triggers"]], as a set. *)
Definition listActiveTriggers (st : TradingBotState) : gset string :=
  dom (active_orders st).

(** A successful [login] followed by [load_scrip_master]. *)
Definition login (st : TradingBotState) (instruments : list (string * string))
    : TradingBotState :=
  {| authenticated := true;
     scrip_master := foldl (fun m kv => <[kv.1 := kv.2]> m) (scrip_master st) instruments;
     active_orders := active_orders st; price_data := price_data st;
     bot_active := bot_active st |}.

(** The price feed writing a last traded price into [bot_state.price_data]
    (the websocket client that [price_monitor] leaves open). *)
Definition price_update (st : TradingBotState) (token : string) (ltp : Q)
    : TradingBotState :=
  {| authenticated := authenticated st; scrip_master := scrip_master st;
     active_orders := active_orders st;
     price_data := <[token := ltp]> (price_data st);
     bot_active := bot_active st |}.

(** ** The auto-exit watchdog ([auto_exit_monitor]) *)

(** One iteration of its loop: the new state, the order requests posted,
    and the number of seconds it then sleeps. Its last two assignments,
    [bot_active = False] and [active_orders.clear()], are those of
    [stop_bot]. *)
Definition auto_exit_monitor (st : TradingBotState)
    (broker : option (list Position)) (current_time : time)
    : TradingBotState * list PlaceOrderRequest * Z :=
  if time_ge current_time AUTO_EXIT_TIME && bot_active st then
    match get_positions st broker with
    | None => (st, [], 60)
    | Some data =>
      let posts :=
        flat_map
          (fun pos =>
             if 0 <? netqty pos then
               option_list
                 (execute_market_order st broker (tradingsymbol pos)
                    (MockApi.exchange pos) (symboltoken pos) 0 "SELL")
             else [])
          data in
      (stop_bot st, posts, 300)
    end
  else (st, [], 60).

(** ** Runs of the bot *)

Inductive Event :=
| Tick (current_time : Z) (broker : option (list Position))
| AutoExit (current_time : time) (broker : option (list Position))
| PlaceBuy (order_request : BuyOrderRequest) (broker : option (list Position))
           (uuid : string) (now : Z)
| PlaceSell (sell_request : SellOrderRequest) (broker : option (list Position))
            (uuid : string) (now : Z)
| CancelTrigger (trigger_id : string)
| StartBot
| StopBot
| Login (instruments : list (string * string))
| PriceUpdate (token : string) (ltp : Q).

(** The state after an event and the firings it caused. *)
Definition bot_step (st : TradingBotState) (e : Event)
    : TradingBotState * list Fire :=
  match e with
  | Tick current_time broker => trigger_monitor st broker current_time
  | AutoExit current_time broker =>
    ((auto_exit_monitor st broker current_time).1.1, [])
  | PlaceBuy order_request broker uuid now =>
    ((place_buy_order st broker order_request uuid now).1, [])
  | PlaceSell sell_request broker uuid now =>
    ((place_sell_order st broker sell_request uuid now).1, [])
  | CancelTrigger trigger_id => (default st (cancel_trigger st trigger_id), [])
  | StartBot => (start_bot st, [])
  | StopBot => (stop_bot st, [])
  | Login instruments => (login st instruments, [])
  | PriceUpdate token ltp => (price_update st token ltp, [])
  end.

(** The state reached and the log of all firings, oldest first. *)
Fixpoint bot_run (st : TradingBotState) (es : list Event)
    : TradingBotState * list Fire :=
  match es with
  | [] => (st, [])
  | e :: es' =>
    let '(st1, fires) := bot_step st e in
    let '(st2, log) := bot_run st1 es' in
    (st2, fires ++ log)
  end.

(** The identifiers that the events of a run draw from [uuid.uuid4()]. *)
Definition event_uuid (e : Event) : list string :=
  match e with
  | PlaceBuy _ _ uuid _ => [uuid]
  | PlaceSell _ _ uuid _ => [uuid]
  | _ => []
  end.

Definition uuids (es : list Event) : list string := flat_map event_uuid es.

(** A firing retires its trigger: every exit trigger, and an entry
    trigger in single mode. *)
Definition retires (trigger : Trigger) : bool :=
  match type trigger with
  | sell_trigger _ => true
  | buy_trigger b => match trade_mode b with SINGLE => true | MULTI => false end
  end.

Definition fired (log : list Fire) (trigger_id : string) : list Fire :=
  List.filter (fun f => String.eqb (fire_id f) trigger_id) log.

(** ** Notions used to state the properties of the scheduler *)

(** The firing of a trigger: the record the loop body logs for it. *)
Definition fire_of (st : TradingBotState) (broker : option (list Position))
    (trigger_id : string) (trigger : Trigger) : Fire :=
  {| fire_id := trigger_id; fire_trigger := trigger;
     fire_order := execute_trigger st broker trigger |}.

(** The closing order of the auto-exit for a reported position. *)
Definition closing_order (pos : Position) : PlaceOrderRequest :=
  market_payload (tradingsymbol pos) (MockApi.exchange pos) (symboltoken pos)
                 (netqty pos) "SELL".

(** ** Sample data *)

Definition position_of (sym token : string) (net : Z) (avg : Q) : Position :=
  {| symboltoken := token; tradingsymbol := sym; MockApi.exchange := "NSE";
     netqty := net; avgprice := avg; ltp := avg; pnl := 0;
     buyqty := Z.max net 0; sellqty := Z.max (- net) 0;
     buyvalue := 0; sellvalue := 0 |}.

(** An entry trigger on SBIN: 10 units, [points] above the baseline. *)
Definition entry_points (baseline pts : Q) (mode : TradeMode) : Trigger :=
  {| type := buy_trigger {| quantity := 10; order_type := POINTS_TRIGGER;
                            trade_mode := mode; initial_price := baseline |};
     symbol := "SBIN-EQ"; exchange := "NSE"; symbol_token := "3045";
     points := Some pts; percentage := None; candle_size := None;
     target_multiplier := None; trailing_points := None;
     created_at := 0; status := "active" |}.

(** An exit trigger on SBIN: a stop [pct] percent below the entry price. *)
Definition exit_percentage (pct : Q) : Trigger :=
  {| type := sell_trigger PERCENTAGE_STOP;
     symbol := "SBIN-EQ"; exchange := "NSE"; symbol_token := "3045";
     points := None; percentage := Some pct; candle_size := None;
     target_multiplier := None; trailing_points := None;
     created_at := 0; status := "active" |}.

(** An authenticated, enabled bot with one trigger ["t1"] and the price
    of SBIN at [p]. *)
Definition bot_with (trigger : Trigger) (p : Q) : TradingBotState :=
  {| authenticated := true;
     scrip_master := {["SBIN-EQ-NSE" := "3045"]};
     active_orders := {["t1" := trigger]};
     price_data := {["3045" := p]};
     bot_active := true |}.

(** An authenticated, enabled bot that has not received any price. *)
Definition bot_without_prices : TradingBotState :=
  {| authenticated := true;
     scrip_master := {["SBIN-EQ-NSE" := "3045"]};
     active_orders := ∅; price_data := ∅; bot_active := true |}.

Definition buy_request (kind : OrderType) (mode : TradeMode)
    (pts pct : option Q) : BuyOrderRequest :=
  {| buy_symbol := "SBIN-EQ"; buy_exchange := "NSE"; buy_quantity := 10;
     buy_order_type := kind; buy_trade_mode := mode;
     buy_points := pts; buy_percentage := pct; buy_candle_size := None;
     buy_target_multiplier := None; buy_trailing_points := None |}.

(** A single-mode entry trigger is created at price 100 and the price then
    rises to 105; the scheduler runs three times. *)
Definition entry_run : list Event :=
  [ Login [("SBIN-EQ-NSE", "3045")];
    PriceUpdate "3045" 100;
    PlaceBuy (buy_request POINTS_TRIGGER SINGLE (Some 5%Q) None) None "u1" 0;
    Tick 1000000 None;
    PriceUpdate "3045" 105;
    Tick 2000000 None;
    Tick 3000000 None ].

Definition entry_run_fire : Fire :=
  {| fire_id := "u1";
     fire_trigger := entry_points 100 5 SINGLE;
     fire_order := Some (market_payload "SBIN-EQ" "NSE" "3045" 10 "BUY") |}.

(** ** Profit and loss *)

(** [str.upper()]. Only the letters [a] to [z] are mapped; the characters
    outside ASCII, which the comparison with ["BUY"] below cannot meet,
    are left as they are. *)
Definition upper_ascii (c : ascii) : ascii :=
  let n := nat_of_ascii c in
  if (Nat.leb 97 n && Nat.leb n 122)%bool then ascii_of_nat (n - 32) else c.

Fixpoint upper (s : string) : string :=
  match s with
  | EmptyString => EmptyString
  | String c s' => String (upper_ascii c) (upper s')
  end.

Definition calculate_pnl (entry_price current_price : Q) (quantity : Z)
    (transaction_type : string) : Q :=
  if String.eqb (upper transaction_type) "BUY" then
    ((current_price - entry_price) * inject_Z quantity)%Q
  else
    ((entry_price - current_price) * inject_Z quantity)%Q.

(** ** Notions used by further properties *)

(** A trigger whose condition is a candle condition, or whose threshold
    is missing. *)
Definition inert (trigger : Trigger) : Prop :=
  match type trigger with
  | buy_trigger b =>
    order_type b = CANDLE_TRIGGER ∨ order_type b = LIVE_PRICE
    ∨ (order_type b = POINTS_TRIGGER ∧ points trigger = None)
    ∨ (order_type b = PERCENTAGE_TRIGGER ∧ percentage trigger = None)
  | sell_trigger sell_type =>
    sell_type = CANDLE_STOP ∨ sell_type = MANUAL_EXIT
    ∨ (sell_type = POINTS_STOP ∧ points trigger = None)
    ∨ (sell_type = PERCENTAGE_STOP ∧ percentage trigger = None)
  end.

End Bot.

(** * The price simulation of the exchange ([MockDataStore._update_prices]) *)

Module Feed.

Import Bot.

(** An entry of [mock_store.price_data] with all its keys. *)
Record price_info := {
  ltp : Q;
  open : Q;
  high : Q;
  low : Q;
  close : Q;
  volume : Z;
  timestamp : string
}.

Definition market_open : time := time_of 9 15.
Definition market_close : time := time_of 15 30.

(** [market_open <= current_time <= market_close]. *)
Definition in_market_hours (current_time : time) : bool :=
  time_ge current_time market_open && time_ge market_close current_time.

(** The body of the loop over the tokens: [r] is the value of
    [random.random()], [dv] that of [random.randint(100, 1000)] and [now]
    the clock reading. *)
Definition move_price (info : price_info) (r : Q) (dv : Z) (now : string)
    : price_info :=
  let change_percent :=
    ((Binary64.of_Q r - Binary64.of_Q (1 # 2)) * Binary64.of_Q (1 # 100))%b64 in
  let new_ltp :=
    Binary64.to_Q
      (Binary64.of_Q (ltp info) * (Binary64.of_Z 1 + change_percent))%b64 in
  {| ltp := round new_ltp 2;
     open := open info;
     high := if Qlt_bool (high info) new_ltp then new_ltp else high info;
     low := if Qlt_bool new_ltp (low info) then new_ltp else low info;
     close := close info;
     volume := volume info + dv;
     timestamp := now |}.

(** One pass of [_update_prices]; [draws] gives the random values drawn
    for each token. *)
Definition _update_prices (prices : gmap string price_info)
    (current_time : time) (draws : string -> Q * Z) (now : string)
    : gmap string price_info :=
  if in_market_hours current_time then
    map_imap (fun token info =>
                Some (move_price info (draws token).1 (draws token).2 now))
             prices
  else prices.

End Feed.

(** * Sessions of the exchange ([login], [validate_auth_token], [get_rms]) *)

Module Auth.

(** [s.replace(old, new)] for a non-empty [old]: the occurrences of [old]
    are replaced from left to right, without overlap. *)
Fixpoint replace_from (fuel : nat) (s old new : string) : string :=
  match fuel with
  | O => s
  | S fuel' =>
    if String.prefix old s then
      new +:+ replace_from fuel' (substring (String.length old)
                                    (String.length s - String.length old) s)
                           old new
    else
      match s with
      | EmptyString => EmptyString
      | String c s' => String c (replace_from fuel' s' old new)
      end
  end.

Definition replace (s old new : string) : string :=
  replace_from (S (String.length s)) s old new.

(** An entry of [mock_store.authenticated_users]. *)
Record UserData := {
  usr_clientcode : string;
  usr_jwt_token : string;
  usr_refresh_token : string;
  usr_feed_token : string;
  usr_login_time : string
}.

(** An entry of [mock_store.margin_data]. *)
Record Margin := {
  availablecash : Z;
  collateral : Z;
  m2munrealized : Z;
  m2mrealized : Z
}.

Record Sessions := {
  authenticated_users : gmap string UserData;
  margin_data : gmap string Margin
}.

Definition sessions_init : Sessions :=
  {| authenticated_users := ∅; margin_data := ∅ |}.

Record LoginRequest := {
  clientcode : string;
  password : string;
  totp : option string
}.

Record Tokens := {
  jwtToken : string;
  refreshToken : string;
  feedToken : string
}.

(** [login]: [uuid] is the value of [str(uuid.uuid4())], [cash] and
    [coll] the two values of [random.randint]; the answer is [Some] tokens
    for ["status": True] and [None] for the error AG8001. *)
Definition login (request : LoginRequest) (uuid now : string)
    (cash coll : Z) (s : Sessions) : Sessions * option Tokens :=
  if negb (String.eqb (clientcode request) "")
     && negb (String.eqb (password request) "") then
    let user_id := uuid in
    let jwt_token := "jwt_mock_" +:+ user_id in
    let refresh_token := "refresh_mock_" +:+ user_id in
    let feed_token := "feed_mock_" +:+ user_id in
    ({| authenticated_users :=
          <[user_id := {| usr_clientcode := clientcode request;
                          usr_jwt_token := jwt_token;
                          usr_refresh_token := refresh_token;
                          usr_feed_token := feed_token;
                          usr_login_time := now |}]> (authenticated_users s);
        margin_data :=
          <[user_id := {| availablecash := cash; collateral := coll;
                          m2munrealized := 0; m2mrealized := 0 |}]>
            (margin_data s) |},
     Some {| jwtToken := jwt_token; refreshToken := refresh_token;
             feedToken := feed_token |})
  else (s, None).

(** [validate_auth_token]: [Some token] when it returns, [None] for the
    401 it raises. *)
Definition validate_auth_token (s : Sessions) (authorization : option string)
    : option string :=
  match authorization with
  | None => None
  | Some header =>
    if String.eqb header "" || negb (String.prefix "Bearer " header) then None
    else
      let token := replace header "Bearer " "" in
      let user_found :=
        existsb (fun it => String.eqb (usr_jwt_token it.2) token)
                (map_to_list (authenticated_users s)) in
      if user_found then Some token else None
  end.

(** ** Notions used by the properties of sessions *)

(** A string without the space character, as the identifiers that
    [uuid.uuid4()] prints are. *)
Fixpoint no_space (s : string) : bool :=
  match s with
  | EmptyString => true
  | String c s' => negb (Ascii.eqb c " ") && no_space s'
  end.

(** The header a client sends with a token. *)
Definition bearer (token : string) : option string := Some ("Bearer " +:+ token).

End Auth.

(** * Properties *)

(** ** Numbers *)

Lemma str_inj n m : str n = str m → n = m.
Proof.
  unfold str. intros H.
  assert (Hnn : ∀ z, Z.to_int z ≠ Decimal.Pos Decimal.Nil
                     ∧ Z.to_int z ≠ Decimal.Neg Decimal.Nil).
  { intros z. destruct z as [|p|p]; cbn.
    - split; discriminate.
    - split; [|discriminate]. intros E. injection E as E.
      pose proof (DecimalPos.Unsigned.to_uint_nonnil p). contradiction.
    - split; [discriminate|]. intros E. injection E as E.
      pose proof (DecimalPos.Unsigned.to_uint_nonnil p). contradiction. }
  apply DecimalZ.to_int_inj.
  assert (Some (Z.to_int n) = Some (Z.to_int m)) as E; [|by injection E].
  rewrite <- (NilZero.isi (Z.to_int n)), <- (NilZero.isi (Z.to_int m)) by apply Hnn.
  by rewrite H.
Qed.

Lemma round_half_even_wd x y : (x == y)%Q → round_half_even x = round_half_even y.
Proof.
  intros E. unfold round_half_even.
  rewrite (Qfloor_comp _ _ E).
  assert ((x - inject_Z (Qfloor y) ?= 1 # 2)
          = (y - inject_Z (Qfloor y) ?= 1 # 2))%Q as ->; [|done].
  apply Qcompare_comp; [by rewrite E | reflexivity].
Qed.

Lemma round_wd x y n : (x == y)%Q → round x n = round y n.
Proof.
  intros E. unfold round.
  rewrite (round_half_even_wd (x * _) (y * inject_Z (10 ^ Z.of_nat n)));
    [done | by rewrite E].
Qed.

Lemma round_zero n : (round 0 n == 0)%Q.
Proof.
  unfold round.
  assert (round_half_even (0 * inject_Z (10 ^ Z.of_nat n)) = 0) as ->.
  { rewrite (round_half_even_wd _ 0%Q); [reflexivity | ring]. }
  unfold Qdiv. ring.
Qed.

Lemma Qlt_bool_iff x y : Qlt_bool x y = true ↔ (x < y)%Q.
Proof.
  unfold Qlt_bool. rewrite Qlt_alt. destruct (x ?= y)%Q; split; congruence.
Qed.

Lemma Qlt_bool_false x y : Qlt_bool x y = false ↔ (y <= x)%Q.
Proof.
  rewrite <- not_true_iff_false, Qlt_bool_iff. split.
  - apply Qnot_lt_le.
  - apply Qle_not_lt.
Qed.

Lemma Qle_bool_false x y : Qle_bool x y = false ↔ ¬ (x <= y)%Q.
Proof. by rewrite <- not_true_iff_false, Qle_bool_iff. Qed.

(** ** Binary64 *)

Section Binary64Facts.

Import Binary64.

(** On quotients of integers and on the expressions of the trigger
    conditions, the conversions and the operations of [Binary64] give the
    floats that the primitive floats of the kernel, which are the machine's
    binary64 numbers, give: normal numbers, a subnormal one, a quotient
    whose numerator is beyond 53 bits, and an overflow. *)
Lemma binary64_agrees_with_primitive_floats :
  of_Q (1 # 10) = Prim2SF (1 / 10)%float
  ∧ of_Q (10002 # 100) = Prim2SF (10002 / 100)%float
  ∧ of_Q (- 7 # 3) = Prim2SF (- (7 / 3))%float
  ∧ of_Q (1 # 3 * 2 ^ 1070) = Prim2SF (Z.ldexp 1 (-1070) / 3)%float
  ∧ of_Q (2 ^ 100 # 3) = Prim2SF (Z.ldexp 1 100 / 3)%float
  ∧ of_Q (2 ^ 1024 # 1) = Prim2SF infinity
  ∧ of_Z 9007199254740993 = Prim2SF 9007199254740992%float
  ∧ (of_Q 100 * (of_Z 1 + of_Q 10 / of_Z 100))%b64
    = Prim2SF (100 * (1 + 10 / 100))%float
  ∧ (of_Q 500 * (of_Z 1 - of_Q 7 / of_Z 100))%b64
    = Prim2SF (500 * (1 - 7 / 100))%float
  ∧ ((of_Z 1 * of_Q (10002 # 100) + of_Z 1 * of_Q (10003 # 100)) / of_Z 2)%b64
    = Prim2SF ((1 * (10002 / 100) + 1 * (10003 / 100)) / 2)%float
  ∧ leb (of_Q 100 * (of_Z 1 + of_Q 10 / of_Z 100))%b64 (of_Q 110)
    = PrimFloat.leb (100 * (1 + 10 / 100)) 110.
Proof. repeat split; vm_compute; reflexivity. Qed.

Lemma leb_add_zero_l (s : bool) (y z : float) :
  leb (add (S754_zero s) y) z = leb y z.
Proof. by destruct s, y as [[]| [] | |[] m e], z as [[]| [] | |[] m' e']. Qed.

Lemma mul_zero_l (s : bool) (x : float) :
  mul (S754_zero s) x
  = if is_finite x
    then S754_zero (xorb s (match x with
                             | S754_zero sx | S754_finite sx _ _ => sx
                             | _ => false
                             end))
    else S754_nan.
Proof. by destruct x as [sx|sx| |sx m e]. Qed.

Lemma iter_pos_invariant {A} (P : A → Prop) (f : A → A) :
  (∀ x, P x → P (f x)) → ∀ p x, P x → P (SpecFloat.iter_pos f p x).
Proof.
  intros Hf. induction p as [p IH|p IH|]; intros x Hx; cbn; auto.
Qed.

Lemma shr_1_nonneg mrs : 0 ≤ shr_m mrs → 0 ≤ shr_m (shr_1 mrs).
Proof.
  destruct mrs as [m r s]; cbn. destruct m as [|[p|p|]|[p|p|]]; cbn; lia.
Qed.

Lemma shr_nonneg mrs e n : 0 ≤ shr_m mrs → 0 ≤ shr_m (shr mrs e n).1.
Proof.
  intros H. destruct n as [|p|p]; cbn; [done| |done].
  by apply (iter_pos_invariant (fun mrs => 0 ≤ shr_m mrs) _ shr_1_nonneg).
Qed.

Lemma shr_record_of_loc_m m l : shr_m (shr_record_of_loc m l) = m.
Proof. by destruct l as [|[]]. Qed.

Lemma round_nearest_even_nonneg m l : 0 ≤ m → 0 ≤ round_nearest_even m l.
Proof.
  intros H. destruct l as [|[]]; cbn; try lia. destruct (Z.even m); lia.
Qed.

(** Rounding a non-negative mantissa gives a float of the given sign. *)
Lemma binary_round_aux_sign sx mx ex lx :
  0 ≤ mx →
  match binary_round_aux prec emax sx mx ex lx with
  | S754_zero s | S754_infinity s | S754_finite s _ _ => s = sx
  | S754_nan => False
  end.
Proof.
  intros H. unfold binary_round_aux, shr_fexp.
  destruct (shr (shr_record_of_loc mx lx) ex _) as [mrs' e'] eqn:E1.
  assert (H1 : 0 ≤ shr_m mrs').
  { change mrs' with (mrs', e').1. rewrite <- E1. apply shr_nonneg.
    by rewrite shr_record_of_loc_m. }
  destruct (shr (shr_record_of_loc (round_nearest_even _ _) loc_Exact) e' _)
    as [mrs'' e''] eqn:E2.
  assert (H2 : 0 ≤ shr_m mrs'').
  { change mrs'' with (mrs'', e'').1. rewrite <- E2. apply shr_nonneg.
    rewrite shr_record_of_loc_m. by apply round_nearest_even_nonneg. }
  destruct (shr_m mrs'') as [|m|m]; [done| |lia].
  by destruct (_ <=? _).
Qed.

Lemma div_finite_sign sx mx ex sy my ey :
  match div (S754_finite sx mx ex) (S754_finite sy my ey) with
  | S754_zero s | S754_infinity s | S754_finite s _ _ => s = xorb sx sy
  | S754_nan => False
  end.
Proof.
  unfold div, SFdiv, SFdiv_core_binary.
  set (e' := Z.min _ _). set (m' := match _ with Z0 => _ | _ => _ end).
  assert (Hm : 0 ≤ m').
  { subst m'. destruct (ex - ey - e') as [|p|p]; [lia| |lia].
    apply Z.shiftl_nonneg. lia. }
  pose proof (Z.div_pos m' (Z.pos my) Hm ltac:(lia)) as Hq.
  unfold Z.div in Hq. destruct (Z.div_eucl m' (Z.pos my)) as [q r].
  by apply binary_round_aux_sign.
Qed.

(** The float nearest to a non-negative rational is not below zero. *)
Lemma leb_zero_of_Q (s : bool) (x : Q) : (0 <= x)%Q → leb (S754_zero s) (of_Q x) = true.
Proof.
  intros H. unfold of_Q. destruct x as [n d]. unfold Qle in H. cbn in H.
  cbn [Qnum Qden].
  destruct n as [|n|n]; [by destruct s| |lia].
  pose proof (div_finite_sign false n 0 false d 0) as Hs.
  destruct (div _ _) as [s'|s'| |s' m e]; cbn in Hs; [done| |done| ]; by subst s'.
Qed.

(** A zero numerator and a zero addend do not show after a division. *)
Lemma to_Q_div_add_zero (s : bool) (x y : float) :
  to_Q (div (add (S754_zero s) x) y) = to_Q (div x y).
Proof.
  destruct x as [sx|sx| |sx m e]; try done.
  destruct s, sx, y as [sy|sy| |sy my ey]; done.
Qed.

End Binary64Facts.

(** * Properties of the simulated exchange *)

Module MockApiSpec.

Import MockApi.

(** ** Position netting *)

Lemma mark_position_netqty p cp : netqty (mark_position p cp) = netqty p.
Proof. reflexivity. Qed.

Lemma mark_position_avgprice p cp : avgprice (mark_position p cp) = avgprice p.
Proof. reflexivity. Qed.

Lemma buy_netqty p qty price cp :
  netqty (update_position p "BUY" qty price cp) = netqty p + qty.
Proof. reflexivity. Qed.

Lemma buy_avgprice_long p qty price cp :
  0 < netqty p + qty →
  avgprice (update_position p "BUY" qty price cp)
  = round (Binary64.to_Q
             ((Binary64.of_Z (netqty p) * Binary64.of_Q (avgprice p)
               + Binary64.of_Z qty * Binary64.of_Q price)
              / Binary64.of_Z (netqty p + qty))%b64) 2.
Proof.
  intros H. cbn -[Binary64.of_Z Binary64.of_Q Binary64.to_Q Binary64.add
                  Binary64.mul Binary64.div round].
  by rewrite (proj2 (Z.ltb_lt _ _) H).
Qed.

Lemma buy_avgprice_reset p qty price cp :
  netqty p + qty ≤ 0 →
  (avgprice (update_position p "BUY" qty price cp) == 0)%Q.
Proof.
  intros H. cbn -[Binary64.of_Z Binary64.of_Q Binary64.to_Q Binary64.add
                  Binary64.mul Binary64.div round].
  rewrite (proj2 (Z.ltb_ge _ _) H). apply round_zero.
Qed.

Lemma sell_netqty p side qty price cp :
  side ≠ "BUY" →
  netqty (update_position p side qty price cp) = netqty p - qty.
Proof.
  intros H. unfold update_position, apply_fill.
  by rewrite (proj2 (String.eqb_neq _ _) H).
Qed.

Lemma sell_avgprice p side qty price cp :
  side ≠ "BUY" →
  avgprice (update_position p side qty price cp)
  = if netqty p - qty =? 0 then 0%Q else avgprice p.
Proof.
  intros H. unfold update_position, apply_fill.
  by rewrite (proj2 (String.eqb_neq _ _) H).
Qed.




(** ** Rejected orders *)

Lemma process_order_rejects s order_id order rnd now :
  orders s !! order_id = Some order →
  (success_rate order <= rnd)%Q →
  process_order order_id rnd now s
  = with_orders s (<[order_id := resolve_order order "rejected" "rejected"
                                               (ord_price order) now]> (orders s)).
Proof.
  intros Ho Hr. unfold process_order. rewrite Ho.
  by rewrite (proj2 (Qlt_bool_false _ _) Hr).
Qed.

(** C7. When an order resolves to rejected, no trade is created and the
    position ledger is unchanged; the order stays in the book with status
    rejected, the other orders are untouched, and neither a cancel nor a
    modify request changes the book afterwards. *)
Theorem rejected_order_is_atomic
    (s : MockDataStore) (order_id : string) (order : Order)
    (rnd : Q) (now : string)
    (Horder : orders s !! order_id = Some order)
    (Hreject : (success_rate order <= rnd)%Q) :
  let s' := process_order order_id rnd now s in
  trades s' = trades s
  ∧ trade_counter s' = trade_counter s
  ∧ positions s' = positions s
  ∧ (∃ o', orders s' !! order_id = Some o'
           ∧ ord_status o' = "rejected"
           ∧ ord_quantity o' = ord_quantity order
           ∧ ord_price o' = ord_price order)
  ∧ (∀ other, other ≠ order_id → orders s' !! other = orders s !! other)
  ∧ (∀ authorized t, (cancel_order {| can_orderid := order_id |} authorized t s').1 = s')
  ∧ (∀ request authorized t,
       mod_orderid request = order_id →
       (modify_order request authorized t s').1 = s').
Proof.
  intros s'. subst s'. rewrite (process_order_rejects _ _ _ _ _ Horder Hreject).
  cbn [trades trade_counter positions orders with_orders].
  repeat split.
  - eexists. rewrite lookup_insert_eq. by repeat split.
  - intros other Hne. by rewrite lookup_insert_ne.
  - intros authorized t. unfold cancel_order. destruct authorized; [|done].
    cbn. by rewrite lookup_insert_eq.
  - intros request authorized t <-. unfold modify_order.
    destruct authorized; [|done]. cbn. by rewrite lookup_insert_eq.
Qed.

Lemma rejected_order_is_atomic_witness :
  orders one_pending !! "200910000000001" = Some (sbin_order "BUY" 10)
  ∧ (success_rate (sbin_order "BUY" 10) <= 97 # 100)%Q
  ∧ trades (process_order "200910000000001" (97 # 100) "t1" one_pending) = ∅
  ∧ positions (process_order "200910000000001" (97 # 100) "t1" one_pending) = ∅.
Proof.
  assert (H1 : orders one_pending !! "200910000000001" = Some (sbin_order "BUY" 10))
    by (vm_compute; reflexivity).
  assert (H2 : (success_rate (sbin_order "BUY" 10) <= 97 # 100)%Q)
    by (vm_compute; congruence).
  split; [exact H1|]. split; [exact H2|].
  destruct (rejected_order_is_atomic one_pending "200910000000001"
              (sbin_order "BUY" 10) (97 # 100) "t1" H1 H2)
    as (Ht & _ & Hp & _).
  split; [rewrite Ht | rewrite Hp]; reflexivity.
Defined.

(** ** The ledger invariant *)

Lemma new_position_ok order cp : ledger_ok (new_position order cp).
Proof. split; [reflexivity | intros _; reflexivity]. Qed.

Lemma update_position_ok p side qty price cp :
  ledger_ok p → ledger_ok (update_position p side qty price cp).
Proof.
  intros [Hn Ha]. unfold update_position, apply_fill.
  destruct (String.eqb side "BUY"); split; cbn.
  - lia.
  - intros H0. rewrite H0. cbn. apply round_zero.
  - lia.
  - intros H0. by rewrite H0.
Qed.

Lemma traded_qty_insert buys key s tid t :
  trades s !! tid = None →
  map_fold (fun _ t acc =>
              if bool_decide (trade_key t = key)
                 && Bool.eqb (String.eqb (trd_transactiontype t) "BUY") buys
              then trd_quantity t + acc else acc)
           0 (<[tid := t]> (trades s))
  = if bool_decide (trade_key t = key)
       && Bool.eqb (String.eqb (trd_transactiontype t) "BUY") buys
    then trd_quantity t + traded_qty buys key s
    else traded_qty buys key s.
Proof.
  intros Hnew. unfold traded_qty. rewrite map_fold_insert_L; [done| |done].
  intros j1 j2 z1 z2 y _ _ _.
  destruct (_ && _), (_ && _); lia.
Qed.

Lemma fills_inv_same s s' :
  trades s' = trades s → positions s' = positions s →
  trade_counter s' = trade_counter s →
  fills_inv s → fills_inv s'.
Proof.
  intros Ht Hp Hc [Hids Hled]. unfold fills_inv, traded_qty.
  rewrite Ht, Hp, Hc. by split.
Qed.

Lemma process_order_fills_inv order_id rnd now s :
  fills_inv s → fills_inv (process_order order_id rnd now s).
Proof.
  intros [Hids Hled]. unfold process_order.
  destruct (orders s !! order_id) as [order|]; [|done].
  destruct (Qlt_bool rnd (success_rate order)); [|done].
  set (cp := get_ltp s (ord_symboltoken order)).
  set (ep := if String.eqb (ord_ordertype order) "MARKET" then cp else ord_price order).
  set (tid := str (trade_counter s + 1)).
  assert (Hnew : trades s !! tid = None).
  { destruct (trades s !! tid) as [t|] eqn:E; [|done].
    destruct (Hids _ _ E) as (n & Heq & Hle). apply str_inj in Heq. lia. }
  split.
  - cbn [trades trade_counter generate_trade_id fst snd].
    intros k t. destruct (decide (tid = k)) as [<-|Hne].
    + intros _. eexists. split; [done|lia].
    + rewrite lookup_insert_ne by done. intros Ht.
      destruct (Hids _ _ Ht) as (n & -> & Hle). exists n. split; [done|lia].
  - intros key. unfold traded_qty.
    cbn [trades positions generate_trade_id fst snd].
    fold tid. rewrite !traded_qty_insert by done.
    cbn [trade_key trd_symboltoken trd_exchange trd_transactiontype trd_quantity].
    change (ord_symboltoken order +:+ "_" +:+ ord_exchange order)
      with (position_key order).
    specialize (Hled key).
    destruct (decide (position_key order = key)) as [<-|Hne].
    + rewrite lookup_insert_eq, !bool_decide_eq_true_2 by done. cbn [andb].
      set (p0 := default (new_position order cp) (positions s !! position_key order)).
      assert (H0 : buyqty p0 = traded_qty true (position_key order) s
                   ∧ sellqty p0 = traded_qty false (position_key order) s
                   ∧ ledger_ok p0).
      { subst p0. destruct (positions s !! position_key order) as [p|]; cbn.
        - exact Hled.
        - destruct Hled as [-> ->].
          split; [done|split; [done|apply new_position_ok]]. }
      destruct H0 as (Hb & Hs & Hok).
      split; [|split; [|by apply update_position_ok]].
      * unfold update_position, apply_fill.
        destruct (String.eqb (ord_transactiontype order) "BUY");
          cbn [buyqty mark_position Bool.eqb]; lia.
      * unfold update_position, apply_fill.
        destruct (String.eqb (ord_transactiontype order) "BUY");
          cbn [sellqty mark_position Bool.eqb]; lia.
    + rewrite lookup_insert_ne, !bool_decide_eq_false_2 by done. exact Hled.
Qed.

Lemma exchange_step_fills_inv x e x' :
  exchange_step x e = Some x' → fills_inv (store x) → fills_inv (store x').
Proof.
  destruct e as [request authorized now|request authorized now
                |request authorized now|order_id rnd now|token new_ltp]; cbn.
  - unfold place_order. destruct authorized; cbn -[get_symbol_info].
    + destruct (get_symbol_info _ _); intros [= <-]; cbn;
        by apply fills_inv_same.
    + by intros [= <-].
  - intros [= <-]. cbn. unfold modify_order.
    destruct authorized; [|done]. cbn.
    destruct (orders (store x) !! _) as [o|]; [|done].
    destruct (negb _); [done|]. by apply fills_inv_same.
  - intros [= <-]. cbn. unfold cancel_order.
    destruct authorized; [|done]. cbn.
    destruct (orders (store x) !! _) as [o|]; [|done].
    destruct (negb _); [done|]. by apply fills_inv_same.
  - case_bool_decide; [|done]. intros [= <-]. cbn.
    apply process_order_fills_inv.
  - intros [= <-]. cbn. unfold update_price.
    destruct (price_data (store x) !! token); [|done]. by apply fills_inv_same.
Qed.

Lemma exchange_run_fills_inv es : ∀ x x',
  exchange_run x es = Some x' → fills_inv (store x) → fills_inv (store x').
Proof.
  induction es as [|e es IH]; intros x x'; cbn.
  - by intros [= <-].
  - destruct (exchange_step x e) as [x1|] eqn:E; [|done].
    intros Hrun Hinv. eapply IH; [exact Hrun|].
    by eapply exchange_step_fills_inv.
Qed.

Lemma exchange_init_fills_inv : fills_inv (store exchange_init).
Proof.
  split.
  - intros k t. cbn. by rewrite lookup_empty.
  - intros key. cbn. rewrite lookup_empty. unfold traded_qty. cbn.
    by rewrite map_fold_empty.
Qed.


(** Fills applied to a position in sequence keep the invariant and add
    up in [buyqty] and [sellqty]. *)
Lemma fills_netting (fills : list Fill) :
  ∀ p, ledger_ok p →
  let p' := apply_fills p fills in
  ledger_ok p'
  ∧ buyqty p' = buyqty p + filled_qty true fills
  ∧ sellqty p' = sellqty p + filled_qty false fills.
Proof.
  induction fills as [|f fills IH]; intros p Hp.
  - cbn. repeat split; try apply Hp; lia.
  - intros p'. subst p'.
    change (apply_fills p (f :: fills))
      with (apply_fills (update_position p (fill_side f) (fill_quantity f)
                                         (fill_price f) (fill_ltp f)) fills).
    destruct (IH _ (update_position_ok p (fill_side f) (fill_quantity f)
                      (fill_price f) (fill_ltp f) Hp)) as (Hok & Hb & Hs).
    split; [exact Hok|]. rewrite Hb, Hs.
    change (filled_qty true (f :: fills))
      with (if Bool.eqb (String.eqb (fill_side f) "BUY") true
            then fill_quantity f + filled_qty true fills
            else filled_qty true fills).
    change (filled_qty false (f :: fills))
      with (if Bool.eqb (String.eqb (fill_side f) "BUY") false
            then fill_quantity f + filled_qty false fills
            else filled_qty false fills).
    unfold update_position, apply_fill.
    destruct (String.eqb (fill_side f) "BUY");
      cbn [buyqty sellqty mark_position Bool.eqb]; lia.
Qed.

(** The invariant on a single position: after any sequence of fills on a
    newly opened position, the net quantity is the sum of the quantities of
    the BUY fills minus the sum of the quantities of the other fills, and
    the average is 0 whenever the net quantity is 0. *)
Theorem net_is_bought_minus_sold order cp (fills : list Fill) :
  let p := apply_fills (new_position order cp) fills in
  netqty p = filled_qty true fills - filled_qty false fills
  ∧ (netqty p = 0 → (avgprice p == 0)%Q).
Proof.
  destruct (fills_netting fills _ (new_position_ok order cp))
    as ([Hn Ha] & Hb & Hs).
  cbn in *. split; [|exact Ha]. rewrite Hn, Hb, Hs. cbn. lia.
Qed.


(** ** The order state machine *)

Ltac in_list :=
  repeat first [apply list_elem_of_here | apply list_elem_of_further].

Lemma elem_of_remove_thread i j ts : j ∈ remove_thread i ts → j ∈ ts.
Proof.
  induction ts as [|t ts IH]; cbn; [done|].
  destruct (String.eqb t i).
  - intros H. by apply list_elem_of_further.
  - intros [->|H]%elem_of_cons; [apply list_elem_of_here|].
    apply list_elem_of_further. by apply IH.
Qed.

Lemma NoDup_remove_thread i ts : NoDup ts → NoDup (remove_thread i ts).
Proof.
  induction 1 as [|t ts Hnotin Hnd IH]; cbn; [constructor|].
  destruct (String.eqb t i); [done|].
  constructor; [|done]. intros H. by apply Hnotin, (elem_of_remove_thread i).
Qed.

Lemma not_elem_of_remove_thread i ts : NoDup ts → i ∉ remove_thread i ts.
Proof.
  induction 1 as [|t ts Hnotin Hnd IH]; cbn; [apply not_elem_of_nil|].
  destruct (String.eqb t i) eqn:E.
  - apply String.eqb_eq in E. by subst.
  - apply String.eqb_neq in E.
    intros [->|H]%elem_of_cons; [done|]. by apply IH.
Qed.

Lemma exchange_init_inv : exchange_inv exchange_init.
Proof.
  repeat split; cbn.
  - constructor.
  - intros id H. by apply not_elem_of_nil in H.
  - intros id o. by rewrite lookup_empty.
  - intros id o. by rewrite lookup_empty.
Qed.

Lemma process_order_orders order_id rnd now s j :
  orders (process_order order_id rnd now s) !! j
  = if decide (order_id = j) then
      (fun o => if Qlt_bool rnd (success_rate o) then
                  resolve_order o "complete" "executed"
                    (if String.eqb (ord_ordertype o) "MARKET"
                     then get_ltp s (ord_symboltoken o) else ord_price o) now
                else resolve_order o "rejected" "rejected" (ord_price o) now)
        <$> orders s !! j
    else orders s !! j.
Proof.
  unfold process_order.
  destruct (orders s !! order_id) as [o|] eqn:E.
  - destruct (Qlt_bool rnd (success_rate o)) eqn:Hq; cbn;
      (case_decide as Hd; [subst j; rewrite lookup_insert_eq, E; cbn; by rewrite Hq
                          | by rewrite lookup_insert_ne]).
  - case_decide; [subst j; by rewrite E | done].
Qed.

Lemma process_order_counter order_id rnd now s :
  order_counter (process_order order_id rnd now s) = order_counter s.
Proof.
  unfold process_order. destruct (orders s !! order_id) as [o|]; [|done].
  by destruct (Qlt_bool rnd (success_rate o)).
Qed.

Lemma exchange_step_inv x e x' :
  exchange_step x e = Some x' → exchange_inv x → exchange_inv x'.
Proof.
  intros Hstep (Hnd & Hth & Hid & Hdone).
  destruct e as [request authorized now|request authorized now
                |request authorized now|order_id rnd now|token new_ltp];
    cbn in Hstep.
  - (* place_order *)
    unfold place_order in Hstep. destruct authorized; cbn -[get_symbol_info] in Hstep.
    2:{ injection Hstep as <-. by repeat split. }
    destruct (get_symbol_info _ _); injection Hstep as <-.
    + set (new := str (order_counter (store x) + 1)).
      assert (Hfresh : new ∉ threads x).
      { intros Hin. destruct (Hth _ Hin) as (n & Heq & Hle).
        apply str_inj in Heq. lia. }
      repeat split; cbn.
      * apply NoDup_app. repeat split; [done| |apply NoDup_singleton].
        intros i Hi ->%list_elem_of_singleton. done.
      * intros id [Hin| ->%list_elem_of_singleton]%elem_of_app.
        -- destruct (Hth _ Hin) as (n & -> & Hle). exists n. split; [done|lia].
        -- eexists. split; [done|lia].
      * intros id o. destruct (decide (new = id)) as [<-|Hne].
        -- intros _. eexists. split; [done|lia].
        -- rewrite lookup_insert_ne by done. intros Ho.
           destruct (Hid _ _ Ho) as (n & -> & Hle). exists n. split; [done|lia].
      * intros id o. destruct (decide (new = id)) as [<-|Hne].
        -- rewrite lookup_insert_eq. intros [= <-]. cbn. intros [?|?]; discriminate.
        -- rewrite lookup_insert_ne by done. intros Ho Hst.
           intros [Hin| ->%list_elem_of_singleton]%elem_of_app; [|done].
           by eapply Hdone.
    + repeat split; cbn; [done| | |done].
      * intros id Hin. destruct (Hth _ Hin) as (n & -> & Hle).
        exists n. split; [done|lia].
      * intros id o Ho. destruct (Hid _ _ Ho) as (n & -> & Hle).
        exists n. split; [done|lia].
  - (* modify_order *)
    injection Hstep as <-. unfold modify_order.
    destruct authorized; [|by repeat split]. cbn.
    destruct (orders (store x) !! mod_orderid request) as [o0|] eqn:E;
      [|by repeat split].
    destruct (negb _); [by repeat split|].
    repeat split; cbn; [done|done| |].
    + intros id o. destruct (decide (mod_orderid request = id)) as [<-|Hne].
      * intros _. by eapply Hid.
      * rewrite lookup_insert_ne by done. apply Hid.
    + intros id o. destruct (decide (mod_orderid request = id)) as [<-|Hne].
      * rewrite lookup_insert_eq. intros [= <-]. cbn. by eapply Hdone.
      * rewrite lookup_insert_ne by done. apply Hdone.
  - (* cancel_order *)
    injection Hstep as <-. unfold cancel_order.
    destruct authorized; [|by repeat split]. cbn.
    destruct (orders (store x) !! can_orderid request) as [o0|] eqn:E;
      [|by repeat split].
    destruct (negb _); [by repeat split|].
    repeat split; cbn; [done|done| |].
    + intros id o. destruct (decide (can_orderid request = id)) as [<-|Hne].
      * intros _. by eapply Hid.
      * rewrite lookup_insert_ne by done. apply Hid.
    + intros id o. destruct (decide (can_orderid request = id)) as [<-|Hne].
      * rewrite lookup_insert_eq. intros [= <-]. cbn. intros [?|?]; discriminate.
      * rewrite lookup_insert_ne by done. apply Hdone.
  - (* process_order *)
    case_bool_decide as Hin; [|done]. injection Hstep as <-.
    repeat split; cbn.
    + by apply NoDup_remove_thread.
    + intros id Hid'%elem_of_remove_thread. rewrite process_order_counter. by apply Hth.
    + intros id o. rewrite process_order_orders, process_order_counter.
      case_decide; [subst id|apply Hid].
      destruct (orders (store x) !! order_id) as [o0|] eqn:E; [|done].
      intros _. by eapply Hid.
    + intros id o. rewrite process_order_orders.
      case_decide; [subst id; intros _ _; by apply not_elem_of_remove_thread|].
      intros Ho Hst Hin'%elem_of_remove_thread. by eapply Hdone.
  - (* update_price *)
    injection Hstep as <-. unfold update_price.
    destruct (price_data (store x) !! token); by repeat split.
Qed.

Lemma exchange_run_inv es : ∀ x x',
  exchange_run x es = Some x' → exchange_inv x → exchange_inv x'.
Proof.
  induction es as [|e es IH]; intros x x'; cbn.
  - by intros [= <-].
  - destruct (exchange_step x e) as [x1|] eqn:E; [|done].
    intros Hrun Hinv. eapply IH; [exact Hrun|]. by eapply exchange_step_inv.
Qed.

(** C9 (as stated) fails: an order that is cancelled leaves [pending] for
    a status that is neither [complete] nor [rejected], and the thread
    that resolves it afterwards changes its status once more. *)
Lemma order_status_counterexample :
  (exchange_run exchange_init (take 1 cancel_then_resolve)
     ≫= fun x => status_of x "200910000000001") = Some "pending"
  ∧ (exchange_run exchange_init (take 2 cancel_then_resolve)
     ≫= fun x => status_of x "200910000000001") = Some "cancelled"
  ∧ (exchange_run exchange_init (take 3 cancel_then_resolve)
     ≫= fun x => status_of x "200910000000001") = Some "complete".
Proof. repeat split; vm_compute; reflexivity. Qed.

(** C9 (as amended). In every reachable state of the exchange, a step
    keeps every order in the book. A pending order leaves [pending] only
    in two ways: the resolution of the order by its thread takes it to
    [complete] when the draw is below the success rate of the order and
    to [rejected] otherwise; an authorised [cancel_order] of the order
    takes it to [cancelled]; every other step (modify, place, price
    update, a cancel without authorisation, the resolution or the
    cancellation of another order) leaves it [pending]. An order that is
    [complete] or [rejected] keeps its status whatever the step is. *)
Theorem order_status_transitions
    (es : list Event) (x x' : Exchange) (e : Event)
    (order_id : string) (o : Order)
    (Hrun : exchange_run exchange_init es = Some x)
    (Hstep : exchange_step x e = Some x')
    (Horder : orders (store x) !! order_id = Some o) :
  ∃ o', orders (store x') !! order_id = Some o'
        ∧ (ord_status o = "pending" →
           ord_status o'
           = match e with
             | ProcessOrder id rnd _ =>
               if decide (id = order_id) then
                 if Qlt_bool rnd (if String.eqb (ord_ordertype o) "MARKET"
                                  then 95 # 100 else 90 # 100)
                 then "complete" else "rejected"
               else "pending"
             | CancelOrder request authorized _ =>
               if authorized && bool_decide (can_orderid request = order_id)
               then "cancelled" else "pending"
             | _ => "pending"
             end)
        ∧ (ord_status o = "complete" ∨ ord_status o = "rejected" →
           ord_status o' = ord_status o).
Proof.
  pose proof (exchange_run_inv es _ _ Hrun exchange_init_inv)
    as (Hnd & Hth & Hid & Hdone).
  destruct e as [request authorized now|request authorized now
                |request authorized now|pid rnd now|token new_ltp];
    cbn in Hstep.
  - exists o. split; [|by split; [intros ->|]].
    unfold place_order in Hstep. destruct authorized; cbn -[get_symbol_info] in Hstep.
    2:{ by injection Hstep as <-. }
    destruct (get_symbol_info _ _); injection Hstep as <-; cbn; [|done].
    rewrite lookup_insert_ne; [done|].
    intros Heq. destruct (Hid _ _ Horder) as (n & Hn & Hle).
    rewrite Hn in Heq. apply str_inj in Heq. lia.
  - injection Hstep as <-. unfold modify_order.
    destruct authorized; [|exists o; by split; [|split; [intros ->|]]]. cbn.
    destruct (orders (store x) !! mod_orderid request) as [o0|] eqn:E;
      [|exists o; by split; [|split; [intros ->|]]].
    destruct (negb _); [exists o; by split; [|split; [intros ->|]]|]. cbn.
    destruct (decide (mod_orderid request = order_id)) as [Heq|Hne].
    + subst order_id. rewrite lookup_insert_eq. eexists. split; [done|].
      cbn. assert (o0 = o) as -> by congruence. by split; [intros ->|].
    + rewrite lookup_insert_ne by done. exists o. by split; [|split; [intros ->|]].
  - injection Hstep as <-. unfold cancel_order.
    destruct authorized; cbn [negb andb];
      [|exists o; by split; [|split; [intros ->|]]].
    destruct (decide (can_orderid request = order_id)) as [Heq|Hne].
    + rewrite bool_decide_eq_true_2 by done. subst order_id. rewrite Horder.
      destruct (String.eqb (ord_status o) "pending") eqn:Hp; cbn [negb].
      * cbn. rewrite lookup_insert_eq. eexists. split; [done|]. cbn.
        apply String.eqb_eq in Hp. split; [done|].
        rewrite Hp. intros [?|?]; discriminate.
      * exists o. split; [done|]. split; [|done].
        intros Hpend. rewrite Hpend in Hp. discriminate.
    + rewrite bool_decide_eq_false_2 by done.
      destruct (orders (store x) !! can_orderid request) as [o0|] eqn:E;
        [|exists o; by split; [|split; [intros ->|]]].
      destruct (negb _); [exists o; by split; [|split; [intros ->|]]|]. cbn.
      rewrite lookup_insert_ne by done. exists o. by split; [|split; [intros ->|]].
  - case_bool_decide as Hin; [|done]. injection Hstep as <-. cbn.
    rewrite process_order_orders. case_decide as Hd.
    + subst pid. rewrite Horder. cbn. eexists. split; [done|].
      split.
      * intros _. unfold success_rate.
        by destruct (Qlt_bool rnd _).
      * intros Hst. exfalso. by eapply Hdone.
    + exists o. by split; [|split; [intros ->|]].
  - injection Hstep as <-. unfold update_price.
    destruct (price_data (store x) !! token); cbn;
      (exists o; by split; [|split; [intros ->|]]).
Qed.

(** A complete order stays complete under a cancel request; a pending
    order is taken to [cancelled] by it. *)
Lemma order_status_transitions_witness :
  exchange_run exchange_init (take 2 round_trip) = Some (after (take 2 round_trip))
  ∧ status_of (after (take 2 round_trip)) "200910000000001" = Some "complete"
  ∧ status_of (after (take 2 round_trip
                      ++ [CancelOrder {| can_orderid := "200910000000001" |} true "t9"]))
              "200910000000001" = Some "complete"
  ∧ status_of (after (take 1 round_trip)) "200910000000001" = Some "pending"
  ∧ status_of (after (take 1 round_trip
                      ++ [CancelOrder {| can_orderid := "200910000000001" |} true "t9"]))
              "200910000000001" = Some "cancelled".
Proof.
  set (cancel := CancelOrder {| can_orderid := "200910000000001" |} true "t9").
  assert (H1 : exchange_run exchange_init (take 2 round_trip)
               = Some (after (take 2 round_trip)))
    by (vm_compute; reflexivity).
  assert (H2 : exchange_step (after (take 2 round_trip)) cancel
               = Some (after (take 2 round_trip ++ [cancel])))
    by (vm_compute; reflexivity).
  destruct (orders (store (after (take 2 round_trip))) !! "200910000000001")
    as [o|] eqn:H3; [|vm_compute in H3; discriminate].
  assert (H4 : ord_status o = "complete").
  { vm_compute in H3. injection H3 as <-. reflexivity. }
  destruct (order_status_transitions _ _ _ _ _ _ H1 H2 H3) as (o' & Ho' & _ & Hst).
  assert (G1 : exchange_run exchange_init (take 1 round_trip)
               = Some (after (take 1 round_trip)))
    by (vm_compute; reflexivity).
  assert (G2 : exchange_step (after (take 1 round_trip)) cancel
               = Some (after (take 1 round_trip ++ [cancel])))
    by (vm_compute; reflexivity).
  destruct (orders (store (after (take 1 round_trip))) !! "200910000000001")
    as [p|] eqn:G3; [|vm_compute in G3; discriminate].
  assert (G4 : ord_status p = "pending").
  { vm_compute in G3. injection G3 as <-. reflexivity. }
  destruct (order_status_transitions _ _ _ _ _ _ G1 G2 G3) as (p' & Hp' & Hpend & _).
  split; [exact H1|].
  unfold status_of. rewrite H3, Ho', G3, Hp'. cbn.
  rewrite (Hst (or_introl H4)), H4, G4, (Hpend G4).
  by repeat split.
Defined.

End MockApiSpec.

(** * Properties of the trading bot *)

Module BotSpec.

Import MockApi Bot.

(** ** One pass of the trigger scheduler *)

Section Tick.

Variables (st : TradingBotState) (broker : option (list Position))
          (current_time : Z).

Let M (it : string * Trigger) : list string * list Fire :=
  monitor_trigger st broker current_time it.1 it.2.

Lemma monitor_trigger_cases trigger_id trigger :
  let r := monitor_trigger st broker current_time trigger_id trigger in
  (r.2 = [] ∧ (r.1 = [] ∨ r.1 = [trigger_id]))
  ∨ (r.2 = [fire_of st broker trigger_id trigger]
     ∧ r.1 = if retires trigger then [trigger_id] else []).
Proof.
  unfold monitor_trigger, retires, fire_of.
  destruct (negb _); [left; auto|].
  destruct (timed_out _ _); [left; auto|].
  destruct (Qeq_bool _ _); [left; auto|].
  destruct (type trigger) as [b|sell_type].
  - destruct (check_buy_trigger _ _); [|left; auto].
    right. by destruct (trade_mode b).
  - destruct (check_sell_trigger _ _ _ _); [|left; auto]. by right.
Qed.

Lemma monitor_trigger_fire trigger_id trigger f :
  f ∈ (monitor_trigger st broker current_time trigger_id trigger).2 →
  f = fire_of st broker trigger_id trigger.
Proof.
  destruct (monitor_trigger_cases trigger_id trigger) as [[-> _]|[-> _]].
  - by intros ?%not_elem_of_nil.
  - by intros ->%list_elem_of_singleton.
Qed.

Lemma fired_app l1 l2 trigger_id :
  fired (l1 ++ l2) trigger_id = fired l1 trigger_id ++ fired l2 trigger_id.
Proof. apply List.filter_app. Qed.

Lemma fired_monitor_trigger trigger_id trigger id :
  fired (monitor_trigger st broker current_time trigger_id trigger).2 id
  = if decide (trigger_id = id)
    then (monitor_trigger st broker current_time trigger_id trigger).2
    else [].
Proof.
  destruct (monitor_trigger_cases trigger_id trigger) as [[-> _]|[-> _]].
  - by case_decide.
  - cbn. case_decide as Hd.
    + by rewrite (proj2 (String.eqb_eq _ _) Hd).
    + by rewrite (proj2 (String.eqb_neq _ _) Hd).
Qed.

Lemma fired_results (l : list (string * Trigger)) id :
  NoDup l.*1 →
  (∀ trigger, (id, trigger) ∈ l →
     fired (concat ((M <$> l).*2)) id
     = (monitor_trigger st broker current_time id trigger).2)
  ∧ (id ∉ l.*1 → fired (concat ((M <$> l).*2)) id = []).
Proof.
  induction l as [|[i t] l IH]; intros Hnd.
  - split; [by intros t ?%not_elem_of_nil|done].
  - apply NoDup_cons in Hnd as [Hi Hnd]. destruct (IH Hnd) as [IH1 IH2].
    cbn [fmap list_fmap concat]. change (fired (?a ++ ?b) id) with (fired (a ++ b) id).
    split.
    + intros trigger [[= <- <-]|Hin]%elem_of_cons.
      * rewrite fired_app. unfold M at 1. cbn [fst snd].
        rewrite fired_monitor_trigger, decide_True by done.
        rewrite IH2 by done. apply app_nil_r.
      * rewrite fired_app. unfold M at 1. cbn [fst snd].
        rewrite fired_monitor_trigger, decide_False.
        -- by apply IH1.
        -- intros ->. apply Hi. apply list_elem_of_fmap. by exists (id, trigger).
    + intros Hnotin. apply not_elem_of_cons in Hnotin as [Hne Hnotin].
      rewrite fired_app. unfold M at 1. cbn [fst snd].
      rewrite fired_monitor_trigger, decide_False by done.
      by apply IH2.
Qed.

Lemma removed_results (l : list (string * Trigger)) id :
  id ∈ concat ((M <$> l).*1)
  ↔ ∃ trigger, (id, trigger) ∈ l
      ∧ (monitor_trigger st broker current_time id trigger).1 = [id].
Proof.
  induction l as [|[i t] l IH].
  - split; [by intros ?%not_elem_of_nil|]. by intros (t & ?%not_elem_of_nil & _).
  - cbn [fmap list_fmap concat]. rewrite elem_of_app, IH. unfold M at 1. cbn [fst snd].
    split.
    + intros [Hin|(trigger & Hin & Hr)].
      * destruct (monitor_trigger_cases i t) as [[_ [Hr|Hr]]|[_ Hr]];
          rewrite Hr in Hin.
        -- by apply not_elem_of_nil in Hin.
        -- apply list_elem_of_singleton in Hin as ->.
           exists t. split; [apply list_elem_of_here|done].
        -- destruct (retires t); [|by apply not_elem_of_nil in Hin].
           apply list_elem_of_singleton in Hin as ->.
           exists t. split; [apply list_elem_of_here|done].
      * exists trigger. split; [by apply list_elem_of_further|done].
    + intros (trigger & [[= <- <-]|Hin]%elem_of_cons & Hr).
      * left. rewrite Hr. apply list_elem_of_here.
      * right. by exists trigger.
Qed.

Lemma lookup_remove_triggers (m : gmap string Trigger) ids id :
  remove_triggers m ids !! id = if decide (id ∈ ids) then None else m !! id.
Proof.
  unfold remove_triggers. revert m.
  induction ids as [|i ids IH]; intros m; cbn.
  - rewrite decide_False; [done|apply not_elem_of_nil].
  - rewrite IH. destruct (decide (i = id)) as [->|Hne].
    + rewrite lookup_delete_eq.
      rewrite (decide_True (P := id ∈ id :: ids)) by apply list_elem_of_here.
      by case_decide.
    + rewrite lookup_delete_ne by done.
      destruct (decide (id ∈ ids)) as [Hin|Hnotin].
      * rewrite decide_True; [done|by apply list_elem_of_further].
      * rewrite decide_False; [done|]. rewrite elem_of_cons. by intros [->|?].
Qed.

(** The firings of a trigger in one pass are those of the loop body on
    its entry. *)
Lemma fired_tick id :
  fired (trigger_monitor st broker current_time).2 id
  = if bot_active st then
      match active_orders st !! id with
      | Some trigger => (monitor_trigger st broker current_time id trigger).2
      | None => []
      end
    else [].
Proof.
  unfold trigger_monitor. destruct (bot_active st); [|done]. cbn [negb snd].
  destruct (fired_results (map_to_list (active_orders st)) id
              (NoDup_fst_map_to_list _)) as [H1 H2].
  destruct (active_orders st !! id) as [trigger|] eqn:E.
  - apply H1. by apply elem_of_map_to_list.
  - apply H2. intros ((i & t) & Heq & Hin)%list_elem_of_fmap. cbn in Heq. subst i.
    apply elem_of_map_to_list in Hin. congruence.
Qed.

(** The registry after one pass. *)
Lemma lookup_tick id :
  active_orders (trigger_monitor st broker current_time).1 !! id
  = match active_orders st !! id with
    | Some trigger =>
      if bot_active st
         && bool_decide ((monitor_trigger st broker current_time id trigger).1 = [id])
      then None else Some trigger
    | None => None
    end.
Proof.
  unfold trigger_monitor. destruct (bot_active st); cbn [negb fst andb].
  2:{ by destruct (active_orders st !! id). }
  cbn. rewrite lookup_remove_triggers.
  destruct (active_orders st !! id) as [trigger|] eqn:E.
  - case_decide as Hd; case_bool_decide as Hb; try done.
    + apply removed_results in Hd as (t & Hin & Hr).
      apply elem_of_map_to_list in Hin. congruence.
    + exfalso. apply Hd. apply removed_results. exists trigger.
      split; [by apply elem_of_map_to_list|done].
  - by case_decide.
Qed.

End Tick.


(** ** Conditions of entry and exit triggers *)

(** What one pass does with an active trigger that has not timed out
    and whose instrument has a price. *)
Lemma fired_tick_live st broker current_time id trigger
    (Hbot : bot_active st = true)
    (Hreg : active_orders st !! id = Some trigger)
    (Hstatus : status trigger = "active")
    (Hfresh : timed_out current_time trigger = false)
    (Hprice : ¬ (last_price st (symbol_token trigger) == 0)%Q) :
  fired (trigger_monitor st broker current_time).2 id
  = if match type trigger with
       | buy_trigger _ =>
         check_buy_trigger trigger (last_price st (symbol_token trigger))
       | sell_trigger _ =>
         check_sell_trigger st broker trigger (last_price st (symbol_token trigger))
       end
    then [fire_of st broker id trigger] else [].
Proof.
  rewrite fired_tick, Hbot, Hreg. unfold monitor_trigger.
  rewrite Hstatus, Hfresh. cbn [String.eqb negb].
  assert (Qeq_bool (last_price st (symbol_token trigger)) 0 = false) as ->.
  { apply not_true_iff_false. by rewrite Qeq_bool_iff. }
  change (String.eqb "active" "active") with true. cbn [negb].
  destruct (type trigger) as [b|sell_type].
  - destruct (check_buy_trigger _ _); [|done]. by destruct (trade_mode b).
  - by destruct (check_sell_trigger _ _ _ _).
Qed.

Lemma execute_trigger_buy st broker trigger b :
  authenticated st = true →
  type trigger = buy_trigger b →
  execute_trigger st broker trigger
  = Some (market_payload (symbol trigger) (exchange trigger)
                         (symbol_token trigger) (quantity b) "BUY").
Proof.
  intros Hauth Htype. unfold execute_trigger, execute_market_order.
  rewrite Htype. cbn. by rewrite Hauth.
Qed.

(** The order request that [execute_market_order] posts for an entry
    trigger. *)
Lemma execute_trigger_buy_payload st broker trigger b :
  authenticated st = true →
  type trigger = buy_trigger b →
  execute_trigger st broker trigger
  = Some {| req_variety := "NORMAL";
            req_tradingsymbol := symbol trigger;
            req_symboltoken := symbol_token trigger;
            req_transactiontype := "BUY";
            req_exchange := exchange trigger;
            req_ordertype := "MARKET";
            req_producttype := "INTRADAY";
            req_duration := "DAY";
            req_price := 0;
            req_quantity := quantity b;
            req_triggerprice := "0" |}.
Proof. apply execute_trigger_buy. Qed.

(** C4 (as stated) fails at the threshold: with baseline 100 and 10
    percent, the target computed by the code is 110.00000000000001, so a
    price of 110 does not fire although [110 >= 100 * (1 + 10/100)]; with
    baseline 0.1 and 0.2 points the target is 0.30000000000000004 and a
    price of 0.3 does not fire. *)
Lemma entry_threshold_counterexample :
  let run (kind : OrderType) (pts pct : option Q) (baseline p : Q) :=
    let st := price_update bot_without_prices "3045" baseline in
    let placed := place_buy_order st None (buy_request kind SINGLE pts pct) "u1" 0 in
    fired (trigger_monitor (price_update placed.1 "3045" p) None 1000000).2 "u1" in
  (100 * (1 + 10 / 100) <= 110)%Q
  ∧ run PERCENTAGE_TRIGGER None (Some 10%Q) 100%Q 110%Q = []
  ∧ ((1 # 10) + (2 # 10) <= 3 # 10)%Q
  ∧ run POINTS_TRIGGER (Some (2 # 10)) None (1 # 10) (3 # 10) = [].
Proof.
  intros run. split; [by vm_compute|]. split; [by vm_compute|].
  split; by vm_compute.
Qed.

(** C4 (as amended). An entry trigger stores as its baseline the price
    that [price_data] holds for its instrument when it is created. In a
    later pass in which it is registered, not timed out, and the price
    [p] of the instrument is known and not 0, it fires in points mode
    exactly when [p >= baseline + points] and in percentage mode exactly
    when [p >= baseline * (1 + percent/100)], both sides being evaluated in
    binary64 as the code does; when it fires it does so once, posting one
    BUY market order for the configured quantity. *)
Theorem entry_trigger_fires
    (st : TradingBotState) (broker : option (list Position))
    (order_request : BuyOrderRequest) (uuid token : string) (now : Z)
    (Htoken : get_symbol_token st (buy_symbol order_request)
                               (buy_exchange order_request) = Some token)
    (Hkind : buy_order_type order_request ≠ LIVE_PRICE) :
  let baseline := last_price st token in
  ∃ trigger,
    place_buy_order st broker order_request uuid now
    = (with_active_orders st (<[uuid := trigger]> (active_orders st)),
       TriggerSet uuid)
    ∧ ∀ st' broker' current_time thr,
        bot_active st' = true →
        authenticated st' = true →
        active_orders st' !! uuid = Some trigger →
        timed_out current_time trigger = false →
        ¬ (last_price st' token == 0)%Q →
        let p := last_price st' token in
        let fires := fired (trigger_monitor st' broker' current_time).2 uuid in
        let buy :=
          {| fire_id := uuid; fire_trigger := trigger;
             fire_order :=
               Some {| req_variety := "NORMAL";
                       req_tradingsymbol := buy_symbol order_request;
                       req_symboltoken := token;
                       req_transactiontype := "BUY";
                       req_exchange := buy_exchange order_request;
                       req_ordertype := "MARKET";
                       req_producttype := "INTRADAY";
                       req_duration := "DAY";
                       req_price := 0;
                       req_quantity := buy_quantity order_request;
                       req_triggerprice := "0" |} |} in
        (buy_order_type order_request = POINTS_TRIGGER →
         buy_points order_request = Some thr →
           fires = if (Binary64.of_Q baseline + Binary64.of_Q thr
                       <=? Binary64.of_Q p)%b64
                   then [buy] else [])
        ∧ (buy_order_type order_request = PERCENTAGE_TRIGGER →
           buy_percentage order_request = Some thr →
           fires = if (Binary64.of_Q baseline
                       * (Binary64.of_Z 1 + Binary64.of_Q thr / Binary64.of_Z 100)
                       <=? Binary64.of_Q p)%b64
                   then [buy] else []).
Proof.
  intros baseline. unfold place_buy_order. rewrite Htoken. fold baseline.
  set (trigger :=
         {| type := buy_trigger
                      {| quantity := buy_quantity order_request;
                         order_type := buy_order_type order_request;
                         trade_mode := buy_trade_mode order_request;
                         initial_price := baseline |};
            symbol := buy_symbol order_request;
            exchange := buy_exchange order_request;
            symbol_token := token;
            points := buy_points order_request;
            percentage := buy_percentage order_request;
            candle_size := buy_candle_size order_request;
            target_multiplier := buy_target_multiplier order_request;
            trailing_points := buy_trailing_points order_request;
            created_at := now;
            status := "active" |}).
  exists trigger. split; [by destruct (buy_order_type order_request)|].
  intros st' broker' current_time thr Hbot Hauth Hreg Hfresh Hprice.
  rewrite (fired_tick_live st' broker' current_time uuid trigger Hbot Hreg
             eq_refl Hfresh Hprice).
  unfold fire_of.
  rewrite (execute_trigger_buy_payload st' broker' trigger _ Hauth eq_refl).
  unfold check_buy_trigger.
  cbn [type trigger order_type points percentage initial_price symbol_token
       symbol exchange quantity].
  split; intros -> ->; reflexivity.
Qed.



(** ** Timeout *)

(** C6. In a pass of the scheduler, an active trigger older than the
    timeout is put on the removal list by the loop body without any look
    at prices, positions or its condition, whatever they are; it fires
    nothing and posts no order, so a trigger created at [T] never fires at
    a time later than [T + W]; and when the bot is enabled the pass removes
    it from the registry. *)
Theorem timed_out_trigger_is_retired
    (st : TradingBotState) (broker : option (list Position))
    (current_time : Z) (id : string) (trigger : Trigger)
    (Hreg : active_orders st !! id = Some trigger)
    (Hstatus : status trigger = "active")
    (Hage : (inject_Z (ORDER_TIMEOUT_MINUTES * 60)
             < total_seconds (current_time - created_at trigger))%Q) :
  (∀ st' broker', monitor_trigger st' broker' current_time id trigger = ([id], []))
  ∧ fired (trigger_monitor st broker current_time).2 id = []
  ∧ (bot_active st = true →
     active_orders (trigger_monitor st broker current_time).1 !! id = None).
Proof.
  assert (Hbody : ∀ st' broker',
            monitor_trigger st' broker' current_time id trigger = ([id], [])).
  { intros st' broker'. unfold monitor_trigger, timed_out.
    rewrite Hstatus. by rewrite (proj2 (Qlt_bool_iff _ _) Hage). }
  split; [exact Hbody|]. split.
  - rewrite fired_tick, Hreg, Hbody. by destruct (bot_active st).
  - intros Hbot. rewrite lookup_tick, Hreg, Hbot, Hbody. cbn.
    by rewrite bool_decide_eq_true_2.
Qed.

(** ** Baseline of a trigger created without a price *)

Lemma zero_baseline_fires st broker current_time id trigger b thr
    (Htype : type trigger = buy_trigger b)
    (Hbase : initial_price b = 0%Q)
    (Hstatus : status trigger = "active")
    (Hbot : bot_active st = true)
    (Hreg : active_orders st !! id = Some trigger)
    (Hfresh : timed_out current_time trigger = false)
    (Hpos : (0 < last_price st (symbol_token trigger))%Q) :
  let p := last_price st (symbol_token trigger) in
  let fires := fired (trigger_monitor st broker current_time).2 id in
  (order_type b = POINTS_TRIGGER → points trigger = Some thr →
     fires = if (Binary64.of_Q thr <=? Binary64.of_Q p)%b64
             then [fire_of st broker id trigger] else [])
  ∧ (order_type b = PERCENTAGE_TRIGGER → percentage trigger = Some thr →
     fires = if Binary64.is_finite
                  (Binary64.of_Z 1 + Binary64.of_Q thr / Binary64.of_Z 100)%b64
             then [fire_of st broker id trigger] else []).
Proof.
  intros p fires. subst fires.
  rewrite (fired_tick_live st broker current_time id _ Hbot Hreg Hstatus Hfresh).
  2:{ intros Hz. rewrite Hz in Hpos. by apply Qlt_irrefl in Hpos. }
  rewrite Htype. unfold check_buy_trigger. rewrite Htype, Hbase. fold p.
  change (Binary64.of_Q 0) with (S754_zero false).
  split; intros -> ->.
  - by rewrite leb_add_zero_l.
  - rewrite mul_zero_l.
    destruct (Binary64.is_finite _); [|done].
    rewrite leb_zero_of_Q; [done|]. by apply Qlt_le_weak.
Qed.


(** ** Retirement of fired triggers *)

Lemma elem_of_fired log id f : f ∈ fired log id ↔ f ∈ log ∧ fire_id f = id.
Proof.
  unfold fired. rewrite !list_elem_of_In, List.filter_In, String.eqb_eq. done.
Qed.

Lemma fired_nil log id : (∀ g, g ∈ log → fire_id g ≠ id) → fired log id = [].
Proof.
  intros H. destruct (fired log id) as [|g l] eqn:E; [done|].
  assert (Hg : g ∈ fired log id) by (rewrite E; apply list_elem_of_here).
  apply elem_of_fired in Hg as [Hin Hid]. by destruct (H g Hin).
Qed.

(** A firing in a pass comes from the registry, and the pass retires its
    trigger or keeps it unchanged according to its mode. *)
Lemma tick_fire st broker current_time f :
  f ∈ (trigger_monitor st broker current_time).2 →
  active_orders st !! fire_id f = Some (fire_trigger f)
  ∧ active_orders (trigger_monitor st broker current_time).1 !! fire_id f
    = (if retires (fire_trigger f) then None else Some (fire_trigger f))
  ∧ fired (trigger_monitor st broker current_time).2 (fire_id f) = [f].
Proof.
  intros Hin.
  assert (Hf : f ∈ fired (trigger_monitor st broker current_time).2 (fire_id f))
    by by apply elem_of_fired.
  rewrite lookup_tick. rewrite fired_tick in Hf |- *.
  destruct (bot_active st); [|by apply not_elem_of_nil in Hf].
  destruct (active_orders st !! fire_id f) as [trigger|];
    [|by apply not_elem_of_nil in Hf].
  destruct (monitor_trigger_cases st broker current_time (fire_id f) trigger)
    as [[Hr _]|[Hr Hrem]]; rewrite Hr in Hf |- *.
  { by apply not_elem_of_nil in Hf. }
  apply list_elem_of_singleton in Hf. rewrite Hrem.
  assert (fire_trigger f = trigger) as Ht by (by rewrite Hf).
  rewrite Ht, <- Hf. split; [done|]. split; [|done].
  destruct (retires trigger); cbn.
  - by rewrite bool_decide_eq_true_2.
  - by rewrite bool_decide_eq_false_2.
Qed.

Lemma bot_step_fire st e f :
  f ∈ (bot_step st e).2 →
  active_orders st !! fire_id f = Some (fire_trigger f)
  ∧ active_orders (bot_step st e).1 !! fire_id f
    = (if retires (fire_trigger f) then None else Some (fire_trigger f))
  ∧ fired (bot_step st e).2 (fire_id f) = [f].
Proof.
  destruct e; cbn [bot_step snd]; try by intros ?%not_elem_of_nil.
  apply tick_fire.
Qed.

(** Outside of the identifiers it draws, an event adds nothing to the
    registry and changes no entry. *)
Lemma bot_step_lookup_back st e id trigger :
  id ∉ event_uuid e →
  active_orders (bot_step st e).1 !! id = Some trigger →
  active_orders st !! id = Some trigger.
Proof.
  destruct e as [ct broker|ct broker|req broker uuid now|req broker uuid now
                |tid| | |instruments|token ltp]; cbn [bot_step fst event_uuid].
  - intros _. rewrite lookup_tick.
    destruct (active_orders st !! id) as [t|]; [|done].
    by destruct (_ && _).
  - intros _. unfold auto_exit_monitor.
    destruct (_ && _); [|done]. destruct (get_positions st broker); [|done].
    cbn. by rewrite lookup_empty.
  - intros Hne%not_elem_of_cons. unfold place_buy_order.
    destruct (get_symbol_token _ _ _); [|done].
    destruct (buy_order_type req); cbn; try done;
      by rewrite lookup_insert_ne by (intros ->; by destruct Hne).
  - intros Hne%not_elem_of_cons. unfold place_sell_order.
    destruct (get_symbol_token _ _ _); [|done].
    destruct (sell_sell_type req); cbn; try done;
      by rewrite lookup_insert_ne by (intros ->; by destruct Hne).
  - intros _. unfold cancel_trigger.
    destruct (active_orders st !! tid); [|done]. cbn.
    destruct (decide (tid = id)) as [->|Hne].
    + by rewrite lookup_delete_eq.
    + by rewrite lookup_delete_ne.
  - done.
  - intros _. cbn. by rewrite lookup_empty.
  - done.
  - done.
Qed.

Lemma bot_run_cons st e es :
  bot_run st (e :: es)
  = ((bot_run (bot_step st e).1 es).1,
     (bot_step st e).2 ++ (bot_run (bot_step st e).1 es).2).
Proof.
  change (bot_run st (e :: es))
    with (let '(st1, fires) := bot_step st e in
          let '(st2, log) := bot_run st1 es in (st2, fires ++ log)).
  destruct (bot_step st e) as [st1 fires]. cbn [fst snd].
  by destruct (bot_run st1 es) as [st2 log].
Qed.

(** A trigger that fires during a run under an identifier the run does
    not draw was in the registry at the start. *)
Lemma bot_run_fire es : ∀ st f,
  f ∈ (bot_run st es).2 →
  fire_id f ∉ uuids es →
  active_orders st !! fire_id f = Some (fire_trigger f).
Proof.
  induction es as [|e es IH]; intros st f.
  - by intros ?%not_elem_of_nil.
  - rewrite bot_run_cons. cbn [snd uuids flat_map].
    intros [Hin|Hin]%elem_of_app [Hne Hnes]%not_elem_of_app.
    + by apply bot_step_fire in Hin as [? _].
    + eapply bot_step_lookup_back; [exact Hne|]. by apply IH.
Qed.

Lemma bot_run_lookup_none es : ∀ st id,
  id ∉ uuids es →
  active_orders st !! id = None →
  active_orders (bot_run st es).1 !! id = None.
Proof.
  induction es as [|e es IH]; intros st id; [done|].
  rewrite bot_run_cons. cbn [fst uuids flat_map].
  intros [Hne Hnes]%not_elem_of_app Hnone. apply IH; [done|].
  destruct (active_orders (bot_step st e).1 !! id) as [t|] eqn:E; [|done].
  apply bot_step_lookup_back in E; [congruence|done].
Qed.

Lemma retiring_fire_once es : ∀ st f,
  NoDup (uuids es) →
  (∀ u, u ∈ uuids es → active_orders st !! u = None) →
  f ∈ (bot_run st es).2 →
  retires (fire_trigger f) = true →
  fired (bot_run st es).2 (fire_id f) = [f]
  ∧ active_orders (bot_run st es).1 !! fire_id f = None.
Proof.
  induction es as [|e es IH]; intros st f Hnd Hnew.
  - by intros ?%not_elem_of_nil.
  - rewrite bot_run_cons. cbn [fst snd]. cbn [uuids flat_map] in Hnd, Hnew.
    fold (uuids es) in Hnd, Hnew.
    apply NoDup_app in Hnd as (_ & Hdisj & Hnd').
    assert (Hnew' : ∀ u, u ∈ uuids es → active_orders (bot_step st e).1 !! u = None).
    { intros u Hu.
      destruct (active_orders (bot_step st e).1 !! u) as [t|] eqn:E; [|done].
      apply bot_step_lookup_back in E.
      - rewrite Hnew in E; [done|]. apply elem_of_app. by right.
      - intros Hue. by apply (Hdisj u). }
    assert (Hold : ∀ id t, active_orders st !! id = Some t →
                           id ∉ event_uuid e ++ uuids es).
    { intros id t Hsome Hin. by rewrite (Hnew _ Hin) in Hsome. }
    intros [Hin|Hin]%elem_of_app Hret; rewrite fired_app.
    + destruct (bot_step_fire _ _ _ Hin) as (Hreg & Hgone & Hone).
      rewrite Hret in Hgone. rewrite Hone.
      apply Hold in Hreg. apply not_elem_of_app in Hreg as [_ Hnes].
      split.
      * rewrite fired_nil; [done|]. intros g Hg Hid.
        pose proof (bot_run_fire es _ g Hg) as Hback.
        rewrite Hid in Hback. rewrite Hback in Hgone; done.
      * by apply bot_run_lookup_none.
    + destruct (IH _ _ Hnd' Hnew' Hin Hret) as [Hone Hgone].
      rewrite Hone. split; [|done].
      rewrite fired_nil; [done|]. intros g Hg Hid.
      destruct (bot_step_fire _ _ _ Hg) as (Hreg & Hkept & _).
      rewrite Hid in Hreg, Hkept.
      apply Hold in Hreg. apply not_elem_of_app in Hreg as [_ Hnes].
      pose proof (bot_run_fire es _ f Hin Hnes) as Hback.
      rewrite Hkept in Hback.
      destruct (retires (fire_trigger g)) eqn:Hg'; [done|].
      injection Hback as Hback. congruence.
Qed.

(** C2. A firing retires its trigger according to its mode: in the pass
    in which it fires, an exit trigger and a single-mode entry trigger are
    removed from the registry, while a multi-mode entry trigger stays
    registered with the same record, hence the same baseline. Over a whole
    run (passes of the scheduler interleaved with trigger creation,
    cancellation, start, stop, auto-exit, login and price updates, the
    identifiers drawn being fresh), a trigger whose firing retires it fires
    exactly once and is not listed as active at the end of the run. *)
Theorem fired_trigger_is_retired
    (st0 : TradingBotState) (es : list Event) (f : Fire)
    (Hfresh : NoDup (uuids es))
    (Hnew : ∀ u, u ∈ uuids es → active_orders st0 !! u = None)
    (Hfire : f ∈ (bot_run st0 es).2) :
  (retires (fire_trigger f) = true →
     fired (bot_run st0 es).2 (fire_id f) = [f]
     ∧ fire_id f ∉ listActiveTriggers (bot_run st0 es).1)
  ∧ (∀ st broker current_time g,
       g ∈ (trigger_monitor st broker current_time).2 →
       active_orders st !! fire_id g = Some (fire_trigger g)
       ∧ active_orders (trigger_monitor st broker current_time).1 !! fire_id g
         = match type (fire_trigger g) with
           | sell_trigger _ => None
           | buy_trigger b =>
             match trade_mode b with
             | SINGLE => None
             | MULTI => Some (fire_trigger g)
             end
           end).
Proof.
  split.
  - intros Hret.
    destruct (retiring_fire_once es st0 f Hfresh Hnew Hfire Hret) as [Hone Hgone].
    split; [done|]. unfold listActiveTriggers. by apply not_elem_of_dom.
  - intros st broker current_time g Hg.
    destruct (tick_fire _ _ _ _ Hg) as (Hreg & Hafter & _).
    split; [done|]. rewrite Hafter. unfold retires.
    destruct (type (fire_trigger g)) as [b|]; [|done]. by destruct (trade_mode b).
Qed.

(** ** Auto-exit *)

Lemma sell_quantity_distinct (data : list Position) pos :
  NoDup (symboltoken <$> data) →
  pos ∈ data →
  0 < netqty pos →
  sell_quantity data (symboltoken pos) 0 = netqty pos.
Proof.
  unfold sell_quantity.
  induction data as [|hd data IH]; [by intros _ ?%not_elem_of_nil|].
  cbn [fmap list_fmap List.find]. intros [Hhd Hnd]%NoDup_cons Hin Hlong.
  apply elem_of_cons in Hin as [<-|Hin].
  - rewrite String.eqb_refl. by rewrite (proj2 (Z.ltb_lt _ _) Hlong).
  - assert (String.eqb (symboltoken hd) (symboltoken pos) = false) as ->.
    { apply String.eqb_neq. intros Heq. apply Hhd. rewrite Heq.
      by apply list_elem_of_fmap_2. }
    cbn [andb]. by apply IH.
Qed.

Lemma execute_sell_distinct st (data : list Position) pos :
  authenticated st = true →
  NoDup (symboltoken <$> data) →
  pos ∈ data →
  0 < netqty pos →
  execute_market_order st (Some data) (tradingsymbol pos) (MockApi.exchange pos)
                       (symboltoken pos) 0 "SELL"
  = Some (closing_order pos).
Proof.
  intros Hauth Hnd Hin Hlong. unfold execute_market_order, get_positions.
  rewrite Hauth. cbn [String.eqb Ascii.eqb Bool.eqb Z.eqb andb].
  change (String.eqb "SELL" "SELL") with true. cbn [andb].
  rewrite sell_quantity_distinct by done.
  destruct (netqty pos =? 0) eqn:E; [apply Z.eqb_eq in E; lia|done].
Qed.

(** C3 (as stated) fails in three ways. With a short position of 5 units
    in the ledger the auto-exit posts no order, and still disables the
    bot. With two long positions on the same symbol token (10 units on
    NSE, 4 units on BSE) both closing orders are sized from the first one:
    the second is a SELL of 10 for a position of 4. And when the position
    query fails, the bot stays enabled and keeps its triggers. *)
Lemma auto_exit_counterexample :
  let short := position_of "SBIN-EQ" "3045" (-5) 100 in
  let r := auto_exit_monitor bot_without_prices (Some [short]) (time_of 15 25) in
  let nse := position_of "SBIN-EQ" "3045" 10 100 in
  let bse :=
    {| symboltoken := "3045"; tradingsymbol := "SBIN"; MockApi.exchange := "BSE";
       netqty := 4; avgprice := 100; ltp := 100; pnl := 0;
       buyqty := 4; sellqty := 0; buyvalue := 400; sellvalue := 0 |} in
  let r2 := auto_exit_monitor bot_without_prices (Some [nse; bse]) (time_of 15 25) in
  let r3 := auto_exit_monitor (bot_with (entry_points 100 5 SINGLE) 100) None
                              (time_of 15 25) in
  netqty short ≠ 0 ∧ r.1.2 = [] ∧ bot_active r.1.1 = false
  ∧ (fun payload => (req_exchange payload, req_transactiontype payload,
                     req_quantity payload)) <$> r2.1.2
    = [("NSE", "SELL", 10); ("BSE", "SELL", 10)]
  ∧ bot_active r3.1.1 = true
  ∧ active_orders r3.1.1 !! "t1" = Some (entry_points 100 5 SINGLE).
Proof. repeat split. vm_compute. discriminate. Qed.

(** C3 (as amended). When the watchdog sees a time at or past 15:25 while
    the bot is enabled and the position query succeeds (the reported
    positions being on distinct symbol tokens), it posts one SELL market
    order for every reported position whose net quantity is positive, for
    exactly that net quantity, and none for the other positions; it then
    disables the bot and clears the trigger registry. As long as the bot
    stays disabled the watchdog posts nothing and changes nothing. *)
Theorem auto_exit_closes_long_positions
    (st : TradingBotState) (data : list Position) (current_time : time)
    (Hauth : authenticated st = true)
    (Hbot : bot_active st = true)
    (Htime : time_ge current_time AUTO_EXIT_TIME = true)
    (Hdistinct : NoDup (symboltoken <$> data)) :
  let r := auto_exit_monitor st (Some data) current_time in
  let closing (pos : Position) :=
    {| req_variety := "NORMAL";
       req_tradingsymbol := tradingsymbol pos;
       req_symboltoken := symboltoken pos;
       req_transactiontype := "SELL";
       req_exchange := MockApi.exchange pos;
       req_ordertype := "MARKET";
       req_producttype := "INTRADAY";
       req_duration := "DAY";
       req_price := 0;
       req_quantity := netqty pos;
       req_triggerprice := "0" |} in
  r.1.2 = closing <$> filter (fun pos => 0 < netqty pos) data
  ∧ bot_active r.1.1 = false
  ∧ active_orders r.1.1 = ∅
  ∧ (∀ st' broker t,
       bot_active st' = false → auto_exit_monitor st' broker t = (st', [], 60)).
Proof.
  intros r closing. subst r. unfold auto_exit_monitor at 1 2 3, get_positions.
  rewrite Htime, Hbot, Hauth. cbn [andb fst snd stop_bot bot_active active_orders].
  split; [|split; [done|split; [done|]]].
  - assert (Hsub : ∀ l : list Position, (∀ pos, pos ∈ l → pos ∈ data) →
              flat_map
                (fun pos =>
                   if 0 <? netqty pos then
                     option_list
                       (execute_market_order st (Some data) (tradingsymbol pos)
                          (MockApi.exchange pos) (symboltoken pos) 0 "SELL")
                   else []) l
              = closing <$> filter (fun pos => 0 < netqty pos) l).
    { induction l as [|pos l IH]; intros Hl; [done|].
      cbn [flat_map]. rewrite filter_cons.
      rewrite IH by (intros p Hp; apply Hl; by apply list_elem_of_further).
      destruct (0 <? netqty pos) eqn:E.
      - apply Z.ltb_lt in E. rewrite decide_True by done.
        rewrite execute_sell_distinct; [done|done|done| |done].
        apply Hl, list_elem_of_here.
      - apply Z.ltb_ge in E. rewrite decide_False by lia. done. }
    by apply Hsub.
  - intros st' broker t Hoff. unfold auto_exit_monitor. rewrite Hoff.
    by rewrite andb_false_r.
Qed.

Lemma auto_exit_closes_long_positions_witness :
  let data := [ position_of "SBIN-EQ" "3045" 10 100;
                position_of "TCS-EQ" "11536" 5 3890;
                position_of "INFY-EQ" "1594" 0 0 ] in
  let r := auto_exit_monitor (bot_with (entry_points 100 5 SINGLE) 100)
                             (Some data) (time_of 15 25) in
  (fun payload => (req_tradingsymbol payload, req_transactiontype payload,
                   req_ordertype payload, req_quantity payload)) <$> r.1.2
  = [ ("SBIN-EQ", "SELL", "MARKET", 10); ("TCS-EQ", "SELL", "MARKET", 5) ]
  ∧ bot_active r.1.1 = false
  ∧ active_orders r.1.1 = ∅.
Proof.
  intros data r.
  assert (Hnd : NoDup (symboltoken <$> data)).
  { subst data. cbn. repeat (apply NoDup_cons; split; [|]);
      [| | |apply NoDup_nil_2];
      rewrite ?elem_of_cons; intros H;
      repeat (destruct H as [H|H]; [discriminate H|]); by apply not_elem_of_nil in H. }
  destruct (auto_exit_closes_long_positions
              (bot_with (entry_points 100 5 SINGLE) 100) data (time_of 15 25)
              eq_refl eq_refl eq_refl Hnd) as (Hposts & Hoff & Hclear & _).
  fold r in Hposts, Hoff, Hclear.
  split; [|split; [exact Hoff|exact Hclear]].
  rewrite Hposts. reflexivity.
Defined.

(** ** The scenarios of the design document *)

Ltac qcalc :=
  vm_compute;
  first [ reflexivity | congruence
        | let H := fresh in intros H; first [discriminate H | exact (H eq_refl)] ].

(** Entry trigger with baseline 100 and threshold 5 points, 10 units: a
    price of 104 does not fire it, a price of 105 fires one BUY of 10. *)
Lemma entry_trigger_fires_witness :
  let st := price_update bot_without_prices "3045" 100 in
  let placed :=
    place_buy_order st None (buy_request POINTS_TRIGGER SINGLE (Some 5%Q) None)
                    "u1" 0 in
  let at_price p :=
    fired (trigger_monitor (price_update placed.1 "3045" p) None 1000000).2 "u1" in
  placed.2 = TriggerSet "u1"
  ∧ at_price 104%Q = []
  ∧ ∃ f payload, at_price 105%Q = [f]
         ∧ fire_id f = "u1"
         ∧ fire_order f = Some payload
         ∧ req_tradingsymbol payload = "SBIN-EQ"
         ∧ req_transactiontype payload = "BUY"
         ∧ req_ordertype payload = "MARKET"
         ∧ req_quantity payload = 10.
Proof.
  intros st placed at_price.
  destruct (entry_trigger_fires st None
              (buy_request POINTS_TRIGGER SINGLE (Some 5%Q) None)
              "u1" "3045" 0 eq_refl ltac:(discriminate))
    as (trigger & Hplace & Hlater).
  fold placed in Hplace.
  assert (Htrig : trigger = entry_points 100 5 SINGLE).
  { assert (active_orders placed.1 !! "u1" = Some trigger) as E
      by (rewrite Hplace; cbn; apply lookup_insert_eq).
    vm_compute in E. by injection E as <-. }
  assert (Hreg : ∀ p, active_orders (price_update placed.1 "3045" p) !! "u1"
                      = Some trigger).
  { intros p. rewrite Hplace. cbn. apply lookup_insert_eq. }
  split; [by rewrite Hplace|]. split.
  - destruct (Hlater (price_update placed.1 "3045" 104) None 1000000 5%Q)
      as [Hpts _]; [reflexivity|reflexivity|apply Hreg| | |].
    + rewrite Htrig. reflexivity.
    + by vm_compute.
    + subst at_price. cbn beta. rewrite Hpts by reflexivity. by vm_compute.
  - destruct (Hlater (price_update placed.1 "3045" 105) None 1000000 5%Q)
      as [Hpts _]; [reflexivity|reflexivity|apply Hreg| | |].
    + rewrite Htrig. reflexivity.
    + by vm_compute.
    + subst at_price. cbn beta. rewrite Hpts by reflexivity.
      eexists _, _. split; [by vm_compute|]. by repeat split.
Defined.


(** A trigger created at time 0 and looked at after 301 seconds. *)
Lemma timed_out_trigger_is_retired_witness :
  (inject_Z (ORDER_TIMEOUT_MINUTES * 60)
   < total_seconds (301000000 - created_at (entry_points 100 5 SINGLE)))%Q
  ∧ fired (trigger_monitor (bot_with (entry_points 100 5 SINGLE) 105) None 301000000).2
          "t1" = []
  ∧ active_orders
      (trigger_monitor (bot_with (entry_points 100 5 SINGLE) 105) None 301000000).1
      !! "t1" = None.
Proof.
  assert (Hage : (inject_Z (ORDER_TIMEOUT_MINUTES * 60)
                  < total_seconds (301000000 - created_at (entry_points 100 5 SINGLE)))%Q)
    by reflexivity.
  destruct (timed_out_trigger_is_retired
              (bot_with (entry_points 100 5 SINGLE) 105) None 301000000 "t1"
              (entry_points 100 5 SINGLE) eq_refl eq_refl Hage) as (_ & Hno & Hgone).
  split; [exact Hage|]. split; [exact Hno|exact (Hgone eq_refl)].
Defined.


(** In [entry_run] the trigger ["u1"] fires in the second pass, once. *)
Lemma fired_trigger_is_retired_witness :
  NoDup (uuids entry_run)
  ∧ (bot_run bot_state_init entry_run).2 = [entry_run_fire]
  ∧ fired (bot_run bot_state_init entry_run).2 "u1" = [entry_run_fire]
  ∧ "u1" ∉ listActiveTriggers (bot_run bot_state_init entry_run).1.
Proof.
  assert (Hnd : NoDup (uuids entry_run)) by apply NoDup_singleton.
  assert (Hlog : (bot_run bot_state_init entry_run).2 = [entry_run_fire])
    by (vm_compute; reflexivity).
  assert (Hin : entry_run_fire ∈ (bot_run bot_state_init entry_run).2)
    by (rewrite Hlog; apply list_elem_of_here).
  destruct (fired_trigger_is_retired bot_state_init entry_run entry_run_fire
              Hnd (fun u _ => lookup_empty u) Hin) as [Hret _].
  destruct (Hret eq_refl) as [Hone Hgone].
  split; [exact Hnd|]. split; [exact Hlog|]. split; [exact Hone|exact Hgone].
Defined.

End BotSpec.

(** * Further properties of the trading bot *)

Module BotExtra.

Import MockApi Bot BotSpec.

(** ** Profit and loss *)



(** ** Timeout boundary *)

(** X2. The timeout is exclusive at five minutes. A registered, active
    trigger whose instrument has a price and whose condition holds fires in
    a pass of the scheduler exactly when at most 300 000 000 microseconds
    have passed since its creation: at exactly five minutes it is still
    evaluated and fires, one microsecond later it is removed without
    firing. *)
Theorem timed_out_boundary
    (st : TradingBotState) (broker : option (list Position))
    (current_time : Z) (id : string) (trigger : Trigger)
    (Hbot : bot_active st = true)
    (Hreg : active_orders st !! id = Some trigger)
    (Hstatus : status trigger = "active")
    (Hprice : ¬ (last_price st (symbol_token trigger) == 0)%Q)
    (Hcond : match type trigger with
             | buy_trigger _ =>
               check_buy_trigger trigger (last_price st (symbol_token trigger))
             | sell_trigger _ =>
               check_sell_trigger st broker trigger
                                  (last_price st (symbol_token trigger))
             end = true) :
  let r := trigger_monitor st broker current_time in
  (current_time - created_at trigger ≤ 300000000 →
     fired r.2 id = [fire_of st broker id trigger])
  ∧ (300000000 < current_time - created_at trigger →
     fired r.2 id = [] ∧ active_orders r.1 !! id = None).
Proof.
  intros r. subst r.
  assert (Hto : timed_out current_time trigger = true
                ↔ 300000000 < current_time - created_at trigger).
  { unfold timed_out. rewrite Qlt_bool_iff.
    unfold total_seconds, Qlt, ORDER_TIMEOUT_MINUTES, inject_Z.
    cbn [Qnum Qden]. lia. }
  split.
  - intros Hle.
    rewrite (fired_tick_live st broker current_time id trigger Hbot Hreg Hstatus);
      [by rewrite Hcond| |done].
    apply not_true_iff_false. rewrite Hto. lia.
  - intros Hlt. apply Hto in Hlt.
    assert (Hbody : monitor_trigger st broker current_time id trigger = ([id], [])).
    { unfold monitor_trigger. by rewrite Hstatus, Hlt. }
    split.
    + by rewrite fired_tick, Hbot, Hreg, Hbody.
    + rewrite lookup_tick, Hreg, Hbot, Hbody. cbn.
      by rewrite bool_decide_eq_true_2.
Qed.

(** At 300 s exactly the entry trigger fires; at 300.000001 s it is
    removed. *)
Lemma timed_out_boundary_witness :
  let st := bot_with (entry_points 100 5 SINGLE) 105 in
  length (fired (trigger_monitor st None 300000000).2 "t1") = 1%nat
  ∧ fired (trigger_monitor st None 300000001).2 "t1" = []
  ∧ active_orders (trigger_monitor st None 300000001).1 !! "t1" = None.
Proof.
  intros st.
  destruct (timed_out_boundary st None 300000000 "t1" (entry_points 100 5 SINGLE)
              eq_refl eq_refl eq_refl ltac:(by vm_compute) ltac:(by vm_compute))
    as [Hat _].
  destruct (timed_out_boundary st None 300000001 "t1" (entry_points 100 5 SINGLE)
              eq_refl eq_refl eq_refl ltac:(by vm_compute) ltac:(by vm_compute))
    as [_ Hafter].
  split; [by rewrite Hat|]. apply Hafter. reflexivity.
Defined.

(** ** What a pass of the scheduler leaves alone *)

Lemma trigger_monitor_frame st broker current_time :
  let st' := (trigger_monitor st broker current_time).1 in
  authenticated st' = authenticated st
  ∧ scrip_master st' = scrip_master st
  ∧ price_data st' = price_data st
  ∧ bot_active st' = bot_active st.
Proof. unfold trigger_monitor. by destruct (bot_active st) eqn:E. Qed.

(** X3. A pass of the scheduler only removes triggers: every trigger in
    the registry after the pass was there before with the same record,
    every trigger that fired was registered, and the rest of the state
    (authentication, instruments, prices, the enabled flag) is unchanged. *)
Theorem pass_only_removes
    (st : TradingBotState) (broker : option (list Position)) (current_time : Z) :
  let st' := (trigger_monitor st broker current_time).1 in
  (∀ id trigger, active_orders st' !! id = Some trigger →
                 active_orders st !! id = Some trigger)
  ∧ (∀ f, f ∈ (trigger_monitor st broker current_time).2 →
          active_orders st !! fire_id f = Some (fire_trigger f))
  ∧ authenticated st' = authenticated st
  ∧ scrip_master st' = scrip_master st
  ∧ price_data st' = price_data st
  ∧ bot_active st' = bot_active st.
Proof.
  intros st'. split; [|split; [|apply trigger_monitor_frame]].
  - intros id trigger. subst st'. rewrite lookup_tick.
    destruct (active_orders st !! id) as [t|]; [|done]. by destruct (_ && _).
  - intros f Hf. by apply tick_fire in Hf as [? _].
Qed.

(** ** Triggers that cannot fire *)

Lemma inert_checks st broker trigger p :
  inert trigger →
  match type trigger with
  | buy_trigger _ => check_buy_trigger trigger p
  | sell_trigger _ => check_sell_trigger st broker trigger p
  end = false.
Proof.
  unfold inert, check_buy_trigger, check_sell_trigger.
  destruct (type trigger) as [b|k].
  - intros [->|[->|[[-> ->]|[-> ->]]]]; done.
  - destruct (get_positions st broker); [|done].
    destruct (Qeq_bool _ _); [done|].
    intros [->|[->|[[-> ->]|[-> ->]]]]; done.
Qed.

Lemma monitor_trigger_quiet st broker current_time id trigger :
  (status trigger ≠ "active"
   ∨ (last_price st (symbol_token trigger) == 0)%Q
   ∨ inert trigger) →
  (monitor_trigger st broker current_time id trigger).2 = []
  ∧ (timed_out current_time trigger = false →
     (monitor_trigger st broker current_time id trigger).1 = []).
Proof.
  intros H. unfold monitor_trigger.
  destruct (negb (String.eqb (status trigger) "active")) eqn:Hs; [done|].
  destruct (timed_out current_time trigger); [done|].
  destruct (Qeq_bool _ _) eqn:Hq; [done|].
  destruct H as [H|[H|H]].
  - apply negb_false_iff, String.eqb_eq in Hs. done.
  - apply Qeq_bool_iff in H. congruence.
  - pose proof (inert_checks st broker trigger
                  (last_price st (symbol_token trigger)) H) as Hc.
    destruct (type trigger); by rewrite Hc.
Qed.

(** X4. A registered trigger with a candle condition, or without the
    threshold its condition needs, never fires, whatever the price and the
    positions are; until it times out, every pass keeps it in the
    registry. *)
Theorem inert_trigger_never_fires
    (st : TradingBotState) (broker : option (list Position))
    (current_time : Z) (id : string) (trigger : Trigger)
    (Hreg : active_orders st !! id = Some trigger)
    (Hinert : inert trigger) :
  fired (trigger_monitor st broker current_time).2 id = []
  ∧ (timed_out current_time trigger = false →
     active_orders (trigger_monitor st broker current_time).1 !! id
     = Some trigger).
Proof.
  destruct (monitor_trigger_quiet st broker current_time id trigger
              (or_intror (or_intror Hinert))) as [Hno Hkeep].
  split.
  - rewrite fired_tick, Hreg, Hno. by destruct (bot_active st).
  - intros Hfresh. rewrite lookup_tick, Hreg, (Hkeep Hfresh).
    rewrite bool_decide_eq_false_2 by done. by rewrite andb_false_r.
Qed.

Lemma inert_trigger_never_fires_witness :
  let candle :=
    {| type := buy_trigger {| quantity := 10; order_type := CANDLE_TRIGGER;
                              trade_mode := SINGLE; initial_price := 100 |};
       symbol := "SBIN-EQ"; exchange := "NSE"; symbol_token := "3045";
       points := Some 5%Q; percentage := None; candle_size := Some "FIVE_MINUTE";
       target_multiplier := None; trailing_points := None;
       created_at := 0; status := "active" |} in
  fired (trigger_monitor (bot_with candle 1000) None 1000000).2 "t1" = []
  ∧ active_orders (trigger_monitor (bot_with candle 1000) None 1000000).1 !! "t1"
    = Some candle.
Proof.
  intros candle.
  destruct (inert_trigger_never_fires (bot_with candle 1000) None 1000000 "t1"
              candle eq_refl (or_introl eq_refl)) as [Hno Hkeep].
  split; [exact Hno|exact (Hkeep eq_refl)].
Defined.

(** X5. A registered trigger whose instrument has no price in
    [bot_state.price_data], or the price 0, is skipped by the pass: it does
    not fire and, unless it has timed out, it stays in the registry. *)
Theorem trigger_without_price_waits
    (st : TradingBotState) (broker : option (list Position))
    (current_time : Z) (id : string) (trigger : Trigger)
    (Hreg : active_orders st !! id = Some trigger)
    (Hprice : price_data st !! symbol_token trigger = None
              ∨ (last_price st (symbol_token trigger) == 0)%Q) :
  fired (trigger_monitor st broker current_time).2 id = []
  ∧ (timed_out current_time trigger = false →
     active_orders (trigger_monitor st broker current_time).1 !! id
     = Some trigger).
Proof.
  assert (Hz : (last_price st (symbol_token trigger) == 0)%Q).
  { destruct Hprice as [Hnone|Hz]; [|done]. unfold last_price. by rewrite Hnone. }
  destruct (monitor_trigger_quiet st broker current_time id trigger
              (or_intror (or_introl Hz))) as [Hno Hkeep].
  split.
  - rewrite fired_tick, Hreg, Hno. by destruct (bot_active st).
  - intros Hfresh. rewrite lookup_tick, Hreg, (Hkeep Hfresh).
    rewrite bool_decide_eq_false_2 by done. by rewrite andb_false_r.
Qed.

Lemma trigger_without_price_waits_witness :
  let st := with_active_orders bot_without_prices
              {["t1" := entry_points 100 5 SINGLE]} in
  fired (trigger_monitor st None 1000000).2 "t1" = []
  ∧ active_orders (trigger_monitor st None 1000000).1 !! "t1"
    = Some (entry_points 100 5 SINGLE).
Proof.
  intros st.
  destruct (trigger_without_price_waits st None 1000000 "t1"
              (entry_points 100 5 SINGLE) eq_refl (or_introl eq_refl))
    as [Hno Hkeep].
  split; [exact Hno|exact (Hkeep eq_refl)].
Defined.


(** ** Sizing of orders *)

Lemma sell_quantity_found data token pos :
  List.find (fun pos => String.eqb (symboltoken pos) token && (0 <? netqty pos))
            data = Some pos →
  pos ∈ data ∧ symboltoken pos = token ∧ 0 < netqty pos.
Proof.
  intros H. apply List.find_some in H as [Hin Hb].
  apply andb_true_iff in Hb as [Ht Hq].
  split; [by apply list_elem_of_In|].
  split; [by apply String.eqb_eq|by apply Z.ltb_lt].
Qed.

Lemma no_long_position_no_sell st data symbol exchange symbol_token :
  (∀ pos, pos ∈ data → symboltoken pos = symbol_token → netqty pos ≤ 0) →
  execute_market_order st (Some data) symbol exchange symbol_token 0 "SELL" = None.
Proof.
  intros Hnone. unfold execute_market_order, get_positions.
  change (String.eqb "SELL" "SELL" && (0 =? 0)) with true. cbv iota.
  destruct (authenticated st); [|done]. unfold sell_quantity.
  destruct (List.find _ data) as [pos|] eqn:Hfind; [|done].
  apply sell_quantity_found in Hfind as (Hin & Htok & Hlong).
  specialize (Hnone pos Hin Htok). lia.
Qed.

(** X6. A SELL that leaves its quantity to the ledger (quantity 0) is
    posted only when the bot is authenticated and the broker reports a
    long position on the token, and then for the net quantity of such a
    position, which is positive; when every reported position on the
    token is flat or short nothing is posted. *)
Theorem sell_is_sized_from_long_position
    (st : TradingBotState) (broker : option (list Position))
    (symbol exchange symbol_token : string) :
  let result :=
    execute_market_order st broker symbol exchange symbol_token 0 "SELL" in
  (∀ payload, result = Some payload →
     authenticated st = true
     ∧ 0 < req_quantity payload
     ∧ payload = market_payload symbol exchange symbol_token
                                (req_quantity payload) "SELL"
     ∧ ∃ data pos, broker = Some data ∧ pos ∈ data
                   ∧ symboltoken pos = symbol_token
                   ∧ netqty pos = req_quantity payload)
  ∧ ((∀ data pos, broker = Some data → pos ∈ data →
                  symboltoken pos = symbol_token → netqty pos ≤ 0) →
     result = None).
Proof.
  intros result. subst result. unfold execute_market_order, get_positions.
  change (String.eqb "SELL" "SELL" && (0 =? 0)) with true. cbv iota.
  destruct (authenticated st); [|split; [done|done]].
  destruct broker as [data|]; [|split; [done|done]].
  unfold sell_quantity.
  destruct (List.find _ data) as [pos|] eqn:Hfind.
  - apply sell_quantity_found in Hfind as (Hin & Htok & Hlong).
    destruct (netqty pos =? 0) eqn:E; [apply Z.eqb_eq in E; lia|].
    split.
    + intros payload [= <-]. cbn. repeat split; try done.
      by exists data, pos.
    + intros Hnone. specialize (Hnone data pos eq_refl Hin Htok). lia.
  - cbn. split; [done|done].
Qed.

(** ** Exit triggers without a long position *)

(** X7. An exit trigger whose stop condition holds fires and is removed
    from the registry even when the broker reports no long position on its
    instrument (for example a position that was oversold and kept its
    average): no order is posted for it. *)
Theorem exit_fire_without_position_posts_nothing
    (st : TradingBotState) (data : list Position)
    (current_time : Z) (id : string) (trigger : Trigger)
    (sell_type : SellOrderType)
    (Hbot : bot_active st = true)
    (Hreg : active_orders st !! id = Some trigger)
    (Htype : type trigger = sell_trigger sell_type)
    (Hstatus : status trigger = "active")
    (Hfresh : timed_out current_time trigger = false)
    (Hprice : ¬ (last_price st (symbol_token trigger) == 0)%Q)
    (Hcond : check_sell_trigger st (Some data) trigger
               (last_price st (symbol_token trigger)) = true)
    (Hnolong : ∀ pos, pos ∈ data → symboltoken pos = symbol_token trigger →
                      netqty pos ≤ 0) :
  fired (trigger_monitor st (Some data) current_time).2 id
  = [ {| fire_id := id; fire_trigger := trigger; fire_order := None |} ]
  ∧ active_orders (trigger_monitor st (Some data) current_time).1 !! id = None.
Proof.
  assert (Hexec : execute_trigger st (Some data) trigger = None).
  { unfold execute_trigger. rewrite Htype.
    apply (no_long_position_no_sell st data). exact Hnolong. }
  pose proof (fired_tick_live st (Some data) current_time id trigger
                Hbot Hreg Hstatus Hfresh Hprice) as Hf.
  rewrite Htype, Hcond in Hf. unfold fire_of in Hf. rewrite Hexec in Hf.
  split; [exact Hf|].
  assert (Hin : {| fire_id := id; fire_trigger := trigger; fire_order := None |}
                ∈ (trigger_monitor st (Some data) current_time).2).
  { apply (elem_of_fired _ id). rewrite Hf. apply list_elem_of_here. }
  apply tick_fire in Hin as (_ & Hgone & _). cbn in Hgone.
  unfold retires in Hgone. by rewrite Htype in Hgone.
Qed.


Lemma exit_fire_without_position_posts_nothing_witness :
  let st := bot_with (exit_percentage 2) (979 # 10) in
  let data := [position_of "SBIN-EQ" "3045" (-5) 100] in
  fired (trigger_monitor st (Some data) 1000000).2 "t1"
  = [ {| fire_id := "t1"; fire_trigger := exit_percentage 2; fire_order := None |} ]
  ∧ active_orders (trigger_monitor st (Some data) 1000000).1 !! "t1" = None.
Proof.
  intros st data.
  refine (exit_fire_without_position_posts_nothing st data 1000000 "t1"
            (exit_percentage 2) PERCENTAGE_STOP
            eq_refl eq_refl eq_refl eq_refl eq_refl _ eq_refl _).
  - vm_compute. discriminate.
  - intros pos Hin _. apply list_elem_of_singleton in Hin. subst pos.
    vm_compute. discriminate.
Defined.

(** ** Multi-mode entry triggers *)

(** X8. A multi-mode entry trigger whose condition holds fires in the
    pass, posting one BUY market order for its quantity, and stays
    registered; while the price stays where it is and the trigger has not
    timed out, the next pass fires it again and posts the same order once
    more: one order per pass. *)
Theorem multi_trigger_fires_every_pass
    (st : TradingBotState) (broker : option (list Position))
    (t1 t2 : Z) (id : string) (trigger : Trigger) (b : BuyParams)
    (Hbot : bot_active st = true)
    (Hauth : authenticated st = true)
    (Hreg : active_orders st !! id = Some trigger)
    (Htype : type trigger = buy_trigger b)
    (Hmode : trade_mode b = MULTI)
    (Hstatus : status trigger = "active")
    (Hfresh1 : timed_out t1 trigger = false)
    (Hfresh2 : timed_out t2 trigger = false)
    (Hprice : ¬ (last_price st (symbol_token trigger) == 0)%Q)
    (Hcond : check_buy_trigger trigger (last_price st (symbol_token trigger))
             = true) :
  let st1 := (trigger_monitor st broker t1).1 in
  let buy :=
    {| fire_id := id; fire_trigger := trigger;
       fire_order :=
         Some {| req_variety := "NORMAL";
                 req_tradingsymbol := symbol trigger;
                 req_symboltoken := symbol_token trigger;
                 req_transactiontype := "BUY";
                 req_exchange := exchange trigger;
                 req_ordertype := "MARKET";
                 req_producttype := "INTRADAY";
                 req_duration := "DAY";
                 req_price := 0;
                 req_quantity := quantity b;
                 req_triggerprice := "0" |} |} in
  fired (trigger_monitor st broker t1).2 id = [buy]
  ∧ active_orders st1 !! id = Some trigger
  ∧ fired (trigger_monitor st1 broker t2).2 id = [buy].
Proof.
  intros st1 buy.
  pose proof (fired_tick_live st broker t1 id trigger
                Hbot Hreg Hstatus Hfresh1 Hprice) as Hf1.
  rewrite Htype, Hcond in Hf1.
  assert (Hin : fire_of st broker id trigger ∈ (trigger_monitor st broker t1).2).
  { apply (elem_of_fired _ id). rewrite Hf1. apply list_elem_of_here. }
  apply tick_fire in Hin as (_ & Hkept & _). cbn in Hkept.
  unfold retires in Hkept. rewrite Htype, Hmode in Hkept.
  destruct (trigger_monitor_frame st broker t1) as (Hauth1 & _ & Hpd & Hact).
  fold st1 in Hauth1, Hpd, Hact, Hkept.
  assert (Hlp : last_price st1 (symbol_token trigger)
                = last_price st (symbol_token trigger))
    by (unfold last_price; by rewrite Hpd).
  assert (Hbuy : ∀ s, authenticated s = true → fire_of s broker id trigger = buy).
  { intros s Hs. unfold fire_of.
    by rewrite (execute_trigger_buy_payload s broker trigger b Hs Htype). }
  split; [by rewrite Hf1, Hbuy|]. split; [exact Hkept|].
  rewrite (fired_tick_live st1 broker t2 id trigger); try done.
  - rewrite Htype, Hlp, Hcond. rewrite Hbuy; [done|]. by rewrite Hauth1.
  - by rewrite Hact.
  - by rewrite Hlp.
Qed.

Lemma multi_trigger_fires_every_pass_witness :
  let st := bot_with (entry_points 100 5 MULTI) 105 in
  let st1 := (trigger_monitor st None 1000000).1 in
  (fun f => (fun payload => (req_transactiontype payload, req_quantity payload))
              <$> fire_order f)
    <$> fired (trigger_monitor st None 1000000).2 "t1"
  = [Some ("BUY", 10)]
  ∧ active_orders st1 !! "t1" = Some (entry_points 100 5 MULTI)
  ∧ fired (trigger_monitor st1 None 2000000).2 "t1"
    = fired (trigger_monitor st None 1000000).2 "t1".
Proof.
  intros st st1.
  destruct (multi_trigger_fires_every_pass st None 1000000 2000000 "t1"
              (entry_points 100 5 MULTI) _ eq_refl eq_refl eq_refl eq_refl
              eq_refl eq_refl eq_refl eq_refl ltac:(vm_compute; discriminate)
              ltac:(by vm_compute))
    as (H1 & H2 & H3).
  fold st1 in H2, H3. rewrite H1, H3. by split.
Defined.

(** ** Creating and cancelling triggers *)

(** X9. Creating an entry trigger touches nothing but the registry entry
    of the identifier drawn: authentication, instruments, prices, the
    enabled flag and all other triggers are as before, also when the bot is
    disabled. For an unknown symbol, and for an immediate order
    ([LIVE_PRICE]), the state is unchanged altogether. *)
Theorem place_buy_order_frame
    (st : TradingBotState) (broker : option (list Position))
    (order_request : BuyOrderRequest) (uuid : string) (now : Z) :
  let st' := (place_buy_order st broker order_request uuid now).1 in
  authenticated st' = authenticated st
  ∧ scrip_master st' = scrip_master st
  ∧ price_data st' = price_data st
  ∧ bot_active st' = bot_active st
  ∧ (∀ id, id ≠ uuid → active_orders st' !! id = active_orders st !! id)
  ∧ (get_symbol_token st (buy_symbol order_request) (buy_exchange order_request)
     = None →
     place_buy_order st broker order_request uuid now = (st, Raised))
  ∧ (buy_order_type order_request = LIVE_PRICE → st' = st).
Proof.
  unfold place_buy_order.
  destruct (get_symbol_token _ _ _) as [token|]; [|by repeat split].
  destruct (buy_order_type order_request); cbn;
    repeat split; try done; intros id Hne; by rewrite lookup_insert_ne.
Qed.

Lemma with_active_orders_id st : with_active_orders st (active_orders st) = st.
Proof. by destruct st. Qed.

(** X10. Creating a trigger under a fresh identifier and cancelling it
    gives back the state before the creation; a second cancellation of the
    same identifier is answered by the 404, and so is the cancellation of
    an identifier that is not registered. *)
Theorem place_then_cancel
    (st st1 : TradingBotState) (broker : option (list Position))
    (order_request : BuyOrderRequest) (uuid : string) (now : Z)
    (Hfresh : active_orders st !! uuid = None)
    (Hplace : place_buy_order st broker order_request uuid now
              = (st1, TriggerSet uuid)) :
  is_Some (active_orders st1 !! uuid)
  ∧ cancel_trigger st1 uuid = Some st
  ∧ cancel_trigger st uuid = None.
Proof.
  unfold place_buy_order in Hplace.
  destruct (get_symbol_token _ _ _) as [token|]; [|done].
  assert (Hcancel : ∀ t,
    cancel_trigger (with_active_orders st (<[uuid := t]> (active_orders st))) uuid
    = Some st).
  { intros t. unfold cancel_trigger. cbn. rewrite lookup_insert_eq.
    rewrite delete_insert_id by done. f_equal. by destruct st. }
  assert (Hnone : cancel_trigger st uuid = None)
    by (unfold cancel_trigger; by rewrite Hfresh).
  destruct (buy_order_type order_request);
    [by destruct (execute_market_order _ _ _ _ _ _ _)|..];
    injection Hplace as <-; cbn; rewrite lookup_insert_eq;
    (split; [by eexists|]); (split; [apply Hcancel|exact Hnone]).
Qed.

Lemma place_then_cancel_witness :
  let placed :=
    place_buy_order bot_without_prices None
      (buy_request POINTS_TRIGGER SINGLE (Some 5%Q) None) "u1" 7 in
  placed.2 = TriggerSet "u1"
  ∧ cancel_trigger placed.1 "u1" = Some bot_without_prices
  ∧ cancel_trigger bot_without_prices "u1" = None.
Proof.
  intros placed.
  destruct (place_then_cancel bot_without_prices placed.1 None
              (buy_request POINTS_TRIGGER SINGLE (Some 5%Q) None) "u1" 7
              eq_refl eq_refl) as (_ & H1 & H2).
  split; [reflexivity|]. split; [exact H1|exact H2].
Defined.

(** ** Disabled bot *)

Lemma bot_step_disabled st e :
  bot_active st = false →
  e ≠ StartBot →
  bot_active (bot_step st e).1 = false ∧ (bot_step st e).2 = [].
Proof.
  intros Hoff Hne.
  destruct e as [ct broker|ct broker|req broker uuid now|req broker uuid now
                |tid| | |instruments|token ltp]; cbn [bot_step fst snd];
    try (split; [|done]).
  - unfold trigger_monitor. by rewrite Hoff.
  - unfold auto_exit_monitor. by rewrite Hoff, andb_false_r.
  - unfold place_buy_order. destruct (get_symbol_token _ _ _); [|done].
    by destruct (buy_order_type req).
  - unfold place_sell_order. destruct (get_symbol_token _ _ _); [|done].
    by destruct (sell_sell_type req).
  - unfold cancel_trigger. by destruct (active_orders st !! tid).
  - done.
  - done.
  - done.
  - done.
Qed.

(** X11. Only [start_bot] enables the bot again: from a disabled bot, a
    run without [start_bot] fires nothing and posts no triggered order,
    whatever triggers are created meanwhile and whatever the prices do,
    and the bot is still disabled at its end. *)
Theorem disabled_bot_is_silent
    (st : TradingBotState) (es : list Event)
    (Hoff : bot_active st = false)
    (Hnostart : StartBot ∉ es) :
  (bot_run st es).2 = [] ∧ bot_active (bot_run st es).1 = false.
Proof.
  revert st Hoff. induction es as [|e es IH]; intros st Hoff; [done|].
  apply not_elem_of_cons in Hnostart as [Hne Hrest].
  rewrite bot_run_cons. cbn [fst snd].
  destruct (bot_step_disabled st e Hoff) as [Hoff' Hnil]; [congruence|].
  destruct (IH Hrest _ Hoff') as [Hlog Hend].
  by rewrite Hnil, Hlog.
Qed.

Lemma disabled_bot_is_silent_witness :
  let st := stop_bot (bot_with (entry_points 100 5 SINGLE) 105) in
  let es := [ PlaceBuy (buy_request POINTS_TRIGGER MULTI (Some 1%Q) None) None "u2" 0;
              PriceUpdate "3045" 200;
              Tick 1000000 None; Tick 2000000 None ] in
  (bot_run st es).2 = [] ∧ bot_active (bot_run st es).1 = false
  ∧ is_Some (active_orders (bot_run st es).1 !! "u2").
Proof.
  intros st es.
  assert (Hno : StartBot ∉ es).
  { subst es. rewrite !not_elem_of_cons. repeat split; try discriminate.
    apply not_elem_of_nil. }
  destruct (disabled_bot_is_silent st es eq_refl Hno) as [H1 H2].
  split; [exact H1|]. split; [exact H2|]. vm_compute. by eexists.
Defined.

(** X12. [stop_bot] cancels every trigger for good: in a run that
    follows it, every firing belongs to a trigger created after the stop
    (its identifier is one drawn during that run). The auto-exit ends in
    the same state, so the same holds after it has fired. *)
Theorem no_fire_of_triggers_before_stop
    (st : TradingBotState) (es : list Event) (f : Fire)
    (Hfire : f ∈ (bot_run (stop_bot st) es).2) :
  fire_id f ∈ uuids es.
Proof.
  destruct (decide (fire_id f ∈ uuids es)) as [Hin|Hnotin]; [done|].
  pose proof (bot_run_fire es (stop_bot st) f Hfire Hnotin) as Hreg.
  cbn in Hreg. by rewrite lookup_empty in Hreg.
Qed.

Lemma no_fire_of_triggers_before_stop_witness :
  let st := bot_with (entry_points 100 5 SINGLE) 105 in
  let es := [ StartBot;
              PlaceBuy (buy_request POINTS_TRIGGER SINGLE (Some 1%Q) None) None "u2" 0;
              PriceUpdate "3045" 200;
              Tick 1000000 None ] in
  fire_id <$> (bot_run (stop_bot st) es).2 = ["u2"] ∧ "u2" ∈ uuids es.
Proof.
  intros st es.
  assert (Hlog : fire_id <$> (bot_run (stop_bot st) es).2 = ["u2"])
    by (vm_compute; reflexivity).
  split; [exact Hlog|].
  destruct ((bot_run (stop_bot st) es).2) as [|f l] eqn:E; [discriminate Hlog|].
  injection Hlog as Hid _. rewrite <- Hid.
  apply (no_fire_of_triggers_before_stop st es f). rewrite E.
  apply list_elem_of_here.
Defined.

(** ** Login comes first *)

Lemma bot_step_login_first st e :
  (authenticated st = false → scrip_master st = ∅ ∧ active_orders st = ∅) →
  authenticated (bot_step st e).1 = false →
  scrip_master (bot_step st e).1 = ∅ ∧ active_orders (bot_step st e).1 = ∅.
Proof.
  intros Hinv.
  destruct e as [ct broker|ct broker|req broker uuid now|req broker uuid now
                |tid| | |instruments|token ltp]; cbn [bot_step fst].
  - destruct (trigger_monitor_frame st broker ct) as (Ha & Hs & _ & _).
    rewrite Ha, Hs. intros Hoff. destruct (Hinv Hoff) as [Hsm Hao].
    split; [done|]. apply map_eq. intros id. rewrite lookup_tick, Hao.
    by rewrite lookup_empty.
  - unfold auto_exit_monitor. destruct (_ && _); [|done].
    destruct (get_positions st broker); [|done]. cbn. intros Hoff.
    by destruct (Hinv Hoff).
  - unfold place_buy_order, get_symbol_token.
    destruct (scrip_master st !! _) as [token|] eqn:E; [|done].
    destruct (buy_order_type req); cbn; intros Hoff;
      destruct (Hinv Hoff) as [Hsm _]; by rewrite Hsm, lookup_empty in E.
  - unfold place_sell_order, get_symbol_token.
    destruct (scrip_master st !! _) as [token|] eqn:E; [|done].
    destruct (sell_sell_type req); cbn; intros Hoff;
      destruct (Hinv Hoff) as [Hsm _]; by rewrite Hsm, lookup_empty in E.
  - unfold cancel_trigger. destruct (active_orders st !! tid) eqn:E; [|done].
    cbn. intros Hoff. destruct (Hinv Hoff) as [_ Hao].
    by rewrite Hao, lookup_empty in E.
  - cbn. intros Hoff. by destruct (Hinv Hoff).
  - cbn. intros Hoff. by destruct (Hinv Hoff).
  - done.
  - cbn. intros Hoff. by destruct (Hinv Hoff).
Qed.

(** X13. No trigger exists before the first login: in every state
    reached from the initial one, a bot that is not authenticated has no
    instrument and no trigger, every request for an order or a trigger
    raises, and no pass fires. *)
Theorem nothing_before_login (es : list Event) :
  let st := (bot_run bot_state_init es).1 in
  authenticated st = false →
  scrip_master st = ∅
  ∧ active_orders st = ∅
  ∧ (∀ broker order_request uuid now,
       place_buy_order st broker order_request uuid now = (st, Raised))
  ∧ (∀ broker sell_request uuid now,
       place_sell_order st broker sell_request uuid now = (st, Raised))
  ∧ (∀ broker current_time, (trigger_monitor st broker current_time).2 = []).
Proof.
  assert (Hgen : ∀ es st,
            (authenticated st = false → scrip_master st = ∅ ∧ active_orders st = ∅) →
            authenticated (bot_run st es).1 = false →
            scrip_master (bot_run st es).1 = ∅
            ∧ active_orders (bot_run st es).1 = ∅).
  { clear es. induction es as [|e es IH]; intros st Hinv; [exact Hinv|].
    rewrite bot_run_cons. cbn [fst]. apply IH. by apply bot_step_login_first. }
  intros st Hoff. destruct (Hgen es bot_state_init (fun _ => conj eq_refl eq_refl) Hoff)
    as [Hsm Hao].
  fold st in Hsm, Hao. split; [done|]. split; [done|].
  split; [|split].
  - intros. unfold place_buy_order, get_symbol_token. by rewrite Hsm, lookup_empty.
  - intros. unfold place_sell_order, get_symbol_token. by rewrite Hsm, lookup_empty.
  - intros. unfold trigger_monitor. destruct (bot_active st); [|done]. cbn.
    by rewrite Hao, map_to_list_empty.
Qed.


Lemma nothing_before_login_witness :
  let es := [ PriceUpdate "3045" 100; StopBot; StartBot;
              PlaceBuy (buy_request POINTS_TRIGGER SINGLE (Some 5%Q) None) None "u1" 0;
              Tick 1000000 None ] in
  authenticated (bot_run bot_state_init es).1 = false
  ∧ active_orders (bot_run bot_state_init es).1 = ∅.
Proof.
  intros es.
  assert (Hoff : authenticated (bot_run bot_state_init es).1 = false)
    by reflexivity.
  destruct (nothing_before_login es Hoff) as (_ & Hao & _).
  split; [exact Hoff|exact Hao].
Defined.

End BotExtra.

(** * Further properties of the simulated exchange *)

Module MockApiExtra.

Import MockApi MockApiSpec.

(** ** Shape of the operations *)

Lemma exchange_run_invariant (I : Exchange → Prop) :
  (∀ x e x', I x → exchange_step x e = Some x' → I x') →
  ∀ es x x', I x → exchange_run x es = Some x' → I x'.
Proof.
  intros Hstep. induction es as [|e es IH]; intros x x' Hx; cbn.
  - by intros [= <-].
  - destruct (exchange_step x e) as [x1|] eqn:E; [|done].
    apply IH. by eapply Hstep.
Qed.

Lemma place_order_cases request authorized now s :
  (authorized = false
   ∧ place_order request authorized now s = (s, Unauthorized, None))
  ∨ (authorized = true
     ∧ get_symbol_info s (req_symboltoken request) = None
     ∧ place_order request authorized now s
       = ((generate_order_id s).2, Failure "AG8003", None))
  ∨ (authorized = true
     ∧ is_Some (get_symbol_info s (req_symboltoken request))
     ∧ ∃ o, place_order request authorized now s
            = (with_orders (generate_order_id s).2
                 (<[str (order_counter s + 1) := o]> (orders s)),
               Success (str (order_counter s + 1)),
               Some (str (order_counter s + 1)))
            ∧ ord_status o = "pending"
            ∧ ord_orderid o = str (order_counter s + 1)
            ∧ ord_quantity o = req_quantity request
            ∧ ord_price o = req_price request
            ∧ ord_ordertype o = req_ordertype request
            ∧ ord_transactiontype o = req_transactiontype request
            ∧ ord_symboltoken o = req_symboltoken request
            ∧ ord_exchange o = req_exchange request).
Proof.
  unfold place_order. destruct authorized; [|by left]. right.
  cbn -[get_symbol_info].
  change (get_symbol_info _ (req_symboltoken request))
    with (get_symbol_info s (req_symboltoken request)).
  destruct (get_symbol_info s (req_symboltoken request)) as [stock|].
  - right. split; [done|]. split; [by eexists|].
    eexists. split; [reflexivity|]. by repeat split.
  - left. by repeat split.
Qed.

Lemma modify_order_cases request authorized now s :
  (modify_order request authorized now s).1 = s
  ∨ ∃ o, authorized = true
         ∧ orders s !! mod_orderid request = Some o
         ∧ ord_status o = "pending"
         ∧ ∃ o', modify_order request authorized now s
                 = (with_orders s (<[mod_orderid request := o']> (orders s)),
                    Success (mod_orderid request))
                 ∧ ord_status o' = "pending"
                 ∧ ord_orderid o' = ord_orderid o
                 ∧ ord_quantity o' = mod_quantity request
                 ∧ ord_price o' = mod_price request
                 ∧ ord_ordertype o' = ord_ordertype o
                 ∧ ord_transactiontype o' = ord_transactiontype o
                 ∧ ord_symboltoken o' = ord_symboltoken o
                 ∧ ord_exchange o' = ord_exchange o
                 ∧ ord_tradingsymbol o' = ord_tradingsymbol o
                 ∧ ord_ordertime o' = ord_ordertime o.
Proof.
  unfold modify_order. destruct authorized; [|by left]. cbn.
  destruct (orders s !! mod_orderid request) as [o|] eqn:E; [|by left].
  destruct (String.eqb (ord_status o) "pending") eqn:Hp; [|by left].
  apply String.eqb_eq in Hp. right. exists o. repeat (split; [done|]).
  eexists. split; [reflexivity|]. by repeat split.
Qed.

Lemma cancel_order_cases request authorized now s :
  (cancel_order request authorized now s).1 = s
  ∨ ∃ o, authorized = true
         ∧ orders s !! can_orderid request = Some o
         ∧ ord_status o = "pending"
         ∧ cancel_order request authorized now s
           = (with_orders s
                (<[can_orderid request
                   := resolve_order o "cancelled" "cancelled" (ord_price o) now]>
                   (orders s)),
              Success (can_orderid request)).
Proof.
  unfold cancel_order. destruct authorized; [|by left]. cbn.
  destruct (orders s !! can_orderid request) as [o|] eqn:E; [|by left].
  destruct (String.eqb (ord_status o) "pending") eqn:Hp; [|by left].
  apply String.eqb_eq in Hp. right. by exists o.
Qed.

(** The three outcomes of the thread body. *)
Lemma process_order_cases order_id rnd now s :
  (orders s !! order_id = None ∧ process_order order_id rnd now s = s)
  ∨ (∃ o, orders s !! order_id = Some o
          ∧ (success_rate o <= rnd)%Q
          ∧ process_order order_id rnd now s
            = with_orders s
                (<[order_id := resolve_order o "rejected" "rejected"
                                             (ord_price o) now]> (orders s)))
  ∨ (∃ o, orders s !! order_id = Some o
          ∧ (rnd < success_rate o)%Q
          ∧ process_order order_id rnd now s
            = {| orders := <[order_id := resolve_order o "complete" "executed"
                                           (execution_price s o) now]> (orders s);
                 trades :=
                   <[str (trade_counter s + 1)
                     := {| trd_tradeid := str (trade_counter s + 1);
                           trd_orderid := order_id;
                           trd_tradingsymbol := ord_tradingsymbol o;
                           trd_exchange := ord_exchange o;
                           trd_transactiontype := ord_transactiontype o;
                           trd_quantity := ord_quantity o;
                           trd_price := execution_price s o;
                           trd_timestamp := now;
                           trd_symboltoken := ord_symboltoken o |}]> (trades s);
                 positions :=
                   <[position_key o
                     := update_position
                          (default (new_position o (get_ltp s (ord_symboltoken o)))
                                   (positions s !! position_key o))
                          (ord_transactiontype o) (ord_quantity o)
                          (execution_price s o)
                          (get_ltp s (ord_symboltoken o))]> (positions s);
                 price_data := price_data s;
                 scrip_master := scrip_master s;
                 order_counter := order_counter s;
                 trade_counter := trade_counter s + 1 |}).
Proof.
  unfold process_order.
  destruct (orders s !! order_id) as [o|] eqn:E; [|by left]. right.
  destruct (Qlt_bool rnd (success_rate o)) eqn:Hq.
  - right. exists o. split; [done|]. split; [by apply Qlt_bool_iff|]. reflexivity.
  - left. exists o. split; [done|]. split; [by apply Qlt_bool_false|]. reflexivity.
Qed.


(** ** Invariants of the book, the trades and the ledger *)

Lemma two_decimals_round x : two_decimals (round x 2).
Proof. eexists. unfold round. reflexivity. Qed.

Lemma two_decimals_zero : two_decimals 0.
Proof. exists 0. reflexivity. Qed.

Lemma update_position_marked p side qty price cp :
  two_decimals (avgprice p) →
  marked (update_position p side qty price cp).
Proof.
  intros Havg. unfold marked, update_position, mark_position.
  cbn [netqty pnl ltp avgprice].
  split; [|split; [|split]].
  - intros H0. by rewrite (proj2 (Z.eqb_eq _ _) H0).
  - intros Hne. by rewrite (proj2 (Z.eqb_neq _ _) Hne).
  - unfold apply_fill. destruct (String.eqb side "BUY"); cbn [avgprice].
    + apply two_decimals_round.
    + destruct (_ =? 0); [apply two_decimals_zero|done].
  - destruct (_ =? 0); [apply two_decimals_zero|apply two_decimals_round].
Qed.

Lemma update_position_key p side qty price cp :
  symboltoken (update_position p side qty price cp) = symboltoken p
  ∧ exchange (update_position p side qty price cp) = exchange p
  ∧ tradingsymbol (update_position p side qty price cp) = tradingsymbol p.
Proof.
  unfold update_position, mark_position, apply_fill.
  by destruct (String.eqb side "BUY").
Qed.

Lemma elem_of_remove_thread_ne i j ts :
  j ∈ ts → j ≠ i → j ∈ remove_thread i ts.
Proof.
  induction ts as [|t ts IH]; cbn; [done|].
  intros [->|Hin]%elem_of_cons Hne.
  - rewrite (proj2 (String.eqb_neq _ _) Hne). apply list_elem_of_here.
  - destruct (String.eqb t i); [done|]. apply list_elem_of_further. by apply IH.
Qed.

Lemma book_inv_init : book_inv exchange_init.
Proof.
  unfold book_inv. cbn.
  split; [intros k t; by rewrite lookup_empty|].
  split; [intros id o; by rewrite lookup_empty|].
  split; [intros id H; by apply not_elem_of_nil in H|].
  split; [intros id o; by rewrite lookup_empty|].
  intros key p. by rewrite lookup_empty.
Qed.

Lemma book_inv_step x e x' :
  book_inv x → exchange_step x e = Some x' → book_inv x'.
Proof.
  intros (Htr & Hpend & Hth & Hoid & Hpos) Hstep.
  destruct e as [request authorized now|request authorized now
                |request authorized now|order_id rnd now|token new_ltp];
    cbn in Hstep.
  - (* place_order *)
    destruct (place_order_cases request authorized now (store x))
      as [[_ Hp]|[(_ & _ & Hp)|(_ & _ & o & Hp & Hst & Hid & _)]];
      rewrite Hp in Hstep; injection Hstep as <-;
      [exact (conj Htr (conj Hpend (conj Hth (conj Hoid Hpos))))
      |exact (conj Htr (conj Hpend (conj Hth (conj Hoid Hpos))))|].
    split; [exact Htr|]. cbn. split; [|split; [|split; [|exact Hpos]]].
    + intros id o'. destruct (decide (str (order_counter (store x) + 1) = id))
        as [<-|Hne].
      * intros _ _. apply elem_of_app. right. apply list_elem_of_here.
      * rewrite lookup_insert_ne by done. intros Ho Hs.
        apply elem_of_app. left. by eapply Hpend.
    + intros id [Hin| ->%list_elem_of_singleton]%elem_of_app.
      * destruct (decide (str (order_counter (store x) + 1) = id)) as [<-|Hne].
        -- rewrite lookup_insert_eq. by eexists.
        -- rewrite lookup_insert_ne by done. by apply Hth.
      * rewrite lookup_insert_eq. by eexists.
    + intros id o'. destruct (decide (str (order_counter (store x) + 1) = id))
        as [<-|Hne].
      * rewrite lookup_insert_eq. by intros [= <-].
      * rewrite lookup_insert_ne by done. apply Hoid.
  - (* modify_order *)
    injection Hstep as <-.
    destruct (modify_order_cases request authorized now (store x))
      as [Hsame|(o & _ & Ho & Hst & o' & Hm & Hst' & Hid' & _)].
    { unfold book_inv. cbn. rewrite Hsame.
      exact (conj Htr (conj Hpend (conj Hth (conj Hoid Hpos)))). }
    cbn. rewrite Hm. unfold book_inv. cbn.
    split; [exact Htr|]. split; [|split; [|split; [|exact Hpos]]].
    + intros id o2. destruct (decide (mod_orderid request = id)) as [<-|Hne].
      * intros _ _. by eapply Hpend.
      * rewrite lookup_insert_ne by done. apply Hpend.
    + intros id Hin. destruct (decide (mod_orderid request = id)) as [<-|Hne].
      * rewrite lookup_insert_eq. by eexists.
      * rewrite lookup_insert_ne by done. by apply Hth.
    + intros id o2. destruct (decide (mod_orderid request = id)) as [<-|Hne].
      * rewrite lookup_insert_eq. intros [= <-]. rewrite Hid'. by eapply Hoid.
      * rewrite lookup_insert_ne by done. apply Hoid.
  - (* cancel_order *)
    injection Hstep as <-.
    destruct (cancel_order_cases request authorized now (store x))
      as [Hsame|(o & _ & Ho & Hst & Hc)].
    { unfold book_inv. cbn. rewrite Hsame.
      exact (conj Htr (conj Hpend (conj Hth (conj Hoid Hpos)))). }
    cbn. rewrite Hc. unfold book_inv. cbn.
    split; [exact Htr|]. split; [|split; [|split; [|exact Hpos]]].
    + intros id o2. destruct (decide (can_orderid request = id)) as [<-|Hne].
      * rewrite lookup_insert_eq. intros [= <-]. discriminate.
      * rewrite lookup_insert_ne by done. apply Hpend.
    + intros id Hin. destruct (decide (can_orderid request = id)) as [<-|Hne].
      * rewrite lookup_insert_eq. by eexists.
      * rewrite lookup_insert_ne by done. by apply Hth.
    + intros id o2. destruct (decide (can_orderid request = id)) as [<-|Hne].
      * rewrite lookup_insert_eq. intros [= <-]. cbn. by eapply Hoid.
      * rewrite lookup_insert_ne by done. apply Hoid.
  - (* process_order *)
    case_bool_decide as Hin; [|done]. injection Hstep as <-. cbn.
    destruct (process_order_cases order_id rnd now (store x))
      as [[Hno _]|[(o & Ho & _ & Hp)|(o & Ho & _ & Hp)]].
    { destruct (Hth _ Hin) as [o Ho]. congruence. }
    + rewrite Hp. unfold book_inv. cbn.
      split; [exact Htr|]. split; [|split; [|split; [|exact Hpos]]].
      * intros id o2. destruct (decide (order_id = id)) as [<-|Hne].
        -- rewrite lookup_insert_eq. intros [= <-]. discriminate.
        -- rewrite lookup_insert_ne by done. intros Ho2 Hs.
           apply elem_of_remove_thread_ne; [by eapply Hpend|done].
      * intros id Hid%elem_of_remove_thread.
        destruct (decide (order_id = id)) as [<-|Hne].
        -- rewrite lookup_insert_eq. by eexists.
        -- rewrite lookup_insert_ne by done. by apply Hth.
      * intros id o2. destruct (decide (order_id = id)) as [<-|Hne].
        -- rewrite lookup_insert_eq. intros [= <-]. cbn. by eapply Hoid.
        -- rewrite lookup_insert_ne by done. apply Hoid.
    + rewrite Hp. unfold book_inv. cbn.
      split; [|split; [|split; [|split]]].
      * intros k t. destruct (decide (str (trade_counter (store x) + 1) = k))
          as [<-|Hne].
        -- intros _. eexists. split; [done|lia].
        -- rewrite lookup_insert_ne by done. intros Ht.
           destruct (Htr _ _ Ht) as (n & -> & Hle). exists n. split; [done|lia].
      * intros id o2. destruct (decide (order_id = id)) as [<-|Hne].
        -- rewrite lookup_insert_eq. intros [= <-]. discriminate.
        -- rewrite lookup_insert_ne by done. intros Ho2 Hs.
           apply elem_of_remove_thread_ne; [by eapply Hpend|done].
      * intros id Hid%elem_of_remove_thread.
        destruct (decide (order_id = id)) as [<-|Hne].
        -- rewrite lookup_insert_eq. by eexists.
        -- rewrite lookup_insert_ne by done. by apply Hth.
      * intros id o2. destruct (decide (order_id = id)) as [<-|Hne].
        -- rewrite lookup_insert_eq. intros [= <-]. cbn. by eapply Hoid.
        -- rewrite lookup_insert_ne by done. apply Hoid.
      * intros key p. destruct (decide (position_key o = key)) as [<-|Hne].
        -- rewrite lookup_insert_eq. intros [= <-].
           destruct (update_position_key
                       (default (new_position o (get_ltp (store x) (ord_symboltoken o)))
                                (positions (store x) !! position_key o))
                       (ord_transactiontype o) (ord_quantity o)
                       (execution_price (store x) o)
                       (get_ltp (store x) (ord_symboltoken o))) as (Hk1 & Hk2 & _).
           rewrite Hk1, Hk2.
           destruct (positions (store x) !! position_key o) as [p0|] eqn:Ep; cbn.
           ++ destruct (Hpos _ _ Ep) as [(_ & _ & Hd & _) Hkey].
              split; [by apply update_position_marked|done].
           ++ split; [apply update_position_marked, two_decimals_zero|done].
        -- rewrite lookup_insert_ne by done. apply Hpos.
  - (* update_price *)
    injection Hstep as <-. cbn. unfold update_price.
    destruct (price_data (store x) !! token);
      exact (conj Htr (conj Hpend (conj Hth (conj Hoid Hpos)))).
Qed.

Lemma book_inv_run es x :
  exchange_run exchange_init es = Some x → book_inv x.
Proof.
  apply (exchange_run_invariant book_inv); [|apply book_inv_init].
  intros x0 e x1 Hinv Hstep. by eapply book_inv_step.
Qed.


(** ** Placing orders *)

(** X14. In every reachable state of the exchange an accepted order gets
    an identifier that no order of the book has, namely the decimal form
    of the incremented counter; it is stored as pending with the requested
    quantity and price, its resolution thread is started, and the other
    orders, the trades and the ledger are untouched. *)
Theorem placed_order_is_new
    (es : list Event) (x : Exchange) (request : PlaceOrderRequest)
    (now : string) (s' : MockDataStore) (id : string) (started : option string)
    (Hrun : exchange_run exchange_init es = Some x)
    (Hplace : place_order request true now (store x) = (s', Success id, started)) :
  id = str (order_counter (store x) + 1)
  ∧ orders (store x) !! id = None
  ∧ started = Some id
  ∧ order_counter s' = order_counter (store x) + 1
  ∧ trades s' = trades (store x)
  ∧ positions s' = positions (store x)
  ∧ ∃ o, orders s' = <[id := o]> (orders (store x))
         ∧ ord_status o = "pending"
         ∧ ord_orderid o = id
         ∧ ord_quantity o = req_quantity request
         ∧ ord_price o = req_price request.
Proof.
  pose proof (exchange_run_inv es _ _ Hrun exchange_init_inv)
    as (_ & _ & Hid & _).
  destruct (place_order_cases request true now (store x))
    as [[? _]|[(_ & _ & Hp)|(_ & _ & o & Hp & Hst & Hoid & Hq & Hpr & _)]];
    [done|congruence|].
  rewrite Hp in Hplace. injection Hplace as <- <- <-.
  split; [done|]. split.
  { destruct (orders (store x) !! str (order_counter (store x) + 1))
      as [o0|] eqn:E; [|done].
    destruct (Hid _ _ E) as (n & Hn & Hle). apply str_inj in Hn. lia. }
  repeat (split; [done|]). exists o. by repeat split.
Qed.

Lemma placed_order_is_new_witness :
  let r := place_order (sbin_request "BUY" 10) true "t4"
                       (store (after round_trip)) in
  r.1.2 = Success "200910000000003"
  ∧ orders (store (after round_trip)) !! "200910000000003" = None
  ∧ r.2 = Some "200910000000003".
Proof.
  intros r.
  assert (Hrun : exchange_run exchange_init round_trip = Some (after round_trip))
    by (vm_compute; reflexivity).
  assert (Hplace : r = (r.1.1, Success "200910000000003", r.2)).
  { assert (r.1.2 = Success "200910000000003") as E by (vm_compute; reflexivity).
    rewrite <- E. by destruct r as [[? ?] ?]. }
  destruct (placed_order_is_new round_trip _ _ _ _ _ _ Hrun Hplace)
    as (_ & Hnew & Hst & _).
  split; [by rewrite Hplace|]. split; [exact Hnew|exact Hst].
Defined.

(** X15. A request to place an order that is not accepted stores no
    order, starts no thread and leaves trades and ledger alone. Without a
    valid token nothing changes at all; with an unknown symbol token the
    answer is the error AG8003 and an order identifier is used up all the
    same. *)
Theorem refused_order_stores_nothing
    (request : PlaceOrderRequest) (authorized : bool) (now : string)
    (s : MockDataStore)
    (Hrefused : ∀ id, (place_order request authorized now s).1.2 ≠ Success id) :
  let r := place_order request authorized now s in
  r.2 = None
  ∧ orders r.1.1 = orders s
  ∧ trades r.1.1 = trades s
  ∧ positions r.1.1 = positions s
  ∧ (authorized = false → r.1.1 = s ∧ r.1.2 = Unauthorized)
  ∧ (authorized = true →
     r.1.2 = Failure "AG8003"
     ∧ get_symbol_info s (req_symboltoken request) = None
     ∧ order_counter r.1.1 = order_counter s + 1).
Proof.
  intros r. subst r.
  destruct (place_order_cases request authorized now s)
    as [[Ha Hp]|[(Ha & Hnone & Hp)|(_ & _ & o & Hp & _)]];
    rewrite Hp in Hrefused |- *; cbn in *.
  - subst. by repeat split.
  - subst. by repeat split.
  - by destruct (Hrefused _ eq_refl).
Qed.

Lemma refused_order_stores_nothing_witness :
  let request :=
    {| req_variety := "NORMAL"; req_tradingsymbol := "NOPE-EQ";
       req_symboltoken := "0000"; req_transactiontype := "BUY";
       req_exchange := "NSE"; req_ordertype := "MARKET";
       req_producttype := "INTRADAY"; req_duration := "DAY";
       req_price := 0; req_quantity := 10; req_triggerprice := "0" |} in
  let r := place_order request true "t0" mock_store_init in
  r.1.2 = Failure "AG8003" ∧ orders r.1.1 = ∅
  ∧ order_counter r.1.1 = 200910000000001.
Proof.
  intros request r.
  assert (Href : ∀ id, (place_order request true "t0" mock_store_init).1.2
                       ≠ Success id) by (intros id; vm_compute; discriminate).
  destruct (refused_order_stores_nothing request true "t0" mock_store_init Href)
    as (_ & Ho & _ & _ & _ & Hauth).
  destruct (Hauth eq_refl) as (Hresp & _ & Hc).
  split; [exact Hresp|]. split; [exact Ho|exact Hc].
Defined.

(** ** Fills *)

(** X16. In every reachable state, resolving an order successfully
    records exactly one new trade: its identifier was not in use, it
    refers to the order and carries its side, quantity and execution
    price, and all earlier trades are kept as they were. *)
Theorem fill_records_one_trade
    (es : list Event) (x : Exchange) (order_id : string) (o : Order)
    (rnd : Q) (now : string)
    (Hrun : exchange_run exchange_init es = Some x)
    (Horder : orders (store x) !! order_id = Some o)
    (Hfill : (rnd < success_rate o)%Q) :
  let s' := process_order order_id rnd now (store x) in
  ∃ tid t,
    trades (store x) !! tid = None
    ∧ trades s' = <[tid := t]> (trades (store x))
    ∧ size (trades s') = S (size (trades (store x)))
    ∧ trd_tradeid t = tid
    ∧ trd_orderid t = order_id
    ∧ trd_transactiontype t = ord_transactiontype o
    ∧ trd_quantity t = ord_quantity o
    ∧ trd_price t = execution_price (store x) o.
Proof.
  intros s'. subst s'.
  destruct (book_inv_run es x Hrun) as (Htr & _).
  destruct (process_order_cases order_id rnd now (store x))
    as [[Hno _]|[(o' & Ho & Hrej & _)|(o' & Ho & _ & Hp)]].
  - congruence.
  - assert (o' = o) as -> by congruence. by apply Qle_not_lt in Hrej.
  - assert (o' = o) as -> by congruence. rewrite Hp. cbn.
    assert (Hnew : trades (store x) !! str (trade_counter (store x) + 1) = None).
    { destruct (trades (store x) !! str (trade_counter (store x) + 1))
        as [t0|] eqn:E; [|done].
      destruct (Htr _ _ E) as (n & Hn & Hle). apply str_inj in Hn. lia. }
    eexists _, _. split; [exact Hnew|]. split; [reflexivity|].
    split; [by apply map_size_insert_None|]. by repeat split.
Qed.

Lemma fill_records_one_trade_witness :
  size (trades (store (after (take 3 round_trip)))) = 1%nat
  ∧ size (trades (process_order "200910000000002" (1 # 2) "t3"
                    (store (after (take 3 round_trip))))) = 2%nat.
Proof.
  assert (Hrun : exchange_run exchange_init (take 3 round_trip)
                 = Some (after (take 3 round_trip)))
    by (vm_compute; reflexivity).
  destruct (orders (store (after (take 3 round_trip))) !! "200910000000002")
    as [o|] eqn:Ho; [|vm_compute in Ho; discriminate].
  assert (Hfill : (1 # 2 < success_rate o)%Q).
  { vm_compute in Ho. injection Ho as <-. reflexivity. }
  destruct (fill_records_one_trade (take 3 round_trip) _ "200910000000002"
              o (1 # 2) "t3" Hrun Ho Hfill)
    as (tid & t & _ & _ & Hsize & _).
  assert (H1 : size (trades (store (after (take 3 round_trip)))) = 1%nat)
    by (vm_compute; reflexivity).
  split; [exact H1|]. rewrite Hsize, H1. reflexivity.
Defined.


Lemma success_rate_same o o' :
  ord_ordertype o' = ord_ordertype o → success_rate o' = success_rate o.
Proof. unfold success_rate. by intros ->. Qed.

Lemma process_order_fills order_id rnd now s o :
  orders s !! order_id = Some o →
  (rnd < success_rate o)%Q →
  orders (process_order order_id rnd now s) !! order_id
  = Some (resolve_order o "complete" "executed" (execution_price s o) now)
  ∧ trades (process_order order_id rnd now s) !! str (trade_counter s + 1)
    = Some {| trd_tradeid := str (trade_counter s + 1);
              trd_orderid := order_id;
              trd_tradingsymbol := ord_tradingsymbol o;
              trd_exchange := ord_exchange o;
              trd_transactiontype := ord_transactiontype o;
              trd_quantity := ord_quantity o;
              trd_price := execution_price s o;
              trd_timestamp := now;
              trd_symboltoken := ord_symboltoken o |}
  ∧ positions (process_order order_id rnd now s) !! position_key o
    = Some (update_position
              (default (new_position o (get_ltp s (ord_symboltoken o)))
                       (positions s !! position_key o))
              (ord_transactiontype o) (ord_quantity o)
              (execution_price s o) (get_ltp s (ord_symboltoken o))).
Proof.
  intros Ho Hfill.
  destruct (process_order_cases order_id rnd now s)
    as [[Hno _]|[(o' & Ho' & Hrej & _)|(o' & Ho' & _ & Hp)]].
  - congruence.
  - assert (o' = o) as -> by congruence. by apply Qle_not_lt in Hrej.
  - assert (o' = o) as -> by congruence. rewrite Hp. cbn.
    by rewrite !lookup_insert_eq.
Qed.

Lemma modify_order_pending request now s o :
  orders s !! mod_orderid request = Some o →
  ord_status o = "pending" →
  ∃ o', modify_order request true now s
        = (with_orders s (<[mod_orderid request := o']> (orders s)),
           Success (mod_orderid request))
        ∧ ord_status o' = "pending"
        ∧ ord_orderid o' = ord_orderid o
        ∧ ord_quantity o' = mod_quantity request
        ∧ ord_price o' = mod_price request
        ∧ ord_ordertype o' = ord_ordertype o
        ∧ ord_transactiontype o' = ord_transactiontype o
        ∧ ord_symboltoken o' = ord_symboltoken o
        ∧ ord_exchange o' = ord_exchange o.
Proof.
  intros Ho Hp. unfold modify_order. cbn. rewrite Ho, Hp. cbn.
  eexists. split; [reflexivity|]. by repeat split.
Qed.

Lemma cancel_order_pending request now s o :
  orders s !! can_orderid request = Some o →
  ord_status o = "pending" →
  cancel_order request true now s
  = (with_orders s
       (<[can_orderid request
          := resolve_order o "cancelled" "cancelled" (ord_price o) now]>
          (orders s)),
     Success (can_orderid request)).
Proof.
  intros Ho Hp. unfold cancel_order. cbn. by rewrite Ho, Hp.
Qed.

(** X17. Until its resolution a pending order can be modified, and the
    fill uses the modified values: the order completes, and its trade is
    recorded, for the quantity of the last accepted modification; a market
    order fills at the market price, whatever price the modification
    gives, and any other order at the modified price, whatever the market
    price is. *)
Theorem fill_uses_last_modification
    (s : MockDataStore) (order_id : string) (o : Order)
    (request : ModifyOrderRequest) (rnd : Q) (t1 t2 : string)
    (Horder : orders s !! order_id = Some o)
    (Hpending : ord_status o = "pending")
    (Hid : mod_orderid request = order_id)
    (Hfill : (rnd < success_rate o)%Q) :
  let s1 := (modify_order request true t1 s).1 in
  let s2 := process_order order_id rnd t2 s1 in
  let price :=
    if String.eqb (ord_ordertype o) "MARKET"
    then get_ltp s (ord_symboltoken o) else mod_price request in
  ∃ o2 t,
    orders s2 !! order_id = Some o2
    ∧ ord_status o2 = "complete"
    ∧ ord_quantity o2 = mod_quantity request
    ∧ ord_price o2 = price
    ∧ trades s2 !! str (trade_counter s + 1) = Some t
    ∧ trd_orderid t = order_id
    ∧ trd_quantity t = mod_quantity request
    ∧ trd_price t = price.
Proof.
  intros s1 s2 price. subst s1 s2 price.
  destruct (modify_order_pending request t1 s o)
    as (o' & Hm & _ & _ & Hq & Hpr & Hot & _ & Htok & _);
    [by rewrite Hid|done|].
  rewrite Hid in Hm.
  rewrite Hm. cbn [fst].
  assert (Ho' : orders (with_orders s (<[order_id := o']> (orders s))) !! order_id
                = Some o') by (cbn; apply lookup_insert_eq).
  assert (Hfill' : (rnd < success_rate o')%Q)
    by (by rewrite (success_rate_same o o' Hot)).
  destruct (process_order_fills order_id rnd t2 _ o' Ho' Hfill') as (H1 & H2 & _).
  cbn [trade_counter with_orders] in H2.
  assert (Hprice : execution_price (with_orders s (<[order_id := o']> (orders s))) o'
                   = if String.eqb (ord_ordertype o) "MARKET"
                     then get_ltp s (ord_symboltoken o) else mod_price request).
  { unfold execution_price. rewrite Hot, Htok, Hpr. reflexivity. }
  rewrite Hprice in H1, H2.
  eexists _, _. split; [exact H1|]. cbn [ord_status ord_quantity ord_price resolve_order].
  split; [done|]. split; [done|]. split; [done|]. split; [exact H2|].
  cbn. by repeat split.
Qed.


Lemma fill_uses_last_modification_witness :
  let request := {| mod_orderid := "200910000000001"; mod_price := 500;
                    mod_quantity := 25; mod_triggerprice := "0" |} in
  let s2 := process_order "200910000000001" (1 # 2) "t2"
              (modify_order request true "t1" one_pending).1 in
  (ord_quantity <$> orders s2 !! "200910000000001") = Some 25
  ∧ (netqty <$> positions s2 !! "3045_NSE") = Some 25.
Proof.
  intros request s2.
  destruct (fill_uses_last_modification one_pending "200910000000001"
              (sbin_order "BUY" 10) request (1 # 2) "t1" "t2"
              eq_refl eq_refl eq_refl eq_refl)
    as (o2 & t & Ho2 & _ & Hq & _).
  fold s2 in Ho2. rewrite Ho2. cbn. rewrite Hq. split; reflexivity.
Defined.

(** X18. A market order fills at the market price of the moment of its
    resolution, not of its submission: when the price of the instrument is
    updated between the two, the order and its trade carry the updated
    price, rounded to two decimals. *)
Theorem market_order_fills_at_resolution_price
    (s : MockDataStore) (request : PlaceOrderRequest) (old new_ltp rnd : Q)
    (t0 t1 : string)
    (Hmarket : req_ordertype request = "MARKET")
    (Hknown : is_Some (get_symbol_info s (req_symboltoken request)))
    (Hprice : price_data s !! req_symboltoken request = Some old)
    (Hfill : (rnd < 95 # 100)%Q) :
  let id := str (order_counter s + 1) in
  let s1 := (place_order request true t0 s).1.1 in
  let s2 := update_price (req_symboltoken request) new_ltp s1 in
  let s3 := process_order id rnd t1 s2 in
  ∃ o t,
    orders s3 !! id = Some o
    ∧ ord_status o = "complete"
    ∧ ord_price o = round new_ltp 2
    ∧ trades s3 !! str (trade_counter s + 1) = Some t
    ∧ trd_orderid t = id
    ∧ trd_price t = round new_ltp 2.
Proof.
  intros id s1 s2 s3. subst s1 s2 s3.
  destruct (place_order_cases request true t0 s)
    as [[? _]|[(_ & Hnone & _)|(_ & _ & o & Hp & _ & _ & _ & _ & Hot & _ & Htok & _)]];
    [done|destruct Hknown; congruence|].
  rewrite Hp. cbn [fst]. fold id.
  set (s1 := with_orders (generate_order_id s).2 (<[id := o]> (orders s))).
  assert (Hs2 : update_price (req_symboltoken request) new_ltp s1
                = {| orders := <[id := o]> (orders s); trades := trades s;
                     positions := positions s;
                     price_data := <[req_symboltoken request := round new_ltp 2]>
                                     (price_data s);
                     scrip_master := scrip_master s;
                     order_counter := order_counter s + 1;
                     trade_counter := trade_counter s |}).
  { unfold update_price, s1. cbn. by rewrite Hprice. }
  rewrite Hs2.
  destruct (process_order_fills id rnd t1
              {| orders := <[id := o]> (orders s); trades := trades s;
                 positions := positions s;
                 price_data := <[req_symboltoken request := round new_ltp 2]>
                                 (price_data s);
                 scrip_master := scrip_master s;
                 order_counter := order_counter s + 1;
                 trade_counter := trade_counter s |} o) as (H1 & H2 & _).
  { cbn. apply lookup_insert_eq. }
  { unfold success_rate. by rewrite Hot, Hmarket. }
  cbn [orders trades trade_counter] in H1, H2.
  assert (Hexec : ∀ s', price_data s'
                        = <[req_symboltoken request := round new_ltp 2]> (price_data s) →
                        execution_price s' o = round new_ltp 2).
  { intros s' Hpd. unfold execution_price, get_ltp.
    rewrite Hot, Hmarket, Htok, Hpd. cbn. by rewrite lookup_insert_eq. }
  rewrite Hexec in H1, H2 by done.
  eexists _, _. split; [exact H1|]. split; [done|]. split; [done|].
  split; [exact H2|]. by split.
Qed.

Lemma market_order_fills_at_resolution_price_witness :
  let s3 := process_order "200910000000001" (1 # 2) "t1"
              (update_price "3045" (525004 # 1000)
                 (place_order (sbin_request "BUY" 10) true "t0" mock_store_init).1.1) in
  price_data mock_store_init !! "3045" = Some (52050 # 100)%Q
  ∧ ((fun o => Qeq_bool (ord_price o) 525) <$> orders s3 !! "200910000000001")
    = Some true.
Proof.
  intros s3.
  assert (Hold : price_data mock_store_init !! "3045" = Some (52050 # 100)%Q)
    by (vm_compute; reflexivity).
  destruct (market_order_fills_at_resolution_price mock_store_init
              (sbin_request "BUY" 10) _ (525004 # 1000) (1 # 2) "t0" "t1"
              eq_refl ltac:(vm_compute; by eexists) Hold eq_refl)
    as (o & t & Ho & _ & Hpr & _).
  split; [exact Hold|].
  assert (Ho' : orders s3 !! "200910000000001" = Some o) by exact Ho.
  rewrite Ho'. cbn. rewrite Hpr. reflexivity.
Defined.

(** ** Requests that are refused *)

(** X19. A modify or cancel request that is not answered by a success
    leaves the store exactly as it was. With a valid token, an unknown
    order is answered by AG8005, and an order that is no longer pending by
    AG8006 (modify) or AG8008 (cancel). *)
Theorem refused_change_leaves_store
    (s : MockDataStore) (authorized : bool) (now : string)
    (modify : ModifyOrderRequest) (cancel : CancelOrderRequest) :
  ((modify_order modify authorized now s).2 ≠ Success (mod_orderid modify) →
   (modify_order modify authorized now s).1 = s)
  ∧ ((cancel_order cancel authorized now s).2 ≠ Success (can_orderid cancel) →
     (cancel_order cancel authorized now s).1 = s)
  ∧ (authorized = false →
     (modify_order modify authorized now s).2 = Unauthorized
     ∧ (cancel_order cancel authorized now s).2 = Unauthorized)
  ∧ (authorized = true →
     (orders s !! mod_orderid modify = None →
      (modify_order modify authorized now s).2 = Failure "AG8005")
     ∧ (orders s !! can_orderid cancel = None →
        (cancel_order cancel authorized now s).2 = Failure "AG8005")
     ∧ (∀ o, orders s !! mod_orderid modify = Some o →
             ord_status o ≠ "pending" →
             (modify_order modify authorized now s).2 = Failure "AG8006")
     ∧ (∀ o, orders s !! can_orderid cancel = Some o →
             ord_status o ≠ "pending" →
             (cancel_order cancel authorized now s).2 = Failure "AG8008")).
Proof.
  unfold modify_order, cancel_order.
  destruct authorized; cbn; [|by repeat split].
  split; [|split; [|split; [done|intros _]]].
  - destruct (orders s !! mod_orderid modify) as [o|]; [|done].
    by destruct (String.eqb (ord_status o) "pending").
  - destruct (orders s !! can_orderid cancel) as [o|]; [|done].
    by destruct (String.eqb (ord_status o) "pending").
  - split; [by intros ->|]. split; [by intros ->|].
    split; intros o -> Hnp; by rewrite (proj2 (String.eqb_neq _ _) Hnp).
Qed.




(** ** What holds of every reachable state *)



(** A buy of 3 at 520.50 followed by a buy of 4 after the price moved to
    521.37. *)
Lemma two_buys_run :
  exchange_run exchange_init
    [ PlaceOrder (sbin_request "BUY" 3) true "t0";
      ProcessOrder "200910000000001" (1 # 2) "t1";
      UpdatePrice "3045" (521371 # 1000);
      PlaceOrder (sbin_request "BUY" 4) true "t2";
      ProcessOrder "200910000000002" (1 # 2) "t3" ]
  = Some (after [ PlaceOrder (sbin_request "BUY" 3) true "t0";
                  ProcessOrder "200910000000001" (1 # 2) "t1";
                  UpdatePrice "3045" (521371 # 1000);
                  PlaceOrder (sbin_request "BUY" 4) true "t2";
                  ProcessOrder "200910000000002" (1 # 2) "t3" ]).
Proof. vm_compute. reflexivity. Qed.



(** X23. In every reachable state each pending order has its resolution
    thread waiting, no order has two threads, and every waiting thread has
    its order in the book: an order cannot stay pending for want of a
    resolver. *)
Theorem pending_order_has_a_resolver
    (es : list Event) (x : Exchange)
    (Hrun : exchange_run exchange_init es = Some x) :
  NoDup (threads x)
  ∧ (∀ id o, orders (store x) !! id = Some o → ord_status o = "pending" →
             id ∈ threads x
             ∧ is_Some (exchange_step x (ProcessOrder id 0 "")))
  ∧ (∀ id, id ∈ threads x → is_Some (orders (store x) !! id)).
Proof.
  destruct (book_inv_run es x Hrun) as (_ & Hpend & Hth & _).
  pose proof (exchange_run_inv es _ _ Hrun exchange_init_inv) as (Hnd & _).
  split; [done|]. split; [|done].
  intros id o Ho Hst. pose proof (Hpend _ _ Ho Hst) as Hin. split; [done|].
  cbn. rewrite bool_decide_eq_true_2 by done. by eexists.
Qed.

Lemma pending_order_has_a_resolver_witness :
  threads (after (take 3 round_trip)) = ["200910000000002"]
  ∧ status_of (after (take 3 round_trip)) "200910000000002" = Some "pending"
  ∧ NoDup (threads (after (take 3 round_trip))).
Proof.
  assert (Hrun : exchange_run exchange_init (take 3 round_trip)
                 = Some (after (take 3 round_trip)))
    by (vm_compute; reflexivity).
  destruct (pending_order_has_a_resolver _ _ Hrun) as (Hnd & _).
  split; [vm_compute; reflexivity|]. split; [vm_compute; reflexivity|exact Hnd].
Defined.

(** X24. In every reachable state a step keeps every order of the book
    and never changes what identifies it: its identifier, symbol, token,
    exchange, side, order type and order time stay as submitted, whatever
    the step is. *)
Theorem order_identity_is_kept
    (es : list Event) (x x' : Exchange) (e : Event)
    (order_id : string) (o : Order)
    (Hrun : exchange_run exchange_init es = Some x)
    (Hstep : exchange_step x e = Some x')
    (Horder : orders (store x) !! order_id = Some o) :
  ∃ o', orders (store x') !! order_id = Some o'
        ∧ ord_orderid o' = order_id
        ∧ ord_tradingsymbol o' = ord_tradingsymbol o
        ∧ ord_symboltoken o' = ord_symboltoken o
        ∧ ord_exchange o' = ord_exchange o
        ∧ ord_transactiontype o' = ord_transactiontype o
        ∧ ord_ordertype o' = ord_ordertype o
        ∧ ord_ordertime o' = ord_ordertime o.
Proof.
  pose proof (exchange_run_inv es _ _ Hrun exchange_init_inv)
    as (_ & _ & Hid & _).
  destruct (book_inv_run es x Hrun) as (_ & _ & _ & Hoid & _).
  pose proof (Hoid _ _ Horder) as Hself.
  assert (Hkeep : ∃ o', Some o = Some o'
            ∧ ord_orderid o' = order_id
            ∧ ord_tradingsymbol o' = ord_tradingsymbol o
            ∧ ord_symboltoken o' = ord_symboltoken o
            ∧ ord_exchange o' = ord_exchange o
            ∧ ord_transactiontype o' = ord_transactiontype o
            ∧ ord_ordertype o' = ord_ordertype o
            ∧ ord_ordertime o' = ord_ordertime o)
    by (exists o; by repeat split).
  destruct e as [request authorized now|request authorized now
                |request authorized now|pid rnd now|token new_ltp];
    cbn in Hstep.
  - destruct (place_order_cases request authorized now (store x))
      as [[_ Hp]|[(_ & _ & Hp)|(_ & _ & o1 & Hp & _)]];
      rewrite Hp in Hstep; injection Hstep as <-; cbn;
      [by rewrite Horder|by rewrite Horder|].
    rewrite lookup_insert_ne; [by rewrite Horder|].
    intros Heq. destruct (Hid _ _ Horder) as (n & Hn & Hle).
    rewrite Hn in Heq. apply str_inj in Heq. lia.
  - injection Hstep as <-. cbn.
    destruct (modify_order_cases request authorized now (store x))
      as [Hsame|(o0 & _ & Ho0 & _ & o1 & Hm & _ & Hi & _ & _ & H1 & H2 & H3 & H4 & H5 & H6)].
    { rewrite Hsame. by rewrite Horder. }
    rewrite Hm. cbn.
    destruct (decide (mod_orderid request = order_id)) as [Heq|Hne].
    + rewrite Heq in *. rewrite lookup_insert_eq.
      assert (o0 = o) as -> by congruence.
      exists o1. split; [done|]. rewrite Hi. by repeat split.
    + rewrite lookup_insert_ne by done. by rewrite Horder.
  - injection Hstep as <-. cbn.
    destruct (cancel_order_cases request authorized now (store x))
      as [Hsame|(o0 & _ & Ho0 & _ & Hc)].
    { rewrite Hsame. by rewrite Horder. }
    rewrite Hc. cbn.
    destruct (decide (can_orderid request = order_id)) as [Heq|Hne].
    + rewrite Heq in *. rewrite lookup_insert_eq.
      assert (o0 = o) as -> by congruence.
      eexists. split; [done|]. cbn. by repeat split.
    + rewrite lookup_insert_ne by done. by rewrite Horder.
  - case_bool_decide as Hin; [|done]. injection Hstep as <-. cbn.
    rewrite process_order_orders. case_decide as Hd; [|by rewrite Horder].
    subst pid. rewrite Horder. cbn.
    eexists. split; [done|].
    destruct (Qlt_bool rnd (success_rate o)); cbn; by repeat split.
  - injection Hstep as <-. cbn. unfold update_price.
    destruct (price_data (store x) !! token); cbn; by rewrite Horder.
Qed.

Lemma order_identity_is_kept_witness :
  let x := after (take 1 round_trip) in
  let x' := after (take 2 round_trip) in
  (ord_status <$> orders (store x) !! "200910000000001") = Some "pending"
  ∧ (ord_status <$> orders (store x') !! "200910000000001") = Some "complete"
  ∧ (ord_transactiontype <$> orders (store x') !! "200910000000001") = Some "BUY".
Proof.
  intros x x'.
  assert (Hrun : exchange_run exchange_init (take 1 round_trip) = Some x)
    by (vm_compute; reflexivity).
  assert (Hstep : exchange_step x (ProcessOrder "200910000000001" (1 # 2) "t1")
                  = Some x') by (vm_compute; reflexivity).
  assert (Ho : orders (store x) !! "200910000000001" = Some (sbin_order "BUY" 10))
    by (vm_compute; reflexivity).
  destruct (order_identity_is_kept _ _ _ _ _ _ Hrun Hstep Ho)
    as (o' & Ho' & _ & _ & _ & _ & Hside & _).
  split; [by rewrite Ho|]. split; [vm_compute; reflexivity|].
  rewrite Ho'. cbn. rewrite Hside. reflexivity.
Defined.


End MockApiExtra.

(** * Properties of the price simulation *)

Module FeedExtra.

Import Bot Feed.

Lemma round_half_even_bound y :
  (inject_Z (round_half_even y) - (1 # 2) <= y
   ∧ y <= inject_Z (round_half_even y) + (1 # 2))%Q.
Proof.
  unfold round_half_even.
  pose proof (Qfloor_le y) as Hlo. pose proof (Qlt_floor y) as Hhi.
  rewrite inject_Z_plus in Hhi. change (inject_Z 1) with 1%Q in Hhi.
  destruct (Qcompare_spec (y - inject_Z (Qfloor y)) (1 # 2)) as [He|Hl|Hg].
  - destruct (Z.even (Qfloor y)).
    + split; lra.
    + rewrite inject_Z_plus. change (inject_Z 1) with 1%Q. split; lra.
  - split; lra.
  - rewrite inject_Z_plus. change (inject_Z 1) with 1%Q. split; lra.
Qed.

(** Rounding to two decimals moves a number by at most half a hundredth. *)
Lemma round_2_bound x : (x - (1 # 200) <= round x 2 ∧ round x 2 <= x + (1 # 200))%Q.
Proof.
  unfold round. change (inject_Z (10 ^ Z.of_nat 2)) with 100%Q.
  destruct (round_half_even_bound (x * 100)) as [H1 H2].
  set (k := inject_Z (round_half_even (x * 100))) in *.
  split.
  - apply Qle_shift_div_l; lra.
  - apply Qle_shift_div_r; lra.
Qed.

(** X25. One simulated move of a price keeps the day's range around the
    new price, the float [ltp * (1 + (r - 0.5) * 0.01)], before it is
    rounded: the stored low is at most it and the stored high at least it,
    the high never decreases and the low never increases. The stored last
    price is the new price rounded to two decimals, so it can leave the
    stored range, by at most half a hundredth. *)
Theorem price_move_keeps_range
    (info : price_info) (r : Q) (dv : Z) (now : string) :
  let new_ltp :=
    Binary64.to_Q
      (Binary64.of_Q (ltp info)
       * (Binary64.of_Z 1
          + (Binary64.of_Q r - Binary64.of_Q (1 # 2))
            * Binary64.of_Q (1 # 100)))%b64 in
  let info' := move_price info r dv now in
  (low info' <= new_ltp ∧ new_ltp <= high info'
   ∧ low info' <= low info ∧ high info <= high info'
   ∧ ltp info' = round new_ltp 2
   ∧ low info' - (1 # 200) <= ltp info'
   ∧ ltp info' <= high info' + (1 # 200))%Q
  ∧ open info' = open info ∧ close info' = close info
  ∧ volume info' = volume info + dv.
Proof.
  intros new_ltp info'. subst info'. unfold move_price. fold new_ltp.
  cbn [ltp low high open close volume].
  destruct (round_2_bound new_ltp) as [Hr1 Hr2].
  destruct (Qlt_bool (high info) new_ltp) eqn:Hh;
    destruct (Qlt_bool new_ltp (low info)) eqn:Hl;
    try apply Qlt_bool_iff in Hh; try apply Qlt_bool_iff in Hl;
    try apply Qlt_bool_false in Hh; try apply Qlt_bool_false in Hl;
    repeat split; try reflexivity; lra.
Qed.

(** X27. A pass of the price simulation neither adds nor removes an
    instrument. Outside the market hours (09:15 to 15:30, both included)
    it changes nothing; within them it moves every instrument once, and
    every last price it stores is a whole number of hundredths. *)
Theorem update_prices_pass
    (prices : gmap string price_info) (current_time : time)
    (draws : string → Q * Z) (now : string) :
  let prices' := _update_prices prices current_time draws now in
  dom prices' = dom prices
  ∧ (in_market_hours current_time = false → prices' = prices)
  ∧ (in_market_hours current_time = true →
     ∀ token,
       prices' !! token
       = (fun info => move_price info (draws token).1 (draws token).2 now)
           <$> prices !! token)
  ∧ (in_market_hours current_time = true →
     ∀ token info', prices' !! token = Some info' →
       ∃ k : Z, (ltp info' == inject_Z k / 100)%Q).
Proof.
  intros prices'. subst prices'. unfold _update_prices.
  assert (Hlook : ∀ token,
            map_imap (fun token info =>
                        Some (move_price info (draws token).1 (draws token).2 now))
                     prices !! token
            = (fun info => move_price info (draws token).1 (draws token).2 now)
                <$> prices !! token).
  { intros token. rewrite map_lookup_imap. by destruct (prices !! token). }
  destruct (in_market_hours current_time).
  - split; [|split; [done|split; [done|]]].
    + apply set_eq. intros token. rewrite !elem_of_dom, Hlook.
      by rewrite fmap_is_Some.
    + intros _ token info'. rewrite Hlook.
      destruct (prices !! token) as [info|]; [|done]. intros [= <-].
      eexists. unfold move_price, round. cbn [ltp]. reflexivity.
  - by repeat split.
Qed.

End FeedExtra.

(** * Properties of the sessions of the exchange *)

Module AuthExtra.

Import Auth.

Lemma substring_all s : substring 0 (String.length s) s = s.
Proof. induction s as [|c s IH]; cbn; [done|by rewrite IH]. Qed.

Lemma prefix_bearer_has_space s :
  String.prefix "Bearer " s = true → no_space s = false.
Proof.
  do 7 (destruct s as [|? s]; cbn -[ascii_dec]; [discriminate|];
        destruct (ascii_dec _ _) as [<-|]; [|discriminate]).
  intros _. reflexivity.
Qed.

Lemma replace_no_space fuel s :
  no_space s = true → replace_from fuel s "Bearer " "" = s.
Proof.
  revert s. induction fuel as [|fuel IH]; intros s Hs; [done|].
  cbn [replace_from].
  destruct (String.prefix "Bearer " s) eqn:Hp.
  { apply prefix_bearer_has_space in Hp. congruence. }
  destruct s as [|c s]; [done|]. cbn in Hs.
  apply andb_true_iff in Hs as [_ Hs]. by rewrite IH.
Qed.

Lemma prefix_app s t : String.prefix s (s +:+ t) = true.
Proof.
  induction s as [|a s IH]; [by destruct t|].
  change (match ascii_dec a a with
          | left _ => String.prefix s (s +:+ t)
          | right _ => false
          end = true).
  destruct (ascii_dec a a); [exact IH|congruence].
Qed.

Lemma substring_app s t :
  substring (String.length s) (String.length (s +:+ t) - String.length s) (s +:+ t)
  = t.
Proof.
  induction s as [|a s IH]; cbn.
  - rewrite Nat.sub_0_r. apply substring_all.
  - exact IH.
Qed.

Lemma replace_bearer token :
  no_space token = true → replace ("Bearer " +:+ token) "Bearer " "" = token.
Proof.
  intros Hs. unfold replace.
  change (replace_from (S ?n) ?s ?old ?new)
    with (if String.prefix old s then
            new +:+ replace_from n (substring (String.length old)
                                      (String.length s - String.length old) s)
                                 old new
          else match s with
               | EmptyString => EmptyString
               | String c s' => String c (replace_from n s' old new)
               end).
  rewrite prefix_app, substring_app.
  change ("" +:+ ?x) with x. by apply replace_no_space.
Qed.

Lemma no_space_app s1 s2 :
  no_space (s1 +:+ s2) = no_space s1 && no_space s2.
Proof.
  induction s1 as [|c s1 IH]; [done|].
  change (no_space (String c s1 +:+ s2))
    with (negb (Ascii.eqb c " ") && no_space (s1 +:+ s2)).
  rewrite IH. cbn [no_space]. by rewrite andb_assoc.
Qed.

Lemma user_found_iff (s : Sessions) token :
  existsb (fun it => String.eqb (usr_jwt_token it.2) token)
          (map_to_list (authenticated_users s)) = true
  ↔ ∃ user_id user_data,
      authenticated_users s !! user_id = Some user_data
      ∧ usr_jwt_token user_data = token.
Proof.
  rewrite existsb_exists. split.
  - intros ([uid ud] & Hin & Heq). exists uid, ud.
    apply list_elem_of_In, elem_of_map_to_list in Hin.
    by apply String.eqb_eq in Heq.
  - intros (uid & ud & Hl & Heq). exists (uid, ud). split.
    + by apply list_elem_of_In, elem_of_map_to_list.
    + by apply String.eqb_eq.
Qed.

Lemma validated_token_session
    (s : Sessions) (authorization : option string) (token : string) :
  validate_auth_token s authorization = Some token →
  ∃ header,
    authorization = Some header
    ∧ header ≠ ""
    ∧ String.prefix "Bearer " header = true
    ∧ token = replace header "Bearer " ""
    ∧ ∃ user_id user_data,
        authenticated_users s !! user_id = Some user_data
        ∧ usr_jwt_token user_data = token.
Proof.
  intros Hvalid. unfold validate_auth_token in Hvalid.
  destruct authorization as [header|]; [|done]. exists header.
  destruct (String.eqb header "") eqn:He; [done|].
  destruct (String.prefix "Bearer " header) eqn:Hp; [|done]. cbn in Hvalid.
  destruct (existsb _ _) eqn:Hex; [|done]. injection Hvalid as <-.
  split; [done|]. split; [by apply String.eqb_neq|]. split; [done|].
  split; [done|]. by apply user_found_iff.
Qed.

(** X28. [validate_auth_token] returns a token only for a non-empty
    header that starts with ["Bearer "], and only a token that some logged
    in user holds: a missing header, an empty one, one with another scheme
    and a token nobody was given are all refused. *)
Theorem validated_token_belongs_to_a_session
    (s : Sessions) (authorization : option string) (token : string)
    (Hvalid : validate_auth_token s authorization = Some token) :
  ∃ header,
    authorization = Some header
    ∧ header ≠ ""
    ∧ String.prefix "Bearer " header = true
    ∧ token = replace header "Bearer " ""
    ∧ ∃ user_id user_data,
        authenticated_users s !! user_id = Some user_data
        ∧ usr_jwt_token user_data = token.
Proof. by apply validated_token_session. Qed.

(** X29. A login with a client code and a password that are not empty
    opens a session: the header made of ["Bearer "] and the token it
    returns is accepted from then on and gives that token back, the margin
    of the new user is the one drawn at login, and the tokens of the
    sessions that exist stay valid when the user identifier is new. *)
Theorem login_opens_a_session
    (s : Sessions) (request : LoginRequest) (uuid now : string) (cash coll : Z)
    (Hcode : clientcode request ≠ "")
    (Hpass : password request ≠ "")
    (Huuid : no_space uuid = true) :
  let s' := (login request uuid now cash coll s).1 in
  ∃ tokens,
    (login request uuid now cash coll s).2 = Some tokens
    ∧ jwtToken tokens = "jwt_mock_" +:+ uuid
    ∧ validate_auth_token s' (bearer (jwtToken tokens)) = Some (jwtToken tokens)
    ∧ (availablecash <$> margin_data s' !! uuid) = Some cash
    ∧ (∀ authorization token,
         authenticated_users s !! uuid = None →
         validate_auth_token s authorization = Some token →
         validate_auth_token s' authorization = Some token).
Proof.
  intros s'. subst s'. unfold login.
  rewrite (proj2 (String.eqb_neq _ _) Hcode), (proj2 (String.eqb_neq _ _) Hpass).
  cbn [negb andb fst snd]. eexists. split; [reflexivity|]. cbn [jwtToken].
  split; [reflexivity|].
  assert (Hns : no_space ("jwt_mock_" +:+ uuid) = true)
    by (by rewrite no_space_app, Huuid).
  split; [|split].
  - unfold validate_auth_token, bearer.
    change (String.eqb ("Bearer " +:+ _) "") with false.
    rewrite prefix_app. cbn [orb negb]. rewrite (replace_bearer _ Hns).
    rewrite (proj2 (user_found_iff _ _)); [done|].
    eexists uuid, _. cbn. split; [apply lookup_insert_eq|done].
  - cbn. by rewrite lookup_insert_eq.
  - intros authorization token Hfresh Hvalid.
    apply validated_token_session in Hvalid
      as (header & -> & Hne & Hp & -> & uid & ud & Hl & Ht).
    unfold validate_auth_token.
    rewrite (proj2 (String.eqb_neq _ _) Hne), Hp. cbn [orb negb].
    rewrite (proj2 (user_found_iff _ _)); [done|].
    exists uid, ud. cbn. split; [|done].
    rewrite lookup_insert_ne; [done|]. intros ->. congruence.
Qed.


Lemma login_opens_a_session_witness :
  let request := {| clientcode := "A123"; password := "secret"; totp := None |} in
  let s' := (login request "0f8fad5b-d9cb-469f-a165-70867728950e" "t0"
                   100000 25000 sessions_init).1 in
  validate_auth_token s'
    (Some "Bearer jwt_mock_0f8fad5b-d9cb-469f-a165-70867728950e")
  = Some "jwt_mock_0f8fad5b-d9cb-469f-a165-70867728950e"
  ∧ validate_auth_token s' (Some "jwt_mock_0f8fad5b-d9cb-469f-a165-70867728950e")
    = None
  ∧ validate_auth_token s' None = None.
Proof.
  intros request s'.
  destruct (login_opens_a_session sessions_init request
              "0f8fad5b-d9cb-469f-a165-70867728950e" "t0" 100000 25000
              ltac:(discriminate) ltac:(discriminate) eq_refl)
    as (tokens & Hl & Hjwt & Hv & _).
  fold s' in Hv. rewrite Hjwt in Hv. split; [exact Hv|]. split; reflexivity.
Defined.

Lemma validated_token_belongs_to_a_session_witness :
  let request := {| clientcode := "A123"; password := "secret"; totp := None |} in
  let s' := (login request "u-1" "t0" 100000 25000 sessions_init).1 in
  validate_auth_token s' (Some "Bearer Bearer jwt_mock_u-1") = Some "jwt_mock_u-1"
  ∧ ∃ user_id user_data,
      authenticated_users s' !! user_id = Some user_data
      ∧ usr_jwt_token user_data = "jwt_mock_u-1".
Proof.
  intros request s'.
  assert (Hv : validate_auth_token s' (Some "Bearer Bearer jwt_mock_u-1")
               = Some "jwt_mock_u-1") by (vm_compute; reflexivity).
  destruct (validated_token_belongs_to_a_session s' _ _ Hv)
    as (header & _ & _ & _ & _ & Huser).
  split; [exact Hv|exact Huser].
Defined.

End AuthExtra.

(** * The bot against the simulated exchange *)

Module EndToEnd.

Import MockApi MockApiSpec MockApiExtra Bot BotSpec.

(** X30. The exit order of the bot closes the position on the exchange.
    With the ledger of the exchange as the broker's answer (its positions
    on distinct tokens), a SELL that the bot sizes from the ledger for a
    long position carries exactly its net quantity; once the exchange has
    accepted and filled it, the position is flat, its average price and
    its PnL are 0, and what was sold has grown by that quantity. *)
Theorem exit_order_flattens_position
    (st : TradingBotState) (s : MockDataStore) (key : string) (p : Position)
    (rnd : Q) (t0 t1 : string)
    (Hauth : authenticated st = true)
    (Hpos : positions s !! key = Some p)
    (Hkey : key = symboltoken p +:+ "_" +:+ MockApi.exchange p)
    (Hlong : 0 < netqty p)
    (Hdistinct : NoDup (symboltoken <$> (map_to_list (positions s)).*2))
    (Hknown : is_Some (get_symbol_info s (symboltoken p)))
    (Hfill : (rnd < 95 # 100)%Q) :
  ∃ payload,
    execute_market_order st (MockApi.get_positions true s) (tradingsymbol p)
                         (MockApi.exchange p) (symboltoken p) 0 "SELL"
    = Some payload
    ∧ req_quantity payload = netqty p
    ∧ ∃ p',
        positions (process_order (str (order_counter s + 1)) rnd t1
                     (place_order payload true t0 s).1.1) !! key = Some p'
        ∧ netqty p' = 0
        ∧ avgprice p' = 0%Q
        ∧ (pnl p' == 0)%Q
        ∧ buyqty p' = buyqty p
        ∧ sellqty p' = sellqty p + netqty p.
Proof.
  assert (Hin : p ∈ (map_to_list (positions s)).*2).
  { apply list_elem_of_fmap. exists (key, p). split; [done|].
    by apply elem_of_map_to_list. }
  exists (closing_order p). split.
  { unfold MockApi.get_positions. by apply execute_sell_distinct. }
  split; [done|].
  destruct (place_order_cases (closing_order p) true t0 s)
    as [[? _]|[(_ & Hnone & _)|(_ & _ & o & Hp & _ & _ & Hq & _ & Hot & Hside & Htok & Hex)]];
    [done|destruct Hknown; cbn in Hnone; congruence|].
  rewrite Hp. cbn [fst].
  cbn [closing_order market_payload req_quantity req_ordertype
       req_transactiontype req_symboltoken req_exchange] in Hq, Hot, Hside, Htok, Hex.
  destruct (process_order_fills (str (order_counter s + 1)) rnd t1
              (with_orders (generate_order_id s).2
                 (<[str (order_counter s + 1) := o]> (orders s))) o)
    as (_ & _ & H3).
  { cbn. apply lookup_insert_eq. }
  { unfold success_rate. by rewrite Hot. }
  assert (Hk : position_key o = key).
  { unfold position_key. by rewrite Htok, Hex, Hkey. }
  rewrite Hk in H3. cbn [positions with_orders generate_order_id snd] in H3.
  rewrite Hpos in H3. cbn [default] in H3.
  eexists. split; [exact H3|]. rewrite Hside, Hq.
  unfold update_position, mark_position, apply_fill.
  change (String.eqb "SELL" "BUY") with false. cbn [netqty avgprice pnl buyqty sellqty].
  rewrite Z.sub_diag. cbn. by repeat split.
Qed.

Lemma exit_order_flattens_position_witness :
  let s := store (after (take 2 round_trip)) in
  let st := bot_without_prices in
  netqty (position_at (after (take 2 round_trip)) "3045_NSE") = 10
  ∧ (req_quantity <$>
       execute_market_order st (MockApi.get_positions true s) "SBIN-EQ" "NSE"
                            "3045" 0 "SELL") = Some 10
  ∧ (netqty <$>
       positions
         (process_order "200910000000002" (1 # 2) "t3"
            (place_order (market_payload "SBIN-EQ" "NSE" "3045" 10 "SELL")
                         true "t2" s).1.1) !! "3045_NSE") = Some 0.
Proof.
  intros s st.
  assert (Hpos : positions s !! "3045_NSE"
                 = Some (position_at (after (take 2 round_trip)) "3045_NSE"))
    by (vm_compute; reflexivity).
  assert (Hnet : netqty (position_at (after (take 2 round_trip)) "3045_NSE") = 10)
    by (vm_compute; reflexivity).
  assert (Hnd : NoDup (symboltoken <$> (map_to_list (positions s)).*2)).
  { assert ((symboltoken <$> (map_to_list (positions s)).*2) = ["3045"]) as ->
      by (vm_compute; reflexivity).
    apply NoDup_singleton. }
  destruct (exit_order_flattens_position st s "3045_NSE" _ (1 # 2) "t2" "t3"
              eq_refl Hpos eq_refl ltac:(rewrite Hnet; lia) Hnd
              ltac:(vm_compute; by eexists) eq_refl)
    as (payload & Hexec & Hq & p' & Hp' & Hflat & _).
  split; [exact Hnet|]. split.
  - assert (Hexec' : execute_market_order st (MockApi.get_positions true s)
                       "SBIN-EQ" "NSE" "3045" 0 "SELL" = Some payload) by exact Hexec.
    rewrite Hexec'. cbn. by rewrite Hq, Hnet.
  - assert (payload = market_payload "SBIN-EQ" "NSE" "3045" 10 "SELL") as Hpl.
    { assert (Some payload = Some (market_payload "SBIN-EQ" "NSE" "3045" 10 "SELL")) as E.
      { rewrite <- Hexec. vm_compute. reflexivity. }
      by injection E. }
    rewrite Hpl in Hp'.
    assert (Hp'' : positions
         (process_order "200910000000002" (1 # 2) "t3"
            (place_order (market_payload "SBIN-EQ" "NSE" "3045" 10 "SELL")
                         true "t2" s).1.1) !! "3045_NSE" = Some p') by exact Hp'.
    rewrite Hp''. cbn. by rewrite Hflat.
Defined.

End EndToEnd.
